(** * APCS backend: command dispatch, schedule evaluation and telemetry ingest

    A shallow embedding of the JavaScript services of the APCS backend
    (services/mqttService.js, services/schedulerService.js,
    services/socketService.js, controllers/controlController.js) and of the
    actuator safety core of its specification, with the properties stated
    about them.

    Conventions of the embedding.
    - JavaScript strings are [string]s of bytes; whitespace is the ASCII
      whitespace (tab, LF, VT, FF, CR, space).
    - A JavaScript number is kept as the decimal it was written as
      ([JS.JSNum]): sign, decimal mantissa and power of ten, plus NaN and
      the two infinities.  Comparisons are exact.  This agrees with IEEE
      doubles on every decimal of at most 15 significant digits in the
      normal range, which covers every value the handlers accept.
    - The Mongo collections are lists in insertion order; an ObjectId is a
      [nat].  Store operations do not fail, so the [catch] branches of the
      handlers are not part of the model.  Timestamps are left out.
    - Handlers run in a state monad over [World].  What a handler does to
      the command store, to the broker and to its caller is also appended to
      [trace], in the order in which the event loop does it: a status write
      that is not awaited is issued at once and reaches the store when the
      running callback has returned. *)

From Stdlib Require Import String Ascii List Bool Arith ZArith NArith QArith Lia.
From Stdlib Require Import DecimalString.
Import ListNotations.
Close Scope Q_scope.
Local Open Scope nat_scope.
Local Open Scope string_scope.

(** ** JavaScript strings and numbers *)

Module JS.

Definition is_ws (c : ascii) : bool :=
  match nat_of_ascii c with
  | 9 | 10 | 11 | 12 | 13 | 32 => true
  | _ => false
  end.

Fixpoint trimStart (s : string) : string :=
  match s with
  | String c r => if is_ws c then trimStart r else s
  | EmptyString => EmptyString
  end.

(** [trimEnd] keeps a character when it is not whitespace or when something
    that is kept follows it. *)
Fixpoint trimEnd (s : string) : string :=
  match s with
  | EmptyString => EmptyString
  | String c r =>
      match trimEnd r with
      | EmptyString => if is_ws c then EmptyString else String c EmptyString
      | r' => String c r'
      end
  end.

(** [String.prototype.trim] *)
Definition trim (s : string) : string := trimEnd (trimStart s).

(** [String.prototype.startsWith] *)
Definition startsWith (s p : string) : bool := String.prefix p s.

(** [s.split(sep)] for a one-character separator: never empty, the empty
    string splits into one empty field. *)
Fixpoint split (sep : ascii) (s : string) : list string :=
  match s with
  | EmptyString => [EmptyString]
  | String c r =>
      if Ascii.eqb c sep then EmptyString :: split sep r
      else match split sep r with
           | f :: fs => String c f :: fs
           | [] => [String c EmptyString]
           end
  end.

(** Numbers. [Fin neg m e] is (-1)^neg * m * 10^e. *)
Inductive JSNum : Type :=
| NaN
| Inf (neg : bool)
| Fin (neg : bool) (m : N) (e : Z).

Definition ofZ (z : Z) : JSNum := Fin (z <? 0)%Z (Z.abs_N z) 0.

Definition isNaN (x : JSNum) : bool :=
  match x with NaN => true | _ => false end.

(** Value of a finite number scaled by 10^(-e0), for [e0 <= e]. *)
Definition scaled (e0 : Z) (neg : bool) (m : N) (e : Z) : Z :=
  let v := (Z.of_N m * 10 ^ (e - e0))%Z in if neg then (- v)%Z else v.

(** Three-way comparison of two numbers, [None] when one is NaN. *)
Definition compare (x y : JSNum) : option comparison :=
  match x, y with
  | NaN, _ | _, NaN => None
  | Inf a, Inf b => Some (if a then (if b then Eq else Lt) else (if b then Gt else Eq))
  | Inf a, Fin _ _ _ => Some (if a then Lt else Gt)
  | Fin _ _ _, Inf b => Some (if b then Gt else Lt)
  | Fin s1 m1 e1, Fin s2 m2 e2 =>
      let e0 := Z.min e1 e2 in
      Some (Z.compare (scaled e0 s1 m1 e1) (scaled e0 s2 m2 e2))
  end.

(** [x <= y], [x < y], [x > y], [x === y] on numbers. *)
Definition le (x y : JSNum) : bool :=
  match compare x y with Some Lt | Some Eq => true | _ => false end.
Definition lt (x y : JSNum) : bool :=
  match compare x y with Some Lt => true | _ => false end.
Definition gt (x y : JSNum) : bool :=
  match compare x y with Some Gt => true | _ => false end.
Definition strictEq (x y : JSNum) : bool :=
  match compare x y with Some Eq => true | _ => false end.

(** ToBoolean on a number: NaN and both zeros are falsy. *)
Definition truthy (x : JSNum) : bool :=
  match x with
  | NaN => false
  | Inf _ => true
  | Fin _ m _ => negb (N.eqb m 0)
  end.

(** [x || 0] *)
Definition orZero (x : JSNum) : JSNum := if truthy x then x else ofZ 0.

(** *** Reading numbers *)

Definition digitVal (c : ascii) : option N :=
  let n := N_of_ascii c in
  if ((48 <=? n) && (n <=? 57))%N then Some (n - 48)%N else None.

Definition hexVal (c : ascii) : option N :=
  let n := N_of_ascii c in
  if ((48 <=? n) && (n <=? 57))%N then Some (n - 48)%N
  else if ((97 <=? n) && (n <=? 102))%N then Some (n - 87)%N
  else if ((65 <=? n) && (n <=? 70))%N then Some (n - 55)%N
  else None.

(** The longest run of decimal digits at the head of [s]: the digits (as the
    number [acc * 10^k + digits]), how many there were, and the rest. *)
Fixpoint scanDigits (acc : N) (cnt : nat) (s : string) : N * nat * string :=
  match s with
  | String c r =>
      match digitVal c with
      | Some d => scanDigits (acc * 10 + d) (S cnt) r
      | None => (acc, cnt, s)
      end
  | EmptyString => (acc, cnt, s)
  end.

(** The ExponentPart of a decimal literal at the head of [s], when there is
    a complete one; otherwise nothing is consumed. *)
Definition scanExponent (s : string) : Z * string :=
  match s with
  | String c r =>
      if (Ascii.eqb c "e" || Ascii.eqb c "E")%bool then
        let '(neg, r1) :=
          match r with
          | String "-" r' => (true, r')
          | String "+" r' => (false, r')
          | _ => (false, r)
          end in
        match scanDigits 0 0 r1 with
        | (_, O, _) => (0%Z, s)
        | (x, _, rest) => ((if neg then - Z.of_N x else Z.of_N x)%Z, rest)
        end
      else (0%Z, s)
  | EmptyString => (0%Z, s)
  end.

(** The longest prefix of [s] that is a StrDecimalLiteral, with its value
    and the unread rest; [None] when no prefix is one. *)
Definition scanDecimal (s : string) : option (JSNum * string) :=
  let '(neg, s1) :=
    match s with
    | String "-" r => (true, r)
    | String "+" r => (false, r)
    | _ => (false, s)
    end in
  if String.prefix "Infinity" s1 then
    Some (Inf neg, String.substring 8 (String.length s1 - 8) s1)
  else
    let '(ip, ni, s2) := scanDigits 0 0 s1 in
    let '(m, nf, s3) :=
      match s2 with
      | String "." r => let '(m, nf, r') := scanDigits ip 0 r in
                        match ni, nf with
                        | O, O => (ip, O, s2)
                        | _, _ => (m, nf, r')
                        end
      | _ => (ip, O, s2)
      end in
    match ni, nf with
    | O, O => None
    | _, _ => let '(ex, s4) := scanExponent s3 in
              Some (Fin neg m (ex - Z.of_nat nf), s4)
    end.

(** The global [parseFloat]. *)
Definition parseFloat (s : string) : JSNum :=
  match scanDecimal (trimStart s) with
  | Some (x, _) => x
  | None => NaN
  end.

Fixpoint scanRadix (radix : N) (acc : N) (s : string) : option N :=
  match s with
  | EmptyString => Some acc
  | String c r =>
      match hexVal c with
      | Some d => if (d <? radix)%N then scanRadix radix (acc * radix + d) r else None
      | None => None
      end
  end.

(** [Number(s)] on a string (StringToNumber): the whole trimmed string has
    to be a numeric literal, the empty string is 0. *)
Definition Number (s : string) : JSNum :=
  let t := trim s in
  let radixLit (radix : N) (r : string) :=
    match r with
    | EmptyString => NaN
    | _ => match scanRadix radix 0 r with Some v => Fin false v 0 | None => NaN end
    end in
  match t with
  | EmptyString => Fin false 0 0
  | String "0" (String "x" r) | String "0" (String "X" r) => radixLit 16%N r
  | String "0" (String "o" r) | String "0" (String "O" r) => radixLit 8%N r
  | String "0" (String "b" r) | String "0" (String "B" r) => radixLit 2%N r
  | _ => match scanDecimal t with
         | Some (x, EmptyString) => x
         | _ => NaN
         end
  end.

(** *** Writing numbers: Number::toString in radix 10 *)

Fixpoint repeat0 (n : nat) : string :=
  match n with O => EmptyString | S k => String "0" (repeat0 k) end.

(** Drops the zeros at the end of a digit string and counts them. *)
Fixpoint stripZeros (s : string) : string * nat :=
  match s with
  | EmptyString => (EmptyString, O)
  | String c r =>
      match stripZeros r with
      | (EmptyString, z) => if Ascii.eqb c "0" then (EmptyString, S z)
                            else (String c EmptyString, z)
      | (r', z) => (String c r', z)
      end
  end.

Definition digitsOfN (m : N) : string := NilZero.string_of_uint (N.to_uint m).

Definition toString (x : JSNum) : string :=
  match x with
  | NaN => "NaN"
  | Inf neg => if neg then "-Infinity" else "Infinity"
  | Fin neg m e =>
      if N.eqb m 0 then "0" else
      let '(ds, z) := stripZeros (digitsOfN m) in
      let k := Z.of_nat (String.length ds) in
      let n := (k + e + Z.of_nat z)%Z in
      let body :=
        if ((k <=? n) && (n <=? 21))%Z then ds ++ repeat0 (Z.to_nat (n - k))
        else if ((0 <? n) && (n <=? 21))%Z then
          String.substring 0 (Z.to_nat n) ds ++ "." ++
          String.substring (Z.to_nat n) (String.length ds - Z.to_nat n) ds
        else if ((-6 <? n) && (n <=? 0))%Z then
          "0." ++ repeat0 (Z.to_nat (- n)) ++ ds
        else
          let ex := (n - 1)%Z in
          let exs := (if (ex <? 0)%Z then "-" else "+") ++ digitsOfN (Z.abs_N ex) in
          match ds with
          | String d EmptyString => String d EmptyString ++ "e" ++ exs
          | String d r => String d EmptyString ++ "." ++ r ++ "e" ++ exs
          | EmptyString => EmptyString
          end in
      if neg then "-" ++ body else body
  end.

End JS.

(** ** Documents and the world *)

(** models/Device.js *)
Record Device := mkDevice {
  dev_id : nat;
  dev_userId : nat;
  dev_name : string;
  dev_status : string
}.

(** models/Command.js *)
Record Command := mkCommand {
  cmd_id : nat;
  cmd_deviceId : nat;
  cmd_type : string;
  cmd_value : JS.JSNum;
  cmd_status : string
}.

(** models/SensorData.js *)
Record SensorData := mkSensorData {
  sd_id : nat;
  sd_deviceId : nat;
  sd_type : string;
  sd_value : JS.JSNum
}.

(** models/Notification.js *)
Record Notification := mkNotification {
  ntf_id : nat;
  ntf_userId : nat;
  ntf_title : string;
  ntf_message : string;
  ntf_type : string;
  ntf_read : bool
}.

(** models/Schedule.js *)
Record Schedule := mkSchedule {
  sch_id : nat;
  sch_deviceId : nat;
  sch_type : string;
  sch_time : string;
  sch_days : list string;
  sch_amount : JS.JSNum;
  sch_enabled : bool
}.

(** One message handed to an MQTT client for publishing. *)
Record Publish := mkPublish {
  pub_broker : string;
  pub_topic : string;
  pub_payload : string
}.

(** What a handler does that can be observed from outside, in the order in
    which the event loop does it. *)
Inductive Event : Type :=
| CommandCreated (c : Command)
| UpdateIssued (id : nat) (status : string)
| UpdateDurable (id : nat) (status : string)
| Published (p : Publish) (acked : bool)
| SendCommandResult (b : bool)
| Responded (code : nat) (success : bool) (message : string)
| EmitError (message : string)
| EmitNotification (n : Notification)
| EmitCommandStatus (id : nat) (type : string) (value : JS.JSNum) (status : string)
| RoomNotification (deviceId : nat) (n : Notification)
| RoomDeviceStatus (deviceId : nat) (status : string).

(** The part of the world the handlers do not control: whether the broker
    acknowledges the n-th publish, and whether the one-shot client of the
    food controller gets its 'connect' event (or its 'error' event). *)
Record Net := mkNet {
  acks : nat -> bool;
  direct_connects : bool
}.

(** The collections, the service's [this.connected && this.client], the
    network, the messages handed to a client so far ([wire]), the status
    writes issued and not yet in the store ([inflight]), and the trace. *)
Record World := mkWorld {
  devices : list Device;
  commands : list Command;
  sensorData : list SensorData;
  notifications : list Notification;
  schedules : list Schedule;
  connected : bool;
  net : Net;
  wire : list Publish;
  inflight : list (nat * string);
  trace : list Event
}.

Definition set_devices (f : list Device -> list Device) (w : World) : World :=
  mkWorld (f (devices w)) (commands w) (sensorData w) (notifications w)
          (schedules w) (connected w) (net w) (wire w) (inflight w) (trace w).

Definition set_commands (f : list Command -> list Command) (w : World) : World :=
  mkWorld (devices w) (f (commands w)) (sensorData w) (notifications w)
          (schedules w) (connected w) (net w) (wire w) (inflight w) (trace w).

Definition set_sensorData (f : list SensorData -> list SensorData) (w : World) : World :=
  mkWorld (devices w) (commands w) (f (sensorData w)) (notifications w)
          (schedules w) (connected w) (net w) (wire w) (inflight w) (trace w).

Definition set_notifications (f : list Notification -> list Notification) (w : World) : World :=
  mkWorld (devices w) (commands w) (sensorData w) (f (notifications w))
          (schedules w) (connected w) (net w) (wire w) (inflight w) (trace w).

Definition set_wire (f : list Publish -> list Publish) (w : World) : World :=
  mkWorld (devices w) (commands w) (sensorData w) (notifications w)
          (schedules w) (connected w) (net w) (f (wire w)) (inflight w) (trace w).

Definition set_inflight (f : list (nat * string) -> list (nat * string)) (w : World) : World :=
  mkWorld (devices w) (commands w) (sensorData w) (notifications w)
          (schedules w) (connected w) (net w) (wire w) (f (inflight w)) (trace w).

Definition log (e : Event) (w : World) : World :=
  mkWorld (devices w) (commands w) (sensorData w) (notifications w)
          (schedules w) (connected w) (net w) (wire w) (inflight w) (trace w ++ [e])%list.

(** ** The handler monad *)

Definition M (A : Type) : Type := World -> A * World.

Definition ret {A} (a : A) : M A := fun w => (a, w).

Definition bind {A B} (c : M A) (k : A -> M B) : M B :=
  fun w => let (a, w') := c w in k a w'.

Definition get : M World := fun w => (w, w).

Definition modify (f : World -> World) : M unit := fun w => (tt, f w).

Declare Scope handler_scope.
Delimit Scope handler_scope with handler.
Notation "x <- c ;; k" := (bind c (fun x => k))
  (at level 61, c at next level, right associativity) : handler_scope.
Notation "c ;; k" := (bind c (fun _ => k))
  (at level 61, right associativity) : handler_scope.
Local Open Scope handler_scope.

Definition exec {A} (c : M A) (w : World) : World := snd (c w).
Definition result {A} (c : M A) (w : World) : A := fst (c w).

(** [for (const x of l) body(x)] *)
Fixpoint forEach {A} (l : list A) (body : A -> M unit) : M unit :=
  match l with
  | [] => ret tt
  | x :: r => body x ;; forEach r body
  end.

Definition emit (e : Event) : M unit := modify (log e).

(** ** The collections *)

(** [Device.find({ userId })] *)
Definition Device_find_userId (uid : nat) : M (list Device) :=
  w <- get ;; ret (filter (fun d => Nat.eqb (dev_userId d) uid) (devices w)).

(** [Device.find({ status })] *)
Definition Device_find_status (st : string) : M (list Device) :=
  w <- get ;; ret (filter (fun d => String.eqb (dev_status d) st) (devices w)).

(** [Device.findById(id)] *)
Definition Device_findById (id : nat) : M (option Device) :=
  w <- get ;; ret (find (fun d => Nat.eqb (dev_id d) id) (devices w)).

(** [Schedule.find({ enabled: true })] *)
Definition Schedule_find_enabled : M (list Schedule) :=
  w <- get ;; ret (filter sch_enabled (schedules w)).

(** [await Command.create({ deviceId, type, value, status })] *)
Definition Command_create (deviceId : nat) (type : string) (value : JS.JSNum)
    (status : string) : M Command :=
  w <- get ;;
  let c := mkCommand (length (commands w)) deviceId type value status in
  modify (set_commands (fun cs => (cs ++ [c])%list)) ;;
  emit (CommandCreated c) ;;
  ret c.

Definition with_status (st : string) (c : Command) : Command :=
  mkCommand (cmd_id c) (cmd_deviceId c) (cmd_type c) (cmd_value c) st.

Definition write_status (id : nat) (st : string) (cs : list Command) : list Command :=
  map (fun c => if Nat.eqb (cmd_id c) id then with_status st c else c) cs.

(** A status write handed to the store and not awaited:
    [Command.findByIdAndUpdate(id, { status }).catch(...)]. *)
Definition Command_update_issue (id : nat) (st : string) : M unit :=
  modify (set_inflight (fun q => (q ++ [(id, st)])%list)) ;;
  emit (UpdateIssued id st).

(** A write in flight reaches the store. *)
Definition makeDurable (write : nat * string) : M unit :=
  let '(id, st) := write in
  modify (set_commands (write_status id st)) ;;
  emit (UpdateDurable id st).

(** The event loop gets control back: the writes in flight reach the store,
    oldest first. *)
Definition settle : M unit :=
  w <- get ;;
  forEach (inflight w) makeDurable ;;
  modify (set_inflight (fun _ => [])).

(** A status write whose completion the caller waits for:
    [Command.findByIdAndUpdate(id, { status }).then(...)], or
    [command.status = st; await command.save()]. *)
Definition Command_update (id : nat) (st : string) : M unit :=
  Command_update_issue id st ;; settle.

(** The ids of the stored commands are their positions, as [Command_create]
    assigns them. *)
Definition commandsIndexed (cs : list Command) : Prop :=
  forall i c, nth_error cs i = Some c -> cmd_id c = i.

(** A world between two handlers: no status write is in flight. *)
Definition quiescent (w : World) : Prop :=
  inflight w = [] /\ commandsIndexed (commands w).

(** [await SensorData.create({ deviceId, type, value })] *)
Definition SensorData_create (deviceId : nat) (type : string) (value : JS.JSNum)
    : M SensorData :=
  w <- get ;;
  let r := mkSensorData (length (sensorData w)) deviceId type value in
  modify (set_sensorData (fun l => (l ++ [r])%list)) ;;
  ret r.

(** [await Notification.create({ userId, title, message, type, read })] *)
Definition Notification_create (uid : nat) (title message type : string)
    : M Notification :=
  w <- get ;;
  let n := mkNotification (length (notifications w)) uid title message type false in
  modify (set_notifications (fun l => (l ++ [n])%list)) ;;
  ret n.

(** [client.publish(topic, payload, { qos: 1, retain: false }, cb)]: the
    result is whether [cb] is called without an error. *)
Definition publish (broker topic payload : string) : M bool :=
  w <- get ;;
  let p := mkPublish broker topic payload in
  let ok := acks (net w) (length (wire w)) in
  modify (set_wire (fun l => (l ++ [p])%list)) ;;
  emit (Published p ok) ;;
  ret ok.

(** ** services/mqttService.js *)

Definition brokerUrl : string := "mqtt://broker.hivemq.com:1883".
Definition c2sTopic : string := "/seniorDesign/c2s".
Definition s2cTopic : string := "/seniorDesign/s2c".

(** The [switch (commandType)] of [sendCommand]; [None] is its default
    branch. *)
Definition mqttCommand (commandType : string) (value : JS.JSNum) : option string :=
  if String.eqb commandType "dispenseFood" then Some ("F" ++ JS.toString value)
  else if String.eqb commandType "dispenseWater" then Some ("W" ++ JS.toString value)
  else if String.eqb commandType "setTemperature" then Some ("T" ++ JS.toString value)
  else None.

Definition sendCommand (commandType : string) (value : JS.JSNum) (deviceId : nat)
    : M bool :=
  w <- get ;;
  if negb (connected w) then emit (SendCommandResult false) ;; ret false
  else
    match mqttCommand commandType value with
    | None => emit (SendCommandResult false) ;; ret false
    | Some payload =>
        command <- Command_create deviceId commandType (JS.orZero value) "pending" ;;
        ok <- publish brokerUrl s2cTopic payload ;;
        if negb ok then emit (SendCommandResult false) ;; ret false
        else
          Command_update (cmd_id command) "processing" ;;
          emit (SendCommandResult true) ;;
          ret true
    end.

(** [createNotificationForSensorThreshold], [None] for [null]. *)
Definition createNotificationForSensorThreshold (deviceId : nat) (type : string)
    (value threshold : JS.JSNum) (level : string) : M (option Notification) :=
  device <- Device_findById deviceId ;;
  match device with
  | None => ret None
  | Some device =>
      let warning := String.eqb level "warning" in
      let v := JS.toString value in
      let content :=
        if String.eqb type "food" then
          Some (if warning then "Low Food Level" else "Critical Food Level",
                if warning then "Food level is at " ++ v ++ "%. Consider refilling soon."
                else "Food level is critically low at " ++ v ++
                     "%. Please refill as soon as possible.",
                if warning then "warning" else "danger")
        else if String.eqb type "water" then
          Some (if warning then "Low Water Level" else "Critical Water Level",
                if warning then "Water level is at " ++ v ++ "%. Consider refilling soon."
                else "Water level is critically low at " ++ v ++
                     "%. Please refill as soon as possible.",
                if warning then "warning" else "danger")
        else if String.eqb type "temperature" then
          Some ("Temperature Alert",
                "Temperature is " ++ (if JS.gt value threshold then "above" else "below")
                ++ " the recommended range at " ++ v ++ "°C.",
                "warning")
        else if String.eqb type "humidity" then
          Some ("Humidity Alert",
                "Humidity is " ++ (if JS.gt value threshold then "above" else "below")
                ++ " the recommended range at " ++ v ++ "%.",
                "warning")
        else None in
      match content with
      | None => ret None
      | Some (title, message, notificationType) =>
          n <- Notification_create (dev_userId device) title message notificationType ;;
          ret (Some n)
      end
  end.

(** What [handleSensorData] returns: nothing on its early exits, otherwise
    the last device it updated. *)
Inductive SensorResult : Type :=
| Skipped
| Updated (device : option Device).

(** The threshold notification of one reading, sent to the device room when
    it was created. *)
Definition notifyThreshold (deviceId : nat) (type : string) (value : JS.JSNum)
    (threshold : Z) (level : string) : M unit :=
  n <- createNotificationForSensorThreshold deviceId type value (JS.ofZ threshold) level ;;
  match n with
  | Some n => emit (RoomNotification deviceId n)
  | None => ret tt
  end.

(** The [values.map(...)] of [handleSensorData]. *)
Definition parseValues (data : string) : list JS.JSNum :=
  map (fun val => JS.parseFloat (JS.trim val)) (JS.split "," data).

(** The threshold checks on a reading that was just stored: the
    [if (sensor.type === 'food') ... else if (sensor.type === 'water') ...]
    of the inner loop. *)
Definition checkThresholds (device : Device) (type : string) (value : JS.JSNum)
    : M unit :=
  if String.eqb type "food" then
    if JS.le value (JS.ofZ 10) then
      notifyThreshold (dev_id device) "food" value 10 "critical"
    else if JS.le value (JS.ofZ 20) then
      notifyThreshold (dev_id device) "food" value 20 "warning"
    else ret tt
  else if String.eqb type "water" then
    if JS.le value (JS.ofZ 15) then
      notifyThreshold (dev_id device) "water" value 15 "critical"
    else if JS.le value (JS.ofZ 25) then
      notifyThreshold (dev_id device) "water" value 25 "warning"
    else ret tt
  else ret tt.

(** The body of the loop over the devices. An index past the end of
    [values] would read [undefined]; the length check before the loop
    excludes it. *)
Definition updateDevice (values : list JS.JSNum) (device : Device) : M unit :=
  let sensorData :=
    [ ("food", nth 0 values JS.NaN);
      ("water", nth 1 values JS.NaN);
      ("temperature", nth 2 values JS.NaN);
      ("humidity", nth 3 values JS.NaN) ] in
  forEach sensorData (fun '(type, value) =>
    SensorData_create (dev_id device) type value ;;
    checkThresholds device type value).

Definition handleSensorData (data : string) : M SensorResult :=
  if JS.startsWith data "TEST-" then ret Skipped
  else
    let values := parseValues data in
    if Nat.ltb (length values) 4 || existsb JS.isNaN values then ret Skipped
    else
      devices <- Device_find_status "online" ;;
      if Nat.eqb (length devices) 0 then ret Skipped
      else
        forEach devices (updateDevice values) ;;
        ret (Updated (last (map Some devices) None)).

(** ** controllers/controlController.js *)

(** An authenticated request: [req.user._id] and the fields of [req.body]
    the handlers read ([None] when the field is absent). *)
Record Request := mkRequest {
  req_user : nat;
  body_amount : option JS.JSNum;
  body_temperature : option JS.JSNum
}.

(** [res.status(code).json({ success, message })] *)
Definition respond (code : nat) (success : bool) (message : string) : M unit :=
  emit (Responded code success message).

(** [!amount || amount <= 0 || amount > 100] *)
Definition invalidAmount (amount : option JS.JSNum) : bool :=
  match amount with
  | None => true
  | Some a => negb (JS.truthy a) || JS.le a (JS.ofZ 0) || JS.gt a (JS.ofZ 100)
  end.

(** [temperature === undefined || temperature < 15 || temperature > 30] *)
Definition invalidTemperature (temperature : option JS.JSNum) : bool :=
  match temperature with
  | None => true
  | Some t => JS.lt t (JS.ofZ 15) || JS.gt t (JS.ofZ 30)
  end.

Definition directBrokerUrl : string := "mqtt://test.mosquitto.org".

(** [dispenseFood]: validates, records the command, and publishes through a
    client of its own.  The callbacks of that client do not wait for the
    status write: the write is issued, the response is sent, and the write
    reaches the store when the callback has returned. *)
Definition dispenseFood (req : Request) : M unit :=
  let amount := body_amount req in
  if invalidAmount amount then
    respond 400 false "Invalid amount. Must be between 1 and 100."
  else
    devices <- Device_find_userId (req_user req) ;;
    match devices with
    | [] => respond 404 false "No devices found"
    | device :: _ =>
        if negb (String.eqb (dev_status device) "online") then
          respond 400 false "Device is offline or in maintenance"
        else
          command <- Command_create (dev_id device) "dispenseFood"
                       (JS.orZero (match amount with Some a => a | None => JS.NaN end))
                       "pending" ;;
          w <- get ;;
          if direct_connects (net w) then
            ok <- publish directBrokerUrl "/seniorDesign/s2c" "F0" ;;
            if negb ok then
              Command_update_issue (cmd_id command) "failed" ;;
              respond 500 false "Failed to send command to device" ;;
              settle
            else
              Command_update_issue (cmd_id command) "processing" ;;
              respond 200 true "Food dispense command sent successfully" ;;
              settle
          else
            Command_update_issue (cmd_id command) "failed" ;;
            respond 500 false "MQTT connection error" ;;
            settle
    end.

Definition dispenseWater (req : Request) : M unit :=
  let amount := body_amount req in
  if invalidAmount amount then
    respond 400 false "Invalid amount. Must be between 1 and 100."
  else
    devices <- Device_find_userId (req_user req) ;;
    match devices with
    | [] => respond 404 false "No devices found"
    | device :: _ =>
        if negb (String.eqb (dev_status device) "online") then
          respond 400 false "Device is offline or in maintenance"
        else
          commandSent <- sendCommand "dispenseWater"
                           (match amount with Some a => a | None => JS.NaN end)
                           (dev_id device) ;;
          if negb commandSent then
            respond 500 false "Failed to send command to device"
          else
            respond 200 true "Water dispense command sent successfully"
    end.

Definition setTemperature (req : Request) : M unit :=
  let temperature := body_temperature req in
  if invalidTemperature temperature then
    respond 400 false "Invalid temperature. Must be between 15°C and 30°C."
  else
    devices <- Device_find_userId (req_user req) ;;
    match devices with
    | [] => respond 404 false "No devices found"
    | device :: _ =>
        if negb (String.eqb (dev_status device) "online") then
          respond 400 false "Device is offline or in maintenance"
        else
          commandSent <- sendCommand "setTemperature"
                           (match temperature with Some t => t | None => JS.NaN end)
                           (dev_id device) ;;
          if negb commandSent then
            respond 500 false "Failed to send command to device"
          else
            respond 200 true "Temperature setting command sent successfully"
    end.

(** [devices[0]] of [Device.find({ userId })], when there is one. *)
Definition primaryDevice (uid : nat) (w : World) : option Device :=
  hd_error (filter (fun d => Nat.eqb (dev_userId d) uid) (devices w)).

(** ** services/socketService.js *)

(** The three command handlers of a connected socket differ in the command
    type, the validation and the texts only. [uid] is [socket.user._id] and
    [value] the field read from the event's data. *)
Definition socketCommand (commandType : string) (invalid : option JS.JSNum -> bool)
    (invalidMessage title : string) (message : JS.JSNum -> string)
    (uid : nat) (value : option JS.JSNum) : M unit :=
  if invalid value then emit (EmitError invalidMessage)
  else
    let v := match value with Some v => v | None => JS.NaN end in
    devices <- Device_find_userId uid ;;
    match devices with
    | [] => emit (EmitError "No devices found")
    | device :: _ =>
        command <- Command_create (dev_id device) commandType v "pending" ;;
        mqttSent <- sendCommand commandType v (dev_id device) ;;
        status <- (if mqttSent then
                     Command_update (cmd_id command) "processing" ;; ret "processing"
                   else ret (cmd_status command)) ;;
        notification <- Notification_create uid title (message v) "info" ;;
        emit (EmitNotification notification) ;;
        emit (EmitCommandStatus (cmd_id command) commandType v status)
    end.

Definition socket_dispenseFood : nat -> option JS.JSNum -> M unit :=
  socketCommand "dispenseFood" invalidAmount
    "Invalid amount. Must be between 1 and 100."
    "Food Dispense Command Sent"
    (fun amount => "Command to dispense " ++ JS.toString amount ++
                   "% of food has been sent to the device.").

Definition socket_dispenseWater : nat -> option JS.JSNum -> M unit :=
  socketCommand "dispenseWater" invalidAmount
    "Invalid amount. Must be between 1 and 100."
    "Water Dispense Command Sent"
    (fun amount => "Command to dispense " ++ JS.toString amount ++
                   "% of water has been sent to the device.").

Definition socket_setTemperature : nat -> option JS.JSNum -> M unit :=
  socketCommand "setTemperature" invalidTemperature
    "Invalid temperature. Must be between 15°C and 30°C."
    "Temperature Command Sent"
    (fun temperature => "Command to set temperature to " ++ JS.toString temperature ++
                        "°C has been sent to the device.").

(** [io.on('connection')] marks the first device of the user online and
    the 'disconnect' handler marks it offline. *)

Definition Device_save_status (id : nat) (st : string) : M unit :=
  modify (set_devices (map (fun d =>
    if Nat.eqb (dev_id d) id
    then mkDevice (dev_id d) (dev_userId d) (dev_name d) st
    else d))).

Definition socket_connect (uid : nat) : M unit :=
  devices <- Device_find_userId uid ;;
  match devices with
  | device :: _ =>
      Device_save_status (dev_id device) "online" ;;
      emit (RoomDeviceStatus (dev_id device) "online")
  | [] => ret tt
  end.

Definition socket_disconnect (uid : nat) : M unit :=
  devices <- Device_find_userId uid ;;
  match devices with
  | device :: _ =>
      Device_save_status (dev_id device) "offline" ;;
      emit (RoomDeviceStatus (dev_id device) "offline")
  | [] => ret tt
  end.

(** ** services/schedulerService.js *)

Inductive Weekday : Type :=
| Sunday | Monday | Tuesday | Wednesday | Thursday | Friday | Saturday.

(** [toLocaleString('en-US', { weekday: 'long' })] *)
Definition weekdayName (d : Weekday) : string :=
  match d with
  | Sunday => "Sunday" | Monday => "Monday" | Tuesday => "Tuesday"
  | Wednesday => "Wednesday" | Thursday => "Thursday" | Friday => "Friday"
  | Saturday => "Saturday"
  end.

(** What [shouldRunSchedule] reads off [new Date()]: the local weekday,
    [getHours()] and [getMinutes()]. *)
Record Instant := mkInstant {
  weekday : Weekday;
  hours : Z;
  minutes : Z
}.

(** [schedule.time.split(':').map(Number)] *)
Definition parseTime (time : string) : list JS.JSNum :=
  map JS.Number (JS.split ":" time).

(** [current === parsed] where [parsed] is [undefined] ([None]) when the
    split produced too few fields. *)
Definition sameNumber (current : Z) (parsed : option JS.JSNum) : bool :=
  match parsed with
  | Some p => JS.strictEq (JS.ofZ current) p
  | None => false
  end.

Definition shouldRunSchedule (schedule : Schedule) (now : Instant) : bool :=
  let currentDay := weekdayName (weekday now) in
  let currentHours := hours now in
  let currentMinutes := minutes now in
  let parts := parseTime (sch_time schedule) in
  let scheduleHours := nth_error parts 0 in
  let scheduleMinutes := nth_error parts 1 in
  let isScheduledDay := existsb (String.eqb currentDay) (sch_days schedule) in
  let isScheduledTime :=
    sameNumber currentHours scheduleHours && sameNumber currentMinutes scheduleMinutes in
  sch_enabled schedule && isScheduledDay && isScheduledTime.

(** What the tick does for a schedule that is due. *)
Definition executeSchedule (schedule : Schedule) : M unit :=
  device <- Device_findById (sch_deviceId schedule) ;;
  match device with
  | None => ret tt
  | Some _ =>
      let type := if String.eqb (sch_type schedule) "food"
                  then "dispenseFood" else "dispenseWater" in
      command <- Command_create (sch_deviceId schedule) type
                   (sch_amount schedule) "pending" ;;
      mqttSent <- sendCommand type (sch_amount schedule) (sch_deviceId schedule) ;;
      if mqttSent then Command_update (cmd_id command) "processing"
      else ret tt
  end.

(** One tick of the scheduler; the clock does not advance during it. *)
Definition checkAndExecuteSchedules (now : Instant) : M unit :=
  schedules <- Schedule_find_enabled ;;
  if Nat.eqb (length schedules) 0 then ret tt
  else
    forEach schedules (fun schedule =>
      if shouldRunSchedule schedule now then executeSchedule schedule
      else ret tt).

(** ** The command kinds and their wire codes *)

(** The [enum] of [type] in models/Command.js. *)
Inductive CommandKind : Type :=
| DispenseFood
| DispenseWater
| SetTemperature.

Definition kindName (k : CommandKind) : string :=
  match k with
  | DispenseFood => "dispenseFood"
  | DispenseWater => "dispenseWater"
  | SetTemperature => "setTemperature"
  end.

(** Modelled from the spec: the reader of a wire message on the hardware
    side is not part of this repository; it recovers the kind from the
    leading letter of the payload. *)
Definition kindOfPayload (payload : string) : option CommandKind :=
  match payload with
  | String "F" _ => Some DispenseFood
  | String "W" _ => Some DispenseWater
  | String "T" _ => Some SetTemperature
  | _ => None
  end.

(** The leading letter of a payload. *)
Definition wireLetter (payload : string) : option ascii :=
  match payload with
  | String c _ => Some c
  | EmptyString => None
  end.

(** The leading letter of the payload [sendCommand] builds, if any. *)
Definition wireCode (commandType : string) (value : JS.JSNum) : option ascii :=
  match mqttCommand commandType value with
  | Some payload => wireLetter payload
  | None => None
  end.

(** ** Schedule times in "HH:MM" form *)

Definition digitChar (d : Z) : ascii := ascii_of_N (48 + Z.to_N d).

Definition twoDigits (n : Z) : string :=
  String (digitChar (n / 10)) (String (digitChar (n mod 10)) EmptyString).

(** The text the schedule controller accepts for hour [h] and minute [m]:
    [/^([01]\d|2[0-3]):([0-5]\d)$/]. *)
Definition hhmm (h m : Z) : string := twoDigits h ++ ":" ++ twoDigits m.

(** ** Write before acknowledge, on traces *)

Definition sameWrite (a b : nat * string) : bool :=
  Nat.eqb (fst a) (fst b) && String.eqb (snd a) (snd b).

Fixpoint removeWrite (a : nat * string) (l : list (nat * string)) : list (nat * string) :=
  match l with
  | [] => []
  | b :: r => if sameWrite a b then r else b :: removeWrite a r
  end.

(** Reads a trace from its start, keeping the status writes that were
    issued and are not durable yet; the result says whether every report to
    the caller (an HTTP response or the result of [sendCommand]) is made
    while no write is pending. *)
Fixpoint reportsAfterWrites (pending : list (nat * string)) (t : list Event) : bool :=
  match t with
  | [] => true
  | UpdateIssued id st :: r => reportsAfterWrites ((id, st) :: pending) r
  | UpdateDurable id st :: r => reportsAfterWrites (removeWrite (id, st) pending) r
  | Responded _ _ _ :: r | SendCommandResult _ :: r =>
      match pending with
      | [] => reportsAfterWrites pending r
      | _ :: _ => false
      end
  | _ :: r => reportsAfterWrites pending r
  end.

(** ** Telemetry: the content of a reading and the fan-out of one message *)

Definition sd_fields (r : SensorData) : nat * string * JS.JSNum :=
  (sd_deviceId r, sd_type r, sd_value r).

Definition isOnline (d : Device) : bool := String.eqb (dev_status d) "online".






(** ** A small deployment

    One user (id 1) with one device (id 7), empty collections, and the
    service connected to its broker. *)

Definition feeder (status : string) : Device := mkDevice 7 1 "feeder" status.

(** Every publish is acknowledged; the one-shot client connects. *)
Definition reliableNet : Net := mkNet (fun _ => true) true.

(** No publish is acknowledged; the one-shot client connects. *)
Definition failingNet : Net := mkNet (fun _ => false) true.

Definition deployment (status : string) (n : Net) : World :=
  mkWorld [feeder status] [] [] [] [] true n [] [] [].

(** [{ amount: 50 }] from user 1. *)
Definition amount50 : Request := mkRequest 1 (Some (JS.ofZ 50)) None.

(** Three users with a device each, two of the devices online. *)
Definition fleet : World :=
  mkWorld [mkDevice 7 1 "feeder" "online"; mkDevice 8 2 "spare" "offline";
           mkDevice 9 3 "kennel" "online"]
          [] [] [] [] true reliableNet [] [] [].

(** One user with two sockets: both connect, one disconnects, and the
    other sends [dispenseFood] with [{ amount: 50 }]. *)
Definition twoSockets : M unit :=
  socket_connect 1 ;;
  socket_connect 1 ;;
  socket_disconnect 1 ;;
  socket_dispenseFood 1 (Some (JS.ofZ 50)).

(** ** The actuator safety core

    The sources of the actuator controller (control_system.actuator_controller)
    are not in the repository; only a compiled test that names
    [FoodDispenser], [EnvironmentalController] and [ControllerType.HEATER]
    is.  The model below follows the specification, section 4.1.  Power and
    time are rationals, compared exactly. *)

Module Actuator.

Local Open Scope Q_scope.






(** An actuator with another state, error message and power. *)

















End Actuator.

(** ** Notions used to state what the handlers do *)

(** The letter [sendCommand] puts in front of the value. *)
Definition kindLetter (k : CommandKind) : string :=
  match k with
  | DispenseFood => "F"
  | DispenseWater => "W"
  | SetTemperature => "T"
  end.

(** The part of the world that telemetry has no business with: devices,
    commands, schedules, the connection, the messages published and the
    writes in flight. *)
Definition controlState (w : World)
    : list Device * list Command * list Schedule * bool * list Publish
      * list (nat * string) :=
  (devices w, commands w, schedules w, connected w, wire w, inflight w).





(** The answers given so far: the responses in the trace, oldest first. *)
Definition responses (w : World) : list (nat * bool * string) :=
  flat_map (fun e => match e with
                     | Responded code success message => [(code, success, message)]
                     | _ => []
                     end) (trace w).

(** Whether the device of a schedule is in the collection. *)
Definition deviceKnown (s : Schedule) (w : World) : bool :=
  match find (fun d => Nat.eqb (dev_id d) (sch_deviceId s)) (devices w) with
  | Some _ => true
  | None => false
  end.

(** The command type the scheduler derives from the type of a schedule. *)
Definition scheduleKind (s : Schedule) : CommandKind :=
  if String.eqb (sch_type s) "food" then DispenseFood else DispenseWater.

(** A device with another status. *)
Definition with_dev_status (st : string) (d : Device) : Device :=
  mkDevice (dev_id d) (dev_userId d) (dev_name d) st.

(** ** routes/commandRoutes.js *)

(** Membership in the [enum] of a schema path. *)
Definition inEnum (x : string) (values : list string) : bool :=
  existsb (String.eqb x) values.

(** The [enum]s of models/Command.js and models/SensorData.js. *)
Definition commandTypes : list string :=
  ["dispenseFood"; "dispenseWater"; "setTemperature"].
Definition commandStatuses : list string :=
  ["pending"; "processing"; "completed"; "failed"].
Definition sensorTypes : list string :=
  ["food"; "water"; "temperature"; "humidity"].

(** [Device.findOne({ _id, userId })] *)
Definition Device_findOne_owned (id uid : nat) : M (option Device) :=
  w <- get ;;
  ret (find (fun d => Nat.eqb (dev_id d) id && Nat.eqb (dev_userId d) uid) (devices w)).

(** [Command.findById(id)] *)
Definition Command_findById (id : nat) : M (option Command) :=
  w <- get ;; ret (find (fun c => Nat.eqb (cmd_id c) id) (commands w)).

(** [Command.find({ deviceId, status: 'pending' })] *)
Definition pendingOf (deviceId : nat) (cs : list Command) : list Command :=
  filter (fun c => Nat.eqb (cmd_deviceId c) deviceId && String.eqb (cmd_status c) "pending")
         cs.

(** GET /pending/:deviceId, the route the hardware polls: the pending
    commands of a device of the user, [None] with the answer 404 when the
    device is not the user's.  The answer 200 carries the commands and no
    message.  They are sorted by timestamp; the model gives them in the
    order of their creation. *)
Definition getPendingCommands (uid deviceId : nat) : M (option (list Command)) :=
  device <- Device_findOne_owned deviceId uid ;;
  match device with
  | None => respond 404 false "Device not found or not authorized" ;; ret None
  | Some _ =>
      w <- get ;;
      respond 200 true EmptyString ;;
      ret (Some (pendingOf deviceId (commands w)))
  end.

(** The body of a status report: [status], [sensorType], [sensorValue]
    ([None] for an absent field; the status is always there). *)
Record StatusReport := mkStatusReport {
  rep_status : string;
  rep_sensorType : option string;
  rep_sensorValue : option JS.JSNum
}.

(** What [command.save()] checks: the document against the schema. *)
Definition schemaValidCommand (c : Command) : bool :=
  inEnum (cmd_type c) commandTypes && inEnum (cmd_status c) commandStatuses.

(** What [SensorData.create] checks: the type against its [enum], and that
    the value casts to a number, which NaN does not. *)
Definition schemaValidReading (type : string) (value : JS.JSNum) : bool :=
  inEnum type sensorTypes && negb (JS.isNaN value).

(** POST /update/:commandId: the hardware reports the status of a command
    and, when it wants, a sensor reading.  A document that fails the schema
    makes [save] or [create] throw, which the handler answers with 500; the
    status saved before a refused reading stays saved. *)
Definition updateCommand (uid commandId : nat) (report : StatusReport) : M unit :=
  command <- Command_findById commandId ;;
  match command with
  | None => respond 404 false "Command not found"
  | Some command =>
      device <- Device_findOne_owned (cmd_deviceId command) uid ;;
      match device with
      | None => respond 404 false "Device not found or not authorized"
      | Some _ =>
          if negb (schemaValidCommand (with_status (rep_status report) command)) then
            respond 500 false "Server error"
          else
            Command_update (cmd_id command) (rep_status report) ;;
            match rep_sensorType report, rep_sensorValue report with
            | Some sensorType, Some sensorValue =>
                if String.eqb sensorType EmptyString then respond 200 true EmptyString
                else if negb (schemaValidReading sensorType sensorValue) then
                  respond 500 false "Server error"
                else
                  SensorData_create (cmd_deviceId command) sensorType sensorValue ;;
                  respond 200 true EmptyString
            | _, _ => respond 200 true EmptyString
            end
      end
  end.

(** ** controllers/scheduleController.js and controllers/notificationController.js

    For these handlers a document is checked against the schema of its
    collection when it is created or saved, as Mongoose does; a document
    that fails makes the call throw, and the handler answers from its
    [catch] branch.  A field of a request body is absent ([None]) or of
    the JSON type its schema path has.  An answer that carries data has an
    empty message in the trace, and the data is the result of the handler. *)

Definition set_schedules (f : list Schedule -> list Schedule) (w : World) : World :=
  mkWorld (devices w) (commands w) (sensorData w) (notifications w)
          (f (schedules w)) (connected w) (net w) (wire w) (inflight w) (trace w).

(** [req.body] of the schedule routes. *)
Record ScheduleBody := mkScheduleBody {
  sb_type : option string;
  sb_time : option string;
  sb_days : option (list string);
  sb_amount : option JS.JSNum;
  sb_enabled : option bool
}.

Definition scheduleTypes : list string := ["food"; "water"].

Definition validDays : list string :=
  ["Monday"; "Tuesday"; "Wednesday"; "Thursday"; "Friday"; "Saturday"; "Sunday"].

(** A character class [[lo-hi]], by character codes. *)
Definition charBetween (lo hi : nat) (c : ascii) : bool :=
  Nat.leb lo (nat_of_ascii c) && Nat.leb (nat_of_ascii c) hi.

(** [/^([01]\d|2[0-3]):([0-5]\d)$/.test(time)] *)
Definition timePattern (time : string) : bool :=
  match time with
  | String h1 (String h2 (String c (String m1 (String m2 EmptyString)))) =>
      ((charBetween 48 49 h1 && charBetween 48 57 h2)
       || (Ascii.eqb h1 "2" && charBetween 48 51 h2))
      && Ascii.eqb c ":"
      && charBetween 48 53 m1 && charBetween 48 57 m2
  | _ => false
  end.

(** [!s] for a string of the body: absent or empty. *)
Definition falsyString (s : option string) : bool :=
  match s with
  | Some s => String.eqb s EmptyString
  | None => true
  end.

(** [!type || !['food', 'water'].includes(type)] *)
Definition invalidType (type : option string) : bool :=
  falsyString type ||
  negb (match type with Some t => inEnum t scheduleTypes | None => false end).

(** [!time || !/^([01]\d|2[0-3]):([0-5]\d)$/.test(time)] *)
Definition invalidTime (time : option string) : bool :=
  falsyString time ||
  negb (match time with Some t => timePattern t | None => false end).

(** [!days || !Array.isArray(days) || days.length === 0 ||
     !days.every(day => validDays.includes(day))] *)
Definition invalidDays (days : option (list string)) : bool :=
  match days with
  | None => true
  | Some ds => Nat.eqb (length ds) 0 || negb (forallb (fun day => inEnum day validDays) ds)
  end.

(** [type && ['food', 'water'].includes(type)] *)
Definition acceptedType (type : option string) : bool :=
  negb (falsyString type) &&
  match type with Some t => inEnum t scheduleTypes | None => false end.

(** [time && /^([01]\d|2[0-3]):([0-5]\d)$/.test(time)] *)
Definition acceptedTime (time : option string) : bool :=
  negb (falsyString time) &&
  match time with Some t => timePattern t | None => false end.

(** [days && Array.isArray(days) && days.length > 0 &&
     days.every(day => validDays.includes(day))] *)
Definition acceptedDays (days : option (list string)) : bool :=
  match days with
  | None => false
  | Some ds => Nat.ltb 0 (length ds) && forallb (fun day => inEnum day validDays) ds
  end.

(** [amount && amount > 0 && amount <= 100] *)
Definition acceptedAmount (amount : option JS.JSNum) : bool :=
  match amount with
  | None => false
  | Some a => JS.truthy a && JS.gt a (JS.ofZ 0) && JS.le a (JS.ofZ 100)
  end.

(** What [Schedule.create] and [schedule.save()] check, from
    models/Schedule.js: the [enum]s of [type] and [days], the required
    [time], and [min: 1], [max: 100] of [amount]. *)
Definition schemaValidSchedule (s : Schedule) : bool :=
  inEnum (sch_type s) scheduleTypes
  && negb (String.eqb (sch_time s) EmptyString)
  && forallb (fun day => inEnum day validDays) (sch_days s)
  && JS.le (JS.ofZ 1) (sch_amount s) && JS.le (sch_amount s) (JS.ofZ 100).

(** [await Schedule.create({ ... })]: [None] when the document fails the
    schema.  The new id is one no stored schedule has. *)
Definition Schedule_create (deviceId : nat) (type time : string) (days : list string)
    (amount : JS.JSNum) (enabled : bool) : M (option Schedule) :=
  w <- get ;;
  let s := mkSchedule (S (list_max (map sch_id (schedules w)))) deviceId type time days
                      amount enabled in
  if schemaValidSchedule s then
    modify (set_schedules (fun l => (l ++ [s])%list)) ;; ret (Some s)
  else ret None.

(** The filter [{ _id: id, deviceId: { $in: deviceIds } }] *)
Definition ownedSchedule (id : nat) (deviceIds : list nat) (s : Schedule) : bool :=
  Nat.eqb (sch_id s) id && existsb (Nat.eqb (sch_deviceId s)) deviceIds.

(** [Schedule.findOne({ _id: id, deviceId: { $in: deviceIds } })] *)
Definition Schedule_findOne (id : nat) (deviceIds : list nat) : M (option Schedule) :=
  w <- get ;; ret (find (ownedSchedule id deviceIds) (schedules w)).

Definition replaceSchedule (s : Schedule) (l : list Schedule) : list Schedule :=
  map (fun s0 => if Nat.eqb (sch_id s0) (sch_id s) then s else s0) l.

(** [await schedule.save()]: whether the document passed the schema and
    was written over the stored one of its id. *)
Definition Schedule_save (s : Schedule) : M bool :=
  if schemaValidSchedule s then modify (set_schedules (replaceSchedule s)) ;; ret true
  else ret false.

(** Takes out the first element that satisfies [p]. *)
Fixpoint removeFirst {A} (p : A -> bool) (l : list A) : list A :=
  match l with
  | [] => []
  | x :: r => if p x then r else x :: removeFirst p r
  end.

(** [Schedule.findOneAndDelete({ _id: id, deviceId: { $in: deviceIds } })] *)
Definition Schedule_findOneAndDelete (id : nat) (deviceIds : list nat)
    : M (option Schedule) :=
  w <- get ;;
  let found := find (ownedSchedule id deviceIds) (schedules w) in
  modify (set_schedules (removeFirst (ownedSchedule id deviceIds))) ;;
  ret found.

Definition with_type (type : string) (s : Schedule) : Schedule :=
  mkSchedule (sch_id s) (sch_deviceId s) type (sch_time s) (sch_days s) (sch_amount s)
             (sch_enabled s).
Definition with_time (time : string) (s : Schedule) : Schedule :=
  mkSchedule (sch_id s) (sch_deviceId s) (sch_type s) time (sch_days s) (sch_amount s)
             (sch_enabled s).
Definition with_days (days : list string) (s : Schedule) : Schedule :=
  mkSchedule (sch_id s) (sch_deviceId s) (sch_type s) (sch_time s) days (sch_amount s)
             (sch_enabled s).
Definition with_amount (amount : JS.JSNum) (s : Schedule) : Schedule :=
  mkSchedule (sch_id s) (sch_deviceId s) (sch_type s) (sch_time s) (sch_days s) amount
             (sch_enabled s).
Definition with_enabled (enabled : bool) (s : Schedule) : Schedule :=
  mkSchedule (sch_id s) (sch_deviceId s) (sch_type s) (sch_time s) (sch_days s)
             (sch_amount s) enabled.

(** An answer without data: [return res.status(code).json(...)]. *)
Definition refuse {A} (code : nat) (message : string) : M (option A) :=
  respond code false message ;; ret None.

Definition createSchedule (uid : nat) (body : ScheduleBody) : M (option Schedule) :=
  if invalidType (sb_type body) then
    refuse 400 "Invalid schedule type. Must be food or water."
  else if invalidTime (sb_time body) then
    refuse 400 "Invalid time format. Must be HH:MM (24-hour format)."
  else if invalidDays (sb_days body) then
    refuse 400 "Invalid days. Must include at least one valid day of the week."
  else if invalidAmount (sb_amount body) then
    refuse 400 "Invalid amount. Must be between 1 and 100."
  else
    match sb_type body, sb_time body, sb_days body, sb_amount body with
    | Some type, Some time, Some days, Some amount =>
        devices <- Device_find_userId uid ;;
        match devices with
        | [] => refuse 404 "No devices found"
        | device :: _ =>
            let enabled := match sb_enabled body with Some e => e | None => true end in
            schedule <- Schedule_create (dev_id device) type time days amount enabled ;;
            match schedule with
            | None => refuse 500 "Server error"
            | Some schedule => respond 201 true EmptyString ;; ret (Some schedule)
            end
        end
    | _, _, _, _ => ret None
    end.

(** The assignments of [updateSchedule]: a field of the body that is
    absent or not acceptable leaves the field of the schedule as it is. *)
Definition applyBody (body : ScheduleBody) (schedule : Schedule) : Schedule :=
  let schedule :=
    match sb_type body with
    | Some type => if acceptedType (sb_type body) then with_type type schedule else schedule
    | None => schedule
    end in
  let schedule :=
    match sb_time body with
    | Some time => if acceptedTime (sb_time body) then with_time time schedule else schedule
    | None => schedule
    end in
  let schedule :=
    match sb_days body with
    | Some days => if acceptedDays (sb_days body) then with_days days schedule else schedule
    | None => schedule
    end in
  let schedule :=
    match sb_amount body with
    | Some amount =>
        if acceptedAmount (sb_amount body) then with_amount amount schedule else schedule
    | None => schedule
    end in
  match sb_enabled body with
  | Some enabled => with_enabled enabled schedule
  | None => schedule
  end.

Definition updateSchedule (uid id : nat) (body : ScheduleBody) : M (option Schedule) :=
  devices <- Device_find_userId uid ;;
  if Nat.eqb (length devices) 0 then refuse 404 "No devices found"
  else
    let deviceIds := map dev_id devices in
    schedule <- Schedule_findOne id deviceIds ;;
    match schedule with
    | None => refuse 404 "Schedule not found"
    | Some schedule =>
        let schedule := applyBody body schedule in
        saved <- Schedule_save schedule ;;
        if saved then respond 200 true EmptyString ;; ret (Some schedule)
        else refuse 500 "Server error"
    end.

Definition deleteSchedule (uid id : nat) : M unit :=
  devices <- Device_find_userId uid ;;
  if Nat.eqb (length devices) 0 then respond 404 false "No devices found"
  else
    let deviceIds := map dev_id devices in
    schedule <- Schedule_findOneAndDelete id deviceIds ;;
    match schedule with
    | None => respond 404 false "Schedule not found"
    | Some _ => respond 200 true "Schedule deleted successfully"
    end.

Definition toggleSchedule (uid id : nat) (enabled : option bool) : M (option Schedule) :=
  match enabled with
  | None => refuse 400 "Enabled status is required"
  | Some enabled =>
      devices <- Device_find_userId uid ;;
      if Nat.eqb (length devices) 0 then refuse 404 "No devices found"
      else
        let deviceIds := map dev_id devices in
        schedule <- Schedule_findOne id deviceIds ;;
        match schedule with
        | None => refuse 404 "Schedule not found"
        | Some schedule =>
            let schedule := with_enabled enabled schedule in
            saved <- Schedule_save schedule ;;
            if saved then respond 200 true EmptyString ;; ret (Some schedule)
            else refuse 500 "Server error"
        end
  end.

(** The schedules in the store pass the schema and have ids of their own,
    as documents that came in through [createSchedule] do. *)
Definition schedulesWellFormed (l : list Schedule) : Prop :=
  NoDup (map sch_id l) /\ forallb schemaValidSchedule l = true.

(** Whether schedule [s] is on a device of user [uid]. *)
Definition scheduleOwnedBy (uid : nat) (w : World) (s : Schedule) : bool :=
  existsb (Nat.eqb (sch_deviceId s))
          (map dev_id (filter (fun d => Nat.eqb (dev_userId d) uid) (devices w))).

(** The field an update leaves in a schedule: the value of the body when
    there is one and it is acceptable, the old value otherwise. *)
Definition pick {A} (accepted : bool) (new : option A) (old : A) : A :=
  match new with
  | Some v => if accepted then v else old
  | None => old
  end.

(** An amount that the handlers accept and the schema refuses. *)
Definition belowSchemaMin (amount : option JS.JSNum) : bool :=
  match amount with
  | Some a => acceptedAmount (Some a) && negb (JS.le (JS.ofZ 1) a)
  | None => false
  end.

(** The devices of a user, as the schedule routes collect them. *)
Definition deviceIdsOf (uid : nat) (w : World) : list nat :=
  map dev_id (filter (fun d => Nat.eqb (dev_userId d) uid) (devices w)).

(** *** controllers/notificationController.js *)





Definition set_read (n : Notification) : Notification :=
  mkNotification (ntf_id n) (ntf_userId n) (ntf_title n) (ntf_message n) (ntf_type n) true.

(** The filter [{ userId, read: false }] *)
Definition unreadOf (uid : nat) (n : Notification) : bool :=
  Nat.eqb (ntf_userId n) uid && negb (ntf_read n).

(** The text of a count in a template literal. *)
Definition countText (n : nat) : string := JS.toString (JS.ofZ (Z.of_nat n)).

(** [Notification.updateMany({ userId, read: false }, { read: true })]; the
    result is [modifiedCount], which the answer reports. *)
Definition markAllNotificationsAsRead (uid : nat) : M nat :=
  w <- get ;;
  let modifiedCount := length (filter (unreadOf uid) (notifications w)) in
  modify (set_notifications (map (fun n => if unreadOf uid n then set_read n else n))) ;;
  respond 200 true (countText modifiedCount ++ " notifications marked as read") ;;
  ret modifiedCount.

(** [Notification.deleteMany({ userId })]; the result is [deletedCount]. *)
Definition deleteAllNotifications (uid : nat) : M nat :=
  w <- get ;;
  let deletedCount :=
    length (filter (fun n => Nat.eqb (ntf_userId n) uid) (notifications w)) in
  modify (set_notifications (filter (fun n => negb (Nat.eqb (ntf_userId n) uid)))) ;;
  respond 200 true (countText deletedCount ++ " notifications deleted") ;;
  ret deletedCount.

(** *** controllers/sensorController.js *)

(** POST /api/sensors/:type with [{ value }]: a reading entered by hand is
    stored for the first device of the user.  [SensorData.create] refuses a
    document without a value, or with one that is not a number. *)
Definition addSensorReading (uid : nat) (type : string) (value : option JS.JSNum)
    : M (option SensorData) :=
  if String.eqb type EmptyString || negb (inEnum type sensorTypes) then
    refuse 400 "Invalid sensor type"
  else
    devices <- Device_find_userId uid ;;
    match devices with
    | [] => refuse 404 "No devices found"
    | device :: _ =>
        match value with
        | None => refuse 500 "Server error"
        | Some value =>
            if negb (schemaValidReading type value) then refuse 500 "Server error"
            else
              sensorReading <- SensorData_create (dev_id device) type value ;;
              respond 201 true EmptyString ;;
              ret (Some sensorReading)
        end
    end.

(** ** The fleet with a feeding plan

    The three users of [fleet] with their devices; user 1 has a food
    schedule on device 7 and user 2 a water schedule on device 8. *)

Definition morningFood : Schedule :=
  mkSchedule 1 7 "food" "08:00" ["Monday"; "Thursday"] (JS.ofZ 30) true.

Definition noonWater : Schedule :=
  mkSchedule 2 8 "water" "12:30" ["Sunday"] (JS.ofZ 20) true.

Definition feedingPlan : World :=
  mkWorld (devices fleet) [] [] [] [morningFood; noonWater] true reliableNet [] [] [].

(** [{ type: 'food', time: '18:30', days: ['Monday', 'Friday'], amount }] *)
Definition eveningFood (amount : JS.JSNum) : ScheduleBody :=
  mkScheduleBody (Some "food") (Some "18:30") (Some ["Monday"; "Friday"]) (Some amount) None.

(** The deployment after one food command that the broker acknowledged. *)
Definition fedOnce : World :=
  mkWorld [feeder "online"] [mkCommand 0 7 "dispenseFood" (JS.ofZ 50) "processing"]
          [] [] [] true reliableNet [] [] [].
(** * Properties *)

(** ** Telemetry ingest *)
















(** C7. An inbound telemetry message whose text begins with the test
    prefix [TEST-] is discarded: [handleSensorData] returns at once and the
    world (readings, notifications, commands, everything observable) is
    the world it started in. *)
Theorem test_prefix_message_discarded (data : string) (w : World) :
  JS.startsWith data "TEST-" = true ->
  handleSensorData data w = (Skipped, w).
Proof.
  intros H. unfold handleSensorData. rewrite H. reflexivity.
Qed.



(** ** Schedule evaluation *)

Lemma scaled_ofZ (z : Z) : JS.scaled 0 (z <? 0)%Z (Z.abs_N z) 0 = z.
Proof.
  unfold JS.scaled. rewrite N2Z.inj_abs_N. cbn [Z.sub Z.opp Z.add Z.pow Z.pow_pos].
  destruct (Z.ltb_spec z 0); lia.
Qed.


Lemma Number_twoDigits (n : Z) :
  (0 <= n < 60)%Z -> JS.Number (twoDigits n) = JS.ofZ n.
Proof.
  intros H. rewrite <- (Z2Nat.id n) by lia.
  assert (Z.to_nat n < 60) as Hn by lia.
  generalize dependent (Z.to_nat n). intros k Hk.
  do 60 (destruct k as [|k]; [reflexivity|]). lia.
Qed.

Lemma twoDigits_no_colon (n : Z) :
  (0 <= n < 60)%Z -> JS.split ":" (twoDigits n) = [twoDigits n].
Proof.
  intros H. rewrite <- (Z2Nat.id n) by lia.
  assert (Z.to_nat n < 60) as Hn by lia.
  generalize dependent (Z.to_nat n). intros k Hk.
  do 60 (destruct k as [|k]; [reflexivity|]). lia.
Qed.

Lemma split_hhmm (h m : Z) :
  (0 <= h < 60)%Z -> (0 <= m < 60)%Z ->
  JS.split ":" (hhmm h m) = [twoDigits h; twoDigits m].
Proof.
  intros Hh Hm. pose proof (twoDigits_no_colon h Hh) as Eh.
  pose proof (twoDigits_no_colon m Hm) as Em.
  unfold hhmm. unfold twoDigits in *. cbn [append] in *.
  cbn [JS.split] in *.
  destruct (Ascii.eqb (digitChar (h / 10)) ":"); [discriminate|].
  destruct (Ascii.eqb (digitChar (h mod 10)) ":"); [discriminate|].
  cbn. rewrite Em. reflexivity.
Qed.

Lemma parseTime_hhmm (h m : Z) :
  (0 <= h < 24)%Z -> (0 <= m < 60)%Z ->
  parseTime (hhmm h m) = [JS.ofZ h; JS.ofZ m].
Proof.
  intros Hh Hm. unfold parseTime. rewrite split_hhmm by lia.
  cbn [map]. rewrite !Number_twoDigits by lia. reflexivity.
Qed.

Lemma includes_In (x : string) (l : list string) :
  existsb (String.eqb x) l = true <-> In x l.
Proof.
  rewrite existsb_exists. split.
  - intros [y [Hin Heq]]. apply String.eqb_eq in Heq. subst. assumption.
  - intros Hin. exists x. split; [assumption|apply String.eqb_refl].
Qed.


Lemma forEach_filter {A} (p : A -> bool) (f : A -> M unit) (l : list A) (w : World) :
  forEach l (fun x => if p x then f x else ret tt) w = forEach (filter p l) f w.
Proof.
  revert w. induction l as [|x l IH]; intros w; cbn [forEach filter]; [reflexivity|].
  destruct (p x); cbn [forEach]; unfold bind.
  - destruct (f x w) as [u w1]. apply IH.
  - cbn. apply IH.
Qed.

Lemma filter_enabled_due (now : Instant) (l : list Schedule) :
  filter (fun s => shouldRunSchedule s now) (filter sch_enabled l) =
  filter (fun s => shouldRunSchedule s now) l.
Proof.
  induction l as [|s l IH]; cbn [filter]; [reflexivity|].
  destruct (sch_enabled s) eqn:E; cbn [filter]; rewrite IH; [reflexivity|].
  unfold shouldRunSchedule. rewrite E. reflexivity.
Qed.

(** A tick runs [executeSchedule] for the stored schedules that
    [shouldRunSchedule] accepts, in the order of the collection, and for no
    other. *)
Lemma checkAndExecuteSchedules_due (now : Instant) (w : World) :
  checkAndExecuteSchedules now w =
  forEach (filter (fun s => shouldRunSchedule s now) (schedules w)) executeSchedule w.
Proof.
  unfold checkAndExecuteSchedules, Schedule_find_enabled, bind, get, ret. cbn [fst snd].
  rewrite <- filter_enabled_due.
  destruct (filter sch_enabled (schedules w)) as [|s l] eqn:E; [reflexivity|].
  cbn [length Nat.eqb]. apply forEach_filter.
Qed.


(** ** Command dispatch *)

(** The payload [sendCommand] builds for a command kind. *)
Lemma mqttCommand_kind (k : CommandKind) (value : JS.JSNum) :
  mqttCommand (kindName k) value =
  Some (match k with
        | DispenseFood => "F"
        | DispenseWater => "W"
        | SetTemperature => "T"
        end ++ JS.toString value).
Proof. destruct k; reflexivity. Qed.

Lemma exec_bind {A B} (c : M A) (k : A -> M B) (w : World) :
  exec (bind c k) w = exec (k (result c w)) (exec c w).
Proof. unfold exec, result, bind. destruct (c w). reflexivity. Qed.

Lemma forEach_preserves {A B} (proj : World -> B) (body : A -> M unit) (l : list A) :
  (forall x w, proj (exec (body x) w) = proj w) ->
  forall w, proj (exec (forEach l body) w) = proj w.
Proof.
  intros Hbody. induction l as [|x l IH]; intros w; cbn [forEach]; [reflexivity|].
  rewrite exec_bind, IH. apply Hbody.
Qed.

Lemma settle_wire (w : World) : wire (exec settle w) = wire w.
Proof.
  unfold settle. rewrite exec_bind, exec_bind.
  change (wire (exec (forEach (inflight w) makeDurable) w) = wire w).
  apply forEach_preserves. intros [id st] w0. reflexivity.
Qed.

(** A connected [sendCommand] publishes, on the hardware topic of its
    broker, the letter of the kind followed by the text of the value it was
    given. *)
Lemma sendCommand_wire (k : CommandKind) (value : JS.JSNum) (deviceId : nat) (w : World) :
  connected w = true ->
  wire (exec (sendCommand (kindName k) value deviceId) w) =
    (wire w ++ [mkPublish brokerUrl s2cTopic
                  (match k with
                   | DispenseFood => "F"
                   | DispenseWater => "W"
                   | SetTemperature => "T"
                   end ++ JS.toString value)])%list.
Proof.
  intros Hc. unfold sendCommand. rewrite exec_bind.
  change (result get w) with w. change (exec get w) with w.
  rewrite Hc. cbn [negb]. rewrite mqttCommand_kind.
  rewrite exec_bind, exec_bind.
  set (c := result (Command_create _ _ _ _) w).
  set (w1 := exec (Command_create _ _ _ _) w).
  set (pb := publish _ _ _).
  assert (wire (exec pb w1) = (wire w ++ [mkPublish brokerUrl s2cTopic
            (match k with DispenseFood => "F" | DispenseWater => "W" | SetTemperature => "T" end
             ++ JS.toString value)])%list) as Hw2 by reflexivity.
  destruct (result pb w1); cbn [negb].
  - unfold Command_update. rewrite !exec_bind.
    change (wire (exec settle (exec (Command_update_issue (cmd_id c) "processing") (exec pb w1)))
            = (wire w ++ [mkPublish brokerUrl s2cTopic
            (match k with DispenseFood => "F" | DispenseWater => "W" | SetTemperature => "T" end
             ++ JS.toString value)])%list).
    rewrite settle_wire. exact Hw2.
  - rewrite exec_bind. exact Hw2.
Qed.



(** The socket handlers and the scheduler hand their value to
    [sendCommand] as they got it, so on those paths too the payload is the
    letter followed by the text of the value. *)
Lemma socket_dispenseFood_wire (status : string) :
  wire (exec (socket_dispenseFood 1 (Some (JS.parseFloat "12.5")))
             (deployment status reliableNet)) =
  [mkPublish brokerUrl s2cTopic "F12.5"].
Proof. reflexivity. Qed.

(** The HTTP controllers do nothing but answer when the user has no device
    or the first device is not online: no command is recorded, nothing is
    published. *)
Lemma http_unavailable_device_no_command (req : Request) (w : World) :
  match primaryDevice (req_user req) w with
  | None => True
  | Some d => isOnline d = false
  end ->
  forall handler, In handler [dispenseFood; dispenseWater; setTemperature] ->
  commands (exec (handler req) w) = commands w /\
  wire (exec (handler req) w) = wire w.
Proof.
  unfold primaryDevice, isOnline. intros Hdev handler Hin.
  assert (forall (c : Device -> M unit) msg,
            commands (exec (devices <- Device_find_userId (req_user req) ;;
                            match devices with
                            | [] => respond 404 false "No devices found"
                            | device :: _ =>
                                if negb (String.eqb (dev_status device) "online")
                                then respond 400 false msg
                                else c device
                            end) w) = commands w /\
            wire (exec (devices <- Device_find_userId (req_user req) ;;
                        match devices with
                        | [] => respond 404 false "No devices found"
                        | device :: _ =>
                            if negb (String.eqb (dev_status device) "online")
                            then respond 400 false msg
                            else c device
                        end) w) = wire w) as Hgen.
  { intros c msg. rewrite exec_bind.
    change (exec (Device_find_userId (req_user req)) w) with w.
    change (result (Device_find_userId (req_user req)) w)
      with (filter (fun d => Nat.eqb (dev_userId d) (req_user req)) (devices w)).
    destruct (filter _ (devices w)) as [|d ds]; cbn [hd_error] in Hdev.
    - split; reflexivity.
    - rewrite Hdev. split; reflexivity. }
  cbn [In] in Hin. destruct Hin as [<- | [<- | [<- | []]]].
  - unfold dispenseFood. destruct (invalidAmount (body_amount req)); [split; reflexivity|].
    apply Hgen.
  - unfold dispenseWater. destruct (invalidAmount (body_amount req)); [split; reflexivity|].
    apply Hgen.
  - unfold setTemperature.
    destruct (invalidTemperature (body_temperature req)); [split; reflexivity|].
    apply Hgen.
Qed.


(** When the publish is not acknowledged, [sendCommand] reports [false] and
    the record it created stays as it was created. *)
Lemma sendCommand_publish_failure (k : CommandKind) (value : JS.JSNum) (deviceId : nat)
    (w : World) :
  connected w = true ->
  acks (net w) (length (wire w)) = false ->
  sendCommand (kindName k) value deviceId w =
    (false,
     log (SendCommandResult false)
       (exec (publish brokerUrl s2cTopic
                (match k with
                 | DispenseFood => "F"
                 | DispenseWater => "W"
                 | SetTemperature => "T"
                 end ++ JS.toString value))
          (exec (Command_create deviceId (kindName k) (JS.orZero value) "pending") w)))
  /\ commands (exec (sendCommand (kindName k) value deviceId) w) =
       (commands w ++
        [mkCommand (length (commands w)) deviceId (kindName k) (JS.orZero value) "pending"])%list.
Proof.
  intros Hc Hack.
  assert (sendCommand (kindName k) value deviceId w =
    (false,
     log (SendCommandResult false)
       (exec (publish brokerUrl s2cTopic
                (match k with
                 | DispenseFood => "F"
                 | DispenseWater => "W"
                 | SetTemperature => "T"
                 end ++ JS.toString value))
          (exec (Command_create deviceId (kindName k) (JS.orZero value) "pending") w)))) as E.
  { unfold sendCommand, bind at 1, get. rewrite Hc. cbn [negb]. rewrite mqttCommand_kind.
    unfold bind, Command_create, publish, get, modify, emit, ret, exec. cbn.
    rewrite Hack. reflexivity. }
  split; [exact E|]. unfold exec at 1. rewrite E. reflexivity.
Qed.


(** A status write to the record created last touches that record only. *)
Lemma write_status_last (cs : list Command) (c : Command) (st : string) :
  commandsIndexed cs ->
  cmd_id c = length cs ->
  write_status (length cs) st (cs ++ [c]) = (cs ++ [with_status st c])%list.
Proof.
  intros Hix Hid. unfold write_status. rewrite map_app. cbn [map].
  rewrite Hid, Nat.eqb_refl. f_equal.
  rewrite <- (map_id cs) at 2. apply map_ext_in. intros c' Hin.
  destruct (In_nth_error cs c' Hin) as [i Hi].
  rewrite (Hix i c' Hi).
  assert (i < length cs) as Hlt by (apply nth_error_Some; congruence).
  destruct (Nat.eqb_spec i (length cs)); [lia|reflexivity].
Qed.

(** When the publish is acknowledged, [sendCommand] reports [true] and the
    record it created is 'processing' in the store by then. *)
Lemma sendCommand_publish_success (k : CommandKind) (value : JS.JSNum) (deviceId : nat)
    (w : World) :
  connected w = true ->
  acks (net w) (length (wire w)) = true ->
  quiescent w ->
  result (sendCommand (kindName k) value deviceId) w = true /\
  commands (exec (sendCommand (kindName k) value deviceId) w) =
    (commands w ++
     [mkCommand (length (commands w)) deviceId (kindName k) (JS.orZero value)
        "processing"])%list /\
  inflight (exec (sendCommand (kindName k) value deviceId) w) = [].
Proof.
  intros Hc Hack [Hq Hix].
  destruct w as [ds cs sd ns ss conn nt wi infl tr]. cbn in Hc, Hack, Hq, Hix. subst conn infl.
  unfold result, exec, sendCommand. rewrite mqttCommand_kind.
  unfold bind, Command_create, publish, Command_update, Command_update_issue, settle,
    get, modify, emit, ret. cbn. rewrite Hack. cbn.
  repeat split.
  apply (write_status_last cs
           (mkCommand (length cs) deviceId (kindName k) (JS.orZero value) "pending")
           "processing" Hix eq_refl).
Qed.

(** What the food controller does for any accepted amount when the first
    device of the user is online and its client connects: the payload is
    "F0" whatever the amount, and the response is sent between the issue of
    the status write and its arrival in the store. *)
Lemma http_dispenseFood_effect (req : Request) (a : JS.JSNum) (d : Device) (w : World) :
  body_amount req = Some a ->
  invalidAmount (Some a) = false ->
  primaryDevice (req_user req) w = Some d ->
  isOnline d = true ->
  direct_connects (net w) = true ->
  quiescent w ->
  let ok := acks (net w) (length (wire w)) in
  let id := length (commands w) in
  let st := if ok then "processing" else "failed" in
  let w' := exec (dispenseFood req) w in
  wire w' = (wire w ++ [mkPublish directBrokerUrl s2cTopic "F0"])%list /\
  commands w' =
    (commands w ++ [mkCommand id (dev_id d) "dispenseFood" (JS.orZero a) st])%list /\
  trace w' =
    (trace w ++
     [CommandCreated (mkCommand id (dev_id d) "dispenseFood" (JS.orZero a) "pending");
      Published (mkPublish directBrokerUrl s2cTopic "F0") ok;
      UpdateIssued id st;
      Responded (if ok then 200 else 500) ok
        (if ok then "Food dispense command sent successfully"
         else "Failed to send command to device");
      UpdateDurable id st])%list.
Proof.
  intros Hamount Hvalid Hdev Hon Hdirect [Hq Hix]. unfold primaryDevice, isOnline in *.
  destruct w as [ds cs sd ns ss conn nt wi infl tr].
  cbn in Hdev, Hdirect, Hq, Hix. subst infl.
  cbv zeta. cbn [net wire commands trace] .
  remember (exec (dispenseFood req) (mkWorld ds cs sd ns ss conn nt wi [] tr)) as w' eqn:E.
  unfold exec, dispenseFood in E. rewrite Hamount, Hvalid in E.
  unfold bind at 1, Device_find_userId, bind at 1, get, ret in E. cbn [fst snd devices] in E.
  destruct (filter _ ds) as [|d0 rest]; cbn [hd_error] in Hdev; [discriminate|].
  injection Hdev as ->. rewrite Hon in E. cbn [negb] in E.
  unfold bind, Command_create, publish, Command_update_issue, settle, respond,
    get, modify, emit, ret in E. cbn in E. rewrite Hdirect in E. cbn in E.
  pose proof (fun st => write_status_last cs
               (mkCommand (length cs) (dev_id d) "dispenseFood" (JS.orZero a) "pending")
               st Hix eq_refl) as Hwrite.
  destruct (acks nt (length wi)); cbn in E; subst w'; cbn [wire commands trace];
    (split; [reflexivity|split; [apply Hwrite|]]);
    cbn; rewrite <- !app_assoc; reflexivity.
Qed.


(** The socket handlers record a command whatever the status of the
    device. *)
Lemma settle_commands_length (w : World) :
  length (commands (exec settle w)) = length (commands w).
Proof.
  unfold settle. rewrite exec_bind, exec_bind.
  change (length (commands (exec (forEach (inflight w) makeDurable) w)) =
          length (commands w)).
  apply (forEach_preserves (fun w => length (commands w))).
  intros [id st] w0. cbn. unfold write_status. apply length_map.
Qed.

Lemma Command_update_commands_length (id : nat) (st : string) (w : World) :
  length (commands (exec (Command_update id st) w)) = length (commands w).
Proof.
  unfold Command_update. rewrite exec_bind, settle_commands_length. reflexivity.
Qed.

Lemma sendCommand_commands_length (commandType : string) (value : JS.JSNum)
    (deviceId : nat) (w : World) :
  length (commands w) <= length (commands (exec (sendCommand commandType value deviceId) w)).
Proof.
  unfold sendCommand. rewrite exec_bind.
  change (result get w) with w. change (exec get w) with w.
  destruct (connected w); cbn [negb]; [|apply Nat.le_refl].
  destruct (mqttCommand commandType value) as [payload|]; [|apply Nat.le_refl].
  rewrite exec_bind, exec_bind.
  set (c := result (Command_create _ _ _ _) w).
  set (w1 := exec (Command_create _ _ _ _) w).
  set (pb := publish _ _ _).
  assert (length (commands (exec pb w1)) = S (length (commands w))) as Hlen.
  { cbn. rewrite length_app. cbn. lia. }
  destruct (result pb w1); cbn [negb].
  - rewrite exec_bind, exec_bind.
    change (length (commands w) <=
            length (commands (exec (Command_update (cmd_id c) "processing") (exec pb w1)))).
    rewrite Command_update_commands_length. lia.
  - rewrite exec_bind.
    change (length (commands w) <= length (commands (exec pb w1))). lia.
Qed.

Lemma socketCommand_records_command (commandType : string)
    (invalid : option JS.JSNum -> bool) (invalidMessage title : string)
    (message : JS.JSNum -> string) (uid : nat) (value : option JS.JSNum)
    (d : Device) (w : World) :
  invalid value = false ->
  primaryDevice uid w = Some d ->
  length (commands w) <
  length (commands (exec (socketCommand commandType invalid invalidMessage title message
                            uid value) w)).
Proof.
  intros Hvalid Hdev. unfold primaryDevice in Hdev. unfold socketCommand. rewrite Hvalid.
  rewrite exec_bind.
  change (exec (Device_find_userId uid) w) with w.
  change (result (Device_find_userId uid) w)
    with (filter (fun d => Nat.eqb (dev_userId d) uid) (devices w)).
  destruct (filter _ (devices w)) as [|d0 rest]; cbn [hd_error] in Hdev; [discriminate|].
  rewrite exec_bind.
  set (v := match value with Some v => v | None => JS.NaN end).
  set (c := result (Command_create _ _ _ _) w).
  set (w1 := exec (Command_create _ _ _ _) w).
  assert (length (commands w1) = S (length (commands w))) as Hlen.
  { cbn. rewrite length_app. cbn. lia. }
  rewrite exec_bind.
  pose proof (sendCommand_commands_length commandType v (dev_id d0) w1) as Hsend.
  set (w2 := exec (sendCommand commandType v (dev_id d0)) w1) in *.
  rewrite exec_bind.
  assert (length (commands w2) <=
          length (commands (exec (if result (sendCommand commandType v (dev_id d0)) w1
                                  then Command_update (cmd_id c) "processing" ;; ret "processing"
                                  else ret (cmd_status c)) w2))) as Hupd.
  { destruct (result (sendCommand commandType v (dev_id d0)) w1).
    - rewrite exec_bind.
      change (length (commands w2) <=
              length (commands (exec (Command_update (cmd_id c) "processing") w2))).
      rewrite Command_update_commands_length. lia.
    - apply Nat.le_refl. }
  set (w3 := exec (if result (sendCommand commandType v (dev_id d0)) w1
                   then _ else _) w2) in *.
  rewrite exec_bind, exec_bind.
  change (length (commands w) < length (commands w3)). lia.
Qed.

(** The dispatch of a due schedule does nothing when the device of the
    schedule is not in the collection, and records a command when it is. *)
Lemma executeSchedule_missing_device (s : Schedule) (w : World) :
  find (fun d => Nat.eqb (dev_id d) (sch_deviceId s)) (devices w) = None ->
  executeSchedule s w = (tt, w).
Proof.
  intros Hfind. unfold executeSchedule, bind at 1, Device_findById, bind, get, ret.
  cbn [fst snd]. rewrite Hfind. reflexivity.
Qed.

Lemma executeSchedule_records_command (s : Schedule) (d : Device) (w : World) :
  find (fun d => Nat.eqb (dev_id d) (sch_deviceId s)) (devices w) = Some d ->
  length (commands w) < length (commands (exec (executeSchedule s) w)).
Proof.
  intros Hfind. unfold executeSchedule. rewrite exec_bind.
  change (exec (Device_findById (sch_deviceId s)) w) with w.
  change (result (Device_findById (sch_deviceId s)) w)
    with (find (fun d => Nat.eqb (dev_id d) (sch_deviceId s)) (devices w)).
  rewrite Hfind. cbv zeta.
  set (type := if String.eqb (sch_type s) "food" then "dispenseFood" else "dispenseWater").
  rewrite exec_bind.
  set (c := result (Command_create _ _ _ _) w).
  set (w1 := exec (Command_create _ _ _ _) w).
  assert (length (commands w1) = S (length (commands w))) as Hlen.
  { cbn. rewrite length_app. cbn. lia. }
  rewrite exec_bind.
  pose proof (sendCommand_commands_length type (sch_amount s) (sch_deviceId s) w1) as Hsend.
  destruct (result (sendCommand type (sch_amount s) (sch_deviceId s)) w1).
  - rewrite Command_update_commands_length. lia.
  - change (length (commands w) <
            length (commands (exec (sendCommand type (sch_amount s) (sch_deviceId s)) w1))).
    lia.
Qed.

(** C1. On the HTTP path for food the wire payload is not the letter
    followed by the caller's value: for [{ amount: 50 }] and an online
    device, [dispenseFood] publishes the constant "F0", through a client of
    its own on another broker, while [sendCommand] would build "F50" for the
    same command. *)
Theorem http_dispenseFood_publishes_constant_F0 :
  wire (exec (dispenseFood amount50) (deployment "online" reliableNet)) =
    [mkPublish directBrokerUrl s2cTopic "F0"]
  /\ mqttCommand "dispenseFood" (JS.ofZ 50) = Some "F50"
  /\ wire (exec (dispenseWater amount50) (deployment "online" reliableNet)) =
       [mkPublish brokerUrl s2cTopic "W50"].
Proof. repeat split; reflexivity. Qed.

(** C2. When the publish fails, [sendCommand] reports the failure and its
    Command record stays 'pending' instead of becoming 'failed'; the
    scheduler leaves both of its records 'pending' as well.  Only the direct
    publish of the food controller records 'failed'. *)
Theorem failed_publish_leaves_command_pending :
  sendCommand "dispenseWater" (JS.ofZ 50) 7 (deployment "online" failingNet) =
    (false,
     mkWorld [feeder "online"]
       [mkCommand 0 7 "dispenseWater" (JS.ofZ 50) "pending"]
       [] [] [] true failingNet
       [mkPublish brokerUrl s2cTopic "W50"] []
       [CommandCreated (mkCommand 0 7 "dispenseWater" (JS.ofZ 50) "pending");
        Published (mkPublish brokerUrl s2cTopic "W50") false;
        SendCommandResult false])
  /\ map cmd_status
       (commands (exec (executeSchedule
                          (mkSchedule 0 7 "food" "08:00" ["Monday"] (JS.ofZ 30) true))
                       (deployment "online" failingNet))) = ["pending"; "pending"]
  /\ map cmd_status
       (commands (exec (dispenseFood amount50) (deployment "online" failingNet))) =
     ["failed"].
Proof. repeat split; reflexivity. Qed.

(** C3. A socket handler does not look at the status of the device: with
    the device of user 1 offline (another socket of the user has
    disconnected), [dispenseFood] over the socket records two commands for
    it and publishes "F50".  The HTTP handler answers 400 in the same world
    and records nothing. *)
Theorem socket_command_for_offline_device_is_recorded :
  let w := exec twoSockets (deployment "offline" reliableNet) in
  map dev_status (devices w) = ["offline"]
  /\ map (fun c => (cmd_deviceId c, cmd_type c, cmd_status c)) (commands w) =
       [(7, "dispenseFood", "processing"); (7, "dispenseFood", "processing")]
  /\ wire w = [mkPublish brokerUrl s2cTopic "F50"]
  /\ exec (dispenseFood amount50) (deployment "offline" reliableNet) =
       log (Responded 400 false "Device is offline or in maintenance")
           (deployment "offline" reliableNet).
Proof. repeat split; reflexivity. Qed.

(** C5. The food controller answers before its status write is durable:
    for [{ amount: 50 }] and an acknowledged publish, the response 200 comes
    between the issue of the write of 'processing' and its arrival in the
    store, so the trace breaks write-before-acknowledge; [sendCommand]
    reports [true] only after its write is durable. *)
Theorem http_dispenseFood_responds_before_write_is_durable :
  trace (exec (dispenseFood amount50) (deployment "online" reliableNet)) =
    [CommandCreated (mkCommand 0 7 "dispenseFood" (JS.ofZ 50) "pending");
     Published (mkPublish directBrokerUrl s2cTopic "F0") true;
     UpdateIssued 0 "processing";
     Responded 200 true "Food dispense command sent successfully";
     UpdateDurable 0 "processing"]
  /\ reportsAfterWrites []
       (trace (exec (dispenseFood amount50) (deployment "online" reliableNet))) = false
  /\ reportsAfterWrites []
       (trace (exec (sendCommand "dispenseFood" (JS.ofZ 50) 7)
                    (deployment "online" reliableNet))) = true.
Proof. repeat split; reflexivity. Qed.

(** C6. The three command kinds and the letters F, W, T correspond one to
    one: the payload built for a kind starts with its letter, reading the
    leading letter of that payload gives the kind back, two kinds with the
    same letter are the same kind, and each of the three letters is the
    letter of a kind. *)
Theorem kind_wire_code_bijection :
  (forall k value, exists payload,
     mqttCommand (kindName k) value = Some payload /\
     kindOfPayload payload = Some k)
  /\
  (forall k1 k2 v1 v2,
     wireCode (kindName k1) v1 = wireCode (kindName k2) v2 -> k1 = k2)
  /\
  (forall c, In c ["F"; "W"; "T"]%char ->
     exists k, forall value, wireCode (kindName k) value = Some c)
  /\
  (forall k value, exists c,
     wireCode (kindName k) value = Some c /\ In c ["F"; "W"; "T"]%char).
Proof.
  split; [|split; [|split]].
  - intros k value. rewrite mqttCommand_kind. eexists. split; [reflexivity|].
    destruct k; reflexivity.
  - intros k1 k2 v1 v2. unfold wireCode. rewrite !mqttCommand_kind.
    destruct k1, k2; cbn; intros H; try reflexivity; discriminate.
  - intros c Hc. cbn [In] in Hc. destruct Hc as [<- | [<- | [<- | []]]].
    + exists DispenseFood. reflexivity.
    + exists DispenseWater. reflexivity.
    + exists SetTemperature. reflexivity.
  - intros k value. unfold wireCode. rewrite mqttCommand_kind.
    destruct k; eexists; (split; [reflexivity|]); cbn; auto.
Qed.

(** ** The heater ceiling *)

Module ActuatorFacts.
Import Actuator.
Local Open Scope Q_scope.






End ActuatorFacts.


(** ** The statements at concrete inputs *)

Lemma test_prefix_message_discarded_witness :
  JS.startsWith "TEST-COMMAND-INIT" "TEST-" = true /\
  handleSensorData "TEST-COMMAND-INIT" fleet = (Skipped, fleet).
Proof.
  split; [reflexivity|]. apply test_prefix_message_discarded. reflexivity.
Defined.




Lemma kind_wire_code_bijection_witness :
  wireCode (kindName DispenseFood) (JS.ofZ 5) = wireCode (kindName DispenseFood) (JS.ofZ 80) /\
  DispenseFood = DispenseFood /\
  wireCode (kindName DispenseFood) (JS.ofZ 5) <> wireCode (kindName DispenseWater) (JS.ofZ 5) /\
  In "W"%char ["F"; "W"; "T"]%char /\
  exists k, forall value, wireCode (kindName k) value = Some "W"%char.
Proof.
  destruct kind_wire_code_bijection as [_ [Hinj [Hsurj _]]].
  split; [reflexivity|]. split; [|split; [|split]].
  - exact (Hinj DispenseFood DispenseFood (JS.ofZ 5) (JS.ofZ 80) eq_refl).
  - intros Hsame. apply Hinj in Hsame. discriminate.
  - cbn. auto.
  - apply Hsurj. cbn. auto.
Defined.


(** * Further properties of the services *)

(** ** [sendCommand] *)

Lemma kindName_known (commandType : string) :
  commandType <> "dispenseFood" ->
  commandType <> "dispenseWater" ->
  commandType <> "setTemperature" ->
  forall value, mqttCommand commandType value = None.
Proof.
  intros H1 H2 H3 value. unfold mqttCommand.
  apply String.eqb_neq in H1, H2, H3. rewrite H1, H2, H3. reflexivity.
Qed.

(** The two refusals of [sendCommand]. *)
Lemma sendCommand_refusal (commandType : string)
    (value : JS.JSNum) (deviceId : nat) (w : World) :
  connected w = false \/
  (commandType <> "dispenseFood" /\ commandType <> "dispenseWater" /\
   commandType <> "setTemperature") ->
  sendCommand commandType value deviceId w = (false, log (SendCommandResult false) w).
Proof.
  intros H. unfold sendCommand, bind at 1, get.
  destruct (connected w) eqn:Hc; cbn [negb].
  - destruct H as [H | [H1 [H2 H3]]]; [discriminate|].
    rewrite (kindName_known commandType H1 H2 H3). reflexivity.
  - reflexivity.
Qed.

(** X1. [sendCommand] refuses, without a record and without a publish, when the
    service is not connected or the command type is not one of the three it
    knows: it reports [false] and the world is as before but for that
    report. *)
Theorem sendCommand_refuses_offline_or_unknown (commandType : string)
    (value : JS.JSNum) (deviceId : nat) (w : World) :
  connected w = false \/
  (commandType <> "dispenseFood" /\ commandType <> "dispenseWater" /\
   commandType <> "setTemperature") ->
  sendCommand commandType value deviceId w = (false, log (SendCommandResult false) w).
Proof. exact (sendCommand_refusal commandType value deviceId w). Qed.

Lemma commandsIndexed_app (cs : list Command) (c : Command) :
  commandsIndexed cs -> cmd_id c = length cs -> commandsIndexed (cs ++ [c]).
Proof.
  intros Hix Hid i c' Hnth.
  destruct (Nat.lt_ge_cases i (length cs)) as [Hlt | Hge].
  - rewrite nth_error_app1 in Hnth by assumption. apply Hix, Hnth.
  - rewrite nth_error_app2 in Hnth by assumption.
    destruct (i - length cs) as [|j] eqn:Ej; cbn in Hnth.
    + injection Hnth as <-. lia.
    + destruct j; discriminate.
Qed.

Lemma commandsIndexed_with_status (cs : list Command) (c : Command) (st : string) :
  commandsIndexed cs -> cmd_id c = length cs ->
  commandsIndexed (cs ++ [with_status st c]).
Proof. intros Hix Hid. apply commandsIndexed_app; assumption. Qed.

(** The run of a connected [sendCommand] on a world with no write in flight. *)
Lemma sendCommand_run (k : CommandKind) (value : JS.JSNum) (deviceId : nat)
    (w : World) :
  connected w = true ->
  quiescent w ->
  let ok := acks (net w) (length (wire w)) in
  let w' := exec (sendCommand (kindName k) value deviceId) w in
  result (sendCommand (kindName k) value deviceId) w = ok /\
  wire w' =
    (wire w ++ [mkPublish brokerUrl s2cTopic (kindLetter k ++ JS.toString value)])%list /\
  commands w' =
    (commands w ++
     [mkCommand (length (commands w)) deviceId (kindName k) (JS.orZero value)
        (if ok then "processing" else "pending")])%list /\
  quiescent w' /\
  devices w' = devices w /\ schedules w' = schedules w /\
  sensorData w' = sensorData w /\ notifications w' = notifications w /\
  connected w' = true /\ net w' = net w.
Proof.
  intros Hc [Hq Hix].
  destruct w as [ds cs sd ns ss conn nt wi infl tr]. cbn in Hc, Hq, Hix. subst conn infl.
  cbv zeta. cbn [net wire commands]. unfold result, exec.
  remember (sendCommand (kindName k) value deviceId
              (mkWorld ds cs sd ns ss true nt wi [] tr)) as r eqn:E.
  unfold sendCommand in E. rewrite mqttCommand_kind in E.
  unfold bind, Command_create, publish, Command_update, Command_update_issue, settle,
    get, modify, emit, ret in E. cbn in E.
  pose proof (write_status_last cs
                (mkCommand (length cs) deviceId (kindName k) (JS.orZero value) "pending")
                "processing" Hix eq_refl) as Hwrite.
  pose proof (commandsIndexed_app cs
                (mkCommand (length cs) deviceId (kindName k) (JS.orZero value) "pending")
                Hix eq_refl) as Hpending.
  pose proof (commandsIndexed_with_status cs
                (mkCommand (length cs) deviceId (kindName k) (JS.orZero value) "pending")
                "processing" Hix eq_refl) as Hprocessing.
  rewrite <- Hwrite in Hprocessing.
  destruct (acks nt (length wi)); cbn in E; subst r; unfold quiescent; cbn;
    destruct k; repeat split; try assumption; try exact Hwrite; exact Hprocessing.
Qed.

(** X2. What a connected [sendCommand] does for one of its three kinds, in a
    world with no write in flight: one record is added, with the value (or 0
    when the value is falsy), one message is handed to the broker of the
    hardware on the command topic, the letter of the kind followed by the
    value, and the result is whether the broker acknowledged; the record is
    'processing' exactly when it did.  Nothing else in the store moves. *)
Theorem sendCommand_effect (k : CommandKind) (value : JS.JSNum) (deviceId : nat)
    (w : World) :
  connected w = true ->
  quiescent w ->
  let ok := acks (net w) (length (wire w)) in
  let w' := exec (sendCommand (kindName k) value deviceId) w in
  result (sendCommand (kindName k) value deviceId) w = ok /\
  wire w' =
    (wire w ++ [mkPublish brokerUrl s2cTopic (kindLetter k ++ JS.toString value)])%list /\
  commands w' =
    (commands w ++
     [mkCommand (length (commands w)) deviceId (kindName k) (JS.orZero value)
        (if ok then "processing" else "pending")])%list /\
  quiescent w' /\
  devices w' = devices w /\ schedules w' = schedules w /\
  sensorData w' = sensorData w /\ notifications w' = notifications w /\
  connected w' = true /\ net w' = net w.
Proof. exact (sendCommand_run k value deviceId w). Qed.


(** ** Telemetry against commands *)

Lemma trim_keeps_head (c : ascii) (s : string) :
  JS.is_ws c = false -> exists r, JS.trim (String c s) = String c r.
Proof.
  intros Hc. unfold JS.trim. cbn [JS.trimStart]. rewrite Hc. cbn [JS.trimEnd].
  rewrite Hc. destruct (JS.trimEnd s); eexists; reflexivity.
Qed.

Lemma split_keeps_head (sep c : ascii) (s : string) :
  Ascii.eqb c sep = false ->
  exists f fs, JS.split sep (String c s) = String c f :: fs.
Proof.
  intros Hc. cbn [JS.split]. rewrite Hc.
  destruct (JS.split sep s) as [|f fs]; eexists; eexists; reflexivity.
Qed.

(** A text whose first character is one of the three command letters has a
    first field that is not a number. *)
Lemma command_text_first_value (c : ascii) (s : string) :
  In c ["F"; "W"; "T"]%char ->
  exists vs, parseValues (String c s) = JS.NaN :: vs.
Proof.
  intros Hc. unfold parseValues.
  assert (Ascii.eqb c "," = false /\ JS.is_ws c = false /\
          forall r, JS.parseFloat (String c r) = JS.NaN) as [Hsep [Hws Hnan]].
  { cbn [In] in Hc. destruct Hc as [<- | [<- | [<- | []]]]; repeat split. }
  destruct (split_keeps_head "," c s Hsep) as [f [fs ->]]. cbn [map].
  destruct (trim_keeps_head c f Hws) as [r ->]. rewrite Hnan. eexists. reflexivity.
Qed.

(** X3. A command is never taken for telemetry: whatever the kind and the
    value, the payload [sendCommand] builds is discarded by
    [handleSensorData] without any change to the world. *)
Theorem command_payload_is_not_telemetry (k : CommandKind) (value : JS.JSNum)
    (w : World) :
  exists payload,
    mqttCommand (kindName k) value = Some payload /\
    handleSensorData payload w = (Skipped, w).
Proof.
  rewrite mqttCommand_kind. eexists. split; [reflexivity|].
  unfold handleSensorData.
  destruct (JS.startsWith _ "TEST-"); [reflexivity|].
  assert (exists c s, (match k with
                       | DispenseFood => "F"
                       | DispenseWater => "W"
                       | SetTemperature => "T"
                       end ++ JS.toString value) = String c s /\
                      In c ["F"; "W"; "T"]%char) as [c [s [-> Hc]]].
  { destruct k; eexists; eexists; (split; [reflexivity|]); cbn; auto. }
  destruct (command_text_first_value c s Hc) as [vs ->].
  cbn [existsb JS.isNaN orb]. rewrite orb_true_r. reflexivity.
Qed.

Lemma createNotification_control deviceId type value threshold level w :
  controlState
    (exec (createNotificationForSensorThreshold deviceId type value threshold level) w) =
  controlState w.
Proof.
  unfold exec, createNotificationForSensorThreshold, bind, Device_findById, get, ret.
  cbn. destruct (find _ (devices w)); cbn; [|reflexivity].
  repeat match goal with |- context [if ?b then _ else _] => destruct b end;
    reflexivity.
Qed.

Lemma notifyThreshold_control deviceId type value threshold level w :
  controlState (exec (notifyThreshold deviceId type value threshold level) w) =
  controlState w.
Proof.
  unfold notifyThreshold. rewrite exec_bind.
  destruct (result (createNotificationForSensorThreshold _ _ _ _ _) w);
    [change (exec (emit ?e) ?w0) with (log e w0)|change (exec (ret tt) ?w0) with w0];
    rewrite <- (createNotification_control deviceId type value (JS.ofZ threshold) level w);
    reflexivity.
Qed.

Lemma checkThresholds_control device type value w :
  controlState (exec (checkThresholds device type value) w) = controlState w.
Proof.
  unfold checkThresholds.
  repeat match goal with |- context [if ?b then _ else _] => destruct b end;
    try apply notifyThreshold_control; reflexivity.
Qed.

Lemma updateDevice_control values device w :
  controlState (exec (updateDevice values device) w) = controlState w.
Proof.
  unfold updateDevice. apply (forEach_preserves controlState).
  intros [type value] w0. rewrite exec_bind, checkThresholds_control. reflexivity.
Qed.

(** X4. Telemetry never dispatches: whatever the message, [handleSensorData]
    leaves the devices, the commands, the schedules, the connection, the
    published messages and the writes in flight as they were. *)
Theorem telemetry_never_touches_control (data : string) (w : World) :
  controlState (exec (handleSensorData data) w) = controlState w.
Proof.
  unfold handleSensorData.
  destruct (JS.startsWith data "TEST-"); [reflexivity|].
  destruct (_ || _); [reflexivity|].
  rewrite exec_bind.
  change (exec (Device_find_status "online") w) with w.
  destruct (Nat.eqb _ 0); [reflexivity|].
  rewrite exec_bind.
  change (exec (ret ?x) ?w0) with w0.
  apply (forEach_preserves controlState). intros device w0. apply updateDevice_control.
Qed.

(** ** Threshold notifications *)







(** ** The HTTP controllers *)

Lemma compare_ofZ (a b : Z) : JS.compare (JS.ofZ a) (JS.ofZ b) = Some (a ?= b)%Z.
Proof.
  unfold JS.compare, JS.ofZ. cbn [Z.min Z.compare]. rewrite !scaled_ofZ. reflexivity.
Qed.

Lemma le_ofZ (a b : Z) : JS.le (JS.ofZ a) (JS.ofZ b) = (a <=? b)%Z.
Proof.
  unfold JS.le. rewrite compare_ofZ. unfold Z.leb. destruct (a ?= b)%Z; reflexivity.
Qed.

Lemma lt_ofZ (a b : Z) : JS.lt (JS.ofZ a) (JS.ofZ b) = (a <? b)%Z.
Proof.
  unfold JS.lt. rewrite compare_ofZ. unfold Z.ltb. destruct (a ?= b)%Z; reflexivity.
Qed.

Lemma gt_ofZ (a b : Z) : JS.gt (JS.ofZ a) (JS.ofZ b) = (b <? a)%Z.
Proof.
  unfold JS.gt. rewrite compare_ofZ. rewrite Z.ltb_antisym. unfold Z.leb.
  destruct (a ?= b)%Z; reflexivity.
Qed.

Lemma truthy_ofZ (z : Z) : JS.truthy (JS.ofZ z) = negb (z =? 0)%Z.
Proof.
  unfold JS.truthy, JS.ofZ. f_equal.
  destruct z; reflexivity.
Qed.

(** X6. The bounds of the request values.  A whole amount is accepted exactly
    from 1 to 100 and a whole temperature exactly from 15 to 30; a request
    without the field is refused; and every positive amount below 1 is
    accepted as well, although the answer to a refused amount says 'between
    1 and 100'. *)
Theorem request_value_bounds :
  (forall z, invalidAmount (Some (JS.ofZ z)) = false <-> (1 <= z <= 100)%Z)
  /\
  (forall z, invalidTemperature (Some (JS.ofZ z)) = false <-> (15 <= z <= 30)%Z)
  /\
  invalidAmount None = true /\ invalidTemperature None = true
  /\
  (forall m e, (0 < m)%N -> (e < 0)%Z -> (Z.of_N m < 10 ^ (- e))%Z ->
     invalidAmount (Some (JS.Fin false m e)) = false).
Proof.
  split; [|split; [|split; [|split]]].
  - intros z. unfold invalidAmount. rewrite truthy_ofZ, le_ofZ, gt_ofZ, negb_involutive.
    rewrite !orb_false_iff, Z.eqb_neq, Z.leb_gt, Z.ltb_ge. lia.
  - intros z. unfold invalidTemperature. rewrite lt_ofZ, gt_ofZ.
    rewrite !orb_false_iff, !Z.ltb_ge. lia.
  - reflexivity.
  - reflexivity.
  - intros m e Hm He Hlt. unfold invalidAmount, JS.truthy, JS.le, JS.gt, JS.compare, JS.ofZ.
    change (0 <? 0)%Z with false. change (100 <? 0)%Z with false.
    change (Z.abs_N 0) with 0%N. change (Z.abs_N 100) with 100%N.
    rewrite Z.min_l by lia. unfold JS.scaled.
    replace (e - e)%Z with 0%Z by lia. replace (0 - e)%Z with (- e)%Z by lia.
    change (Z.of_N 0) with 0%Z. change (Z.of_N 100) with 100%Z.
    rewrite Z.pow_0_r, Z.mul_1_r, Z.mul_0_l.
    assert (0 < 10 ^ (- e))%Z as Hpow by (apply Z.pow_pos_nonneg; lia).
    destruct (N.eqb_spec m 0) as [->|_]; [lia|]. cbn [negb orb].
    destruct (Z.compare_spec (Z.of_N m) 0); try lia.
    destruct (Z.compare_spec (Z.of_N m) (100 * 10 ^ (- e))); try lia; reflexivity.
Qed.

(** X7. The HTTP controllers act only on a valid request for an online device:
    when one of them records a command or hands a message to a broker, the
    value of the request was within its bounds and the first device of the
    user was online. *)
Theorem http_controllers_act_only_when_valid_and_online (req : Request) (w : World) :
  forall handler invalid,
    In (handler, invalid)
       [ (dispenseFood, invalidAmount (body_amount req));
         (dispenseWater, invalidAmount (body_amount req));
         (setTemperature, invalidTemperature (body_temperature req)) ] ->
    commands (exec (handler req) w) <> commands w \/
    wire (exec (handler req) w) <> wire w ->
    invalid = false /\
    exists d, primaryDevice (req_user req) w = Some d /\ isOnline d = true.
Proof.
  intros handler invalid Hin Hacts.
  assert (In handler [dispenseFood; dispenseWater; setTemperature]) as Hh.
  { cbn [In] in *. destruct Hin as [E | [E | [E | []]]]; injection E as <- _; auto. }
  assert (invalid = true ->
          commands (exec (handler req) w) = commands w /\
          wire (exec (handler req) w) = wire w) as Hinvalid.
  { intros Hi. cbn [In] in Hin.
    destruct Hin as [E | [E | [E | []]]]; injection E as <- <-;
      [unfold dispenseFood | unfold dispenseWater | unfold setTemperature];
      rewrite Hi; split; reflexivity. }
  destruct invalid.
  - destruct (Hinvalid eq_refl) as [Hc Hw]. destruct Hacts; contradiction.
  - split; [reflexivity|].
    destruct (primaryDevice (req_user req) w) as [d|] eqn:Edev.
    + destruct (isOnline d) eqn:Eon; [exists d; split; [reflexivity|exact Eon]|].
      exfalso.
      destruct (http_unavailable_device_no_command req w) with (handler := handler)
        as [Hc Hw]; [rewrite Edev; exact Eon | exact Hh |].
      destruct Hacts; contradiction.
    + exfalso.
      destruct (http_unavailable_device_no_command req w) with (handler := handler)
        as [Hc Hw]; [rewrite Edev; exact I | exact Hh |].
      destruct Hacts; contradiction.
Qed.

Lemma responses_log (e : Event) (w : World) :
  responses (log e w) =
  (responses w ++ match e with
                  | Responded code success message => [(code, success, message)]
                  | _ => []
                  end)%list.
Proof.
  unfold responses. cbn [log trace]. rewrite flat_map_app. cbn [flat_map].
  rewrite app_nil_r. reflexivity.
Qed.

(** X8. [dispenseWater] and [setTemperature] on a valid request for an online
    device, in a world with no write in flight: the request gets one answer,
    200 when the service is connected and the broker acknowledged and 500
    otherwise; a connected service records one command for the first device
    of the user, 'processing' or 'pending' accordingly, and publishes the
    letter followed by the value; a disconnected one records and publishes
    nothing. *)
Theorem http_water_temperature_effect (req : Request) (d : Device) (w : World) :
  primaryDevice (req_user req) w = Some d ->
  isOnline d = true ->
  quiescent w ->
  let ok := connected w && acks (net w) (length (wire w)) in
  let id := length (commands w) in
  (forall a,
     body_amount req = Some a -> invalidAmount (Some a) = false ->
     let w' := exec (dispenseWater req) w in
     commands w' =
       (commands w ++
        if connected w
        then [mkCommand id (dev_id d) "dispenseWater" (JS.orZero a)
                (if ok then "processing" else "pending")]
        else [])%list /\
     wire w' =
       (wire w ++
        if connected w then [mkPublish brokerUrl s2cTopic ("W" ++ JS.toString a)]
        else [])%list /\
     responses w' =
       (responses w ++
        [if ok then (200, true, "Water dispense command sent successfully")
         else (500, false, "Failed to send command to device")])%list)
  /\
  (forall t,
     body_temperature req = Some t -> invalidTemperature (Some t) = false ->
     let w' := exec (setTemperature req) w in
     commands w' =
       (commands w ++
        if connected w
        then [mkCommand id (dev_id d) "setTemperature" (JS.orZero t)
                (if ok then "processing" else "pending")]
        else [])%list /\
     wire w' =
       (wire w ++
        if connected w then [mkPublish brokerUrl s2cTopic ("T" ++ JS.toString t)]
        else [])%list /\
     responses w' =
       (responses w ++
        [if ok then (200, true, "Temperature setting command sent successfully")
         else (500, false, "Failed to send command to device")])%list).
Proof.
  intros Hdev Hon [Hq Hix]. unfold primaryDevice, isOnline in *.
  destruct w as [ds cs sd ns ss conn nt wi infl tr].
  cbn in Hdev, Hq, Hix. subst infl. cbv zeta. cbn [connected net wire commands].
  destruct (filter _ ds) as [|d0 rest] eqn:Efilter; cbn [hd_error] in Hdev; [discriminate|].
  injection Hdev as ->.
  split.
  - intros a Hbody Hvalid.
    pose proof (write_status_last cs
                  (mkCommand (length cs) (dev_id d) "dispenseWater" (JS.orZero a) "pending")
                  "processing" Hix eq_refl) as Hwrite.
    remember (exec (dispenseWater req) (mkWorld ds cs sd ns ss conn nt wi [] tr))
      as w' eqn:E.
    unfold exec, dispenseWater in E. rewrite Hbody, Hvalid in E.
    unfold bind at 1, Device_find_userId, bind at 1, get, ret in E.
    cbn [fst snd devices] in E. rewrite Efilter, Hon in E. cbn [negb] in E.
    unfold sendCommand, bind, Command_create, publish, Command_update,
      Command_update_issue, settle, respond, get, modify, emit, ret in E.
    destruct conn; cbn in E; [destruct (acks nt (length wi)); cbn in E|];
      subst w'; unfold responses; cbn; rewrite ?flat_map_app; cbn;
      rewrite ?app_nil_r; repeat split; try exact Hwrite.
  - intros t Hbody Hvalid.
    pose proof (write_status_last cs
                  (mkCommand (length cs) (dev_id d) "setTemperature" (JS.orZero t) "pending")
                  "processing" Hix eq_refl) as Hwrite.
    remember (exec (setTemperature req) (mkWorld ds cs sd ns ss conn nt wi [] tr))
      as w' eqn:E.
    unfold exec, setTemperature in E. rewrite Hbody, Hvalid in E.
    unfold bind at 1, Device_find_userId, bind at 1, get, ret in E.
    cbn [fst snd devices] in E. rewrite Efilter, Hon in E. cbn [negb] in E.
    unfold sendCommand, bind, Command_create, publish, Command_update,
      Command_update_issue, settle, respond, get, modify, emit, ret in E.
    destruct conn; cbn in E; [destruct (acks nt (length wi)); cbn in E|];
      subst w'; unfold responses; cbn; rewrite ?flat_map_app; cbn;
      rewrite ?app_nil_r; repeat split; try exact Hwrite.
Qed.

(** X9. [dispenseFood] on a valid request for an online device, in a world with
    no write in flight: one command is recorded for the first device of the
    user and the request gets one answer; the record ends 'processing' and
    the answer is 200 when the client of the controller connects and its
    publish is acknowledged, and the record ends 'failed' with the answer 500
    when the publish fails or the client gets an error instead of a
    connection; the state of the service's own connection plays no part. *)
Theorem http_dispenseFood_outcomes (req : Request) (a : JS.JSNum) (d : Device)
    (w : World) :
  body_amount req = Some a ->
  invalidAmount (Some a) = false ->
  primaryDevice (req_user req) w = Some d ->
  isOnline d = true ->
  quiescent w ->
  let ok := direct_connects (net w) && acks (net w) (length (wire w)) in
  let w' := exec (dispenseFood req) w in
  commands w' =
    (commands w ++
     [mkCommand (length (commands w)) (dev_id d) "dispenseFood" (JS.orZero a)
        (if ok then "processing" else "failed")])%list /\
  length (wire w') = (length (wire w) + if direct_connects (net w) then 1 else 0) /\
  responses w' =
    (responses w ++
     [if ok then (200, true, "Food dispense command sent successfully")
      else if direct_connects (net w)
           then (500, false, "Failed to send command to device")
           else (500, false, "MQTT connection error")])%list /\
  quiescent w'.
Proof.
  intros Hamount Hvalid Hdev Hon [Hq Hix]. unfold primaryDevice, isOnline in *.
  destruct w as [ds cs sd ns ss conn nt wi infl tr].
  cbn in Hdev, Hq, Hix. subst infl. cbv zeta. cbn [net wire commands].
  destruct (filter _ ds) as [|d0 rest] eqn:Efilter; cbn [hd_error] in Hdev; [discriminate|].
  injection Hdev as ->.
  pose proof (fun st => write_status_last cs
                (mkCommand (length cs) (dev_id d) "dispenseFood" (JS.orZero a) "pending")
                st Hix eq_refl) as Hwrite.
  pose proof (fun st => commandsIndexed_with_status cs
                (mkCommand (length cs) (dev_id d) "dispenseFood" (JS.orZero a) "pending")
                st Hix eq_refl) as Hindexed.
  remember (exec (dispenseFood req) (mkWorld ds cs sd ns ss conn nt wi [] tr)) as w' eqn:E.
  unfold exec, dispenseFood in E. rewrite Hamount, Hvalid in E.
  unfold bind at 1, Device_find_userId, bind at 1, get, ret in E.
  cbn [fst snd devices] in E. rewrite Efilter, Hon in E. cbn [negb] in E.
  unfold bind, Command_create, publish, Command_update_issue, settle, respond,
    get, modify, emit, ret in E. cbn in E.
  destruct (direct_connects nt); cbn in E; [destruct (acks nt (length wi)); cbn in E|];
    subst w'; unfold responses, quiescent; cbn; rewrite ?flat_map_app; cbn;
    rewrite ?app_nil_r, ?length_app; cbn;
    repeat split; try apply Hwrite; try lia;
    match goal with |- commandsIndexed _ => idtac end.
  - pose proof (Hindexed "processing") as H. rewrite <- (Hwrite "processing") in H. exact H.
  - pose proof (Hindexed "failed") as H. rewrite <- (Hwrite "failed") in H. exact H.
  - pose proof (Hindexed "failed") as H. rewrite <- (Hwrite "failed") in H. exact H.
Qed.

(** ** The scheduler *)

Lemma write_status_app (id : nat) (st : string) (l1 l2 : list Command) :
  write_status id st (l1 ++ l2) = (write_status id st l1 ++ write_status id st l2)%list.
Proof. unfold write_status. apply map_app. Qed.

Lemma write_status_beyond (id : nat) (st : string) (cs : list Command) :
  commandsIndexed cs -> length cs <= id -> write_status id st cs = cs.
Proof.
  intros Hix Hle. unfold write_status. rewrite <- (map_id cs) at 2.
  apply map_ext_in. intros c Hin.
  destruct (In_nth_error cs c Hin) as [i Hi]. rewrite (Hix i c Hi).
  assert (i < length cs) as Hlt by (apply nth_error_Some; congruence).
  destruct (Nat.eqb_spec i id); [lia|reflexivity].
Qed.

Lemma commandsIndexed_write_status (id : nat) (st : string) (cs : list Command) :
  commandsIndexed cs -> commandsIndexed (write_status id st cs).
Proof.
  intros Hix i c Hnth. unfold write_status in Hnth. rewrite nth_error_map in Hnth.
  destruct (nth_error cs i) as [c0|] eqn:E; [|discriminate].
  cbn in Hnth. injection Hnth as <-. specialize (Hix i c0 E).
  destruct (Nat.eqb (cmd_id c0) id); exact Hix.
Qed.

(** An awaited status write on a world with no write in flight. *)
Lemma Command_update_run (id : nat) (st : string) (w : World) :
  inflight w = [] ->
  let w' := exec (Command_update id st) w in
  commands w' = write_status id st (commands w) /\
  inflight w' = [] /\
  devices w' = devices w /\ schedules w' = schedules w /\
  sensorData w' = sensorData w /\ notifications w' = notifications w /\
  connected w' = connected w /\ net w' = net w /\ wire w' = wire w.
Proof.
  intros Hq. destruct w as [ds cs sd ns ss conn nt wi infl tr]. cbn in Hq. subst infl.
  cbv zeta. repeat split.
Qed.

(** The dispatch of a due schedule whose device is known, on a world with
    no write in flight. *)
Lemma executeSchedule_run (s : Schedule) (w : World) :
  deviceKnown s w = true ->
  quiescent w ->
  let ok := acks (net w) (length (wire w)) in
  let id := length (commands w) in
  let type := kindName (scheduleKind s) in
  let st := if ok then "processing" else "pending" in
  let w' := exec (executeSchedule s) w in
  commands w' =
    (commands w ++
     if connected w
     then [mkCommand id (sch_deviceId s) type (sch_amount s) st;
           mkCommand (S id) (sch_deviceId s) type (JS.orZero (sch_amount s)) st]
     else [mkCommand id (sch_deviceId s) type (sch_amount s) "pending"])%list /\
  wire w' =
    (wire w ++
     if connected w
     then [mkPublish brokerUrl s2cTopic
             (kindLetter (scheduleKind s) ++ JS.toString (sch_amount s))]
     else [])%list /\
  quiescent w' /\
  devices w' = devices w /\ schedules w' = schedules w /\
  connected w' = connected w /\ net w' = net w.
Proof.
  unfold deviceKnown. intros Hknown [Hq Hix]. cbv zeta.
  unfold executeSchedule. rewrite exec_bind.
  change (exec (Device_findById (sch_deviceId s)) w) with w.
  change (result (Device_findById (sch_deviceId s)) w)
    with (find (fun d => Nat.eqb (dev_id d) (sch_deviceId s)) (devices w)).
  destruct (find _ (devices w)) as [d|]; [clear Hknown|discriminate].
  cbv zeta.
  replace (if String.eqb (sch_type s) "food" then "dispenseFood" else "dispenseWater")
    with (kindName (scheduleKind s))
    by (unfold scheduleKind; destruct (String.eqb (sch_type s) "food"); reflexivity).
  generalize (scheduleKind s). intros k.
  rewrite exec_bind.
  set (c1 := mkCommand (length (commands w)) (sch_deviceId s) (kindName k)
               (sch_amount s) "pending").
  change (result (Command_create (sch_deviceId s) (kindName k) (sch_amount s) "pending") w)
    with c1.
  set (w1 := exec (Command_create (sch_deviceId s) (kindName k) (sch_amount s) "pending") w).
  assert (commands w1 = (commands w ++ [c1])%list) as Hc1 by reflexivity.
  assert (quiescent w1) as Hq1.
  { split; [exact Hq|]. rewrite Hc1. apply commandsIndexed_app; [assumption|reflexivity]. }
  assert (devices w1 = devices w /\ schedules w1 = schedules w /\
          connected w1 = connected w /\ net w1 = net w /\ wire w1 = wire w)
    as [Hd1 [Hs1 [Hn1 [Hnet1 Hw1]]]] by (repeat split).
  rewrite exec_bind.
  destruct (connected w) eqn:Hconn.
  - pose proof (sendCommand_run k (sch_amount s) (sch_deviceId s) w1 Hn1 Hq1) as Hrun.
    cbv zeta in Hrun.
    set (sc := sendCommand (kindName k) (sch_amount s) (sch_deviceId s)) in *.
    destruct Hrun as [Hr [Hwire [Hcmds [[Hq2 Hix2] [Hd2 [Hs2 [_ [_ [Hn2 Hnet2]]]]]]]]].
    set (w2 := exec sc w1) in *.
    rewrite Hr. rewrite Hnet1, Hw1, Hc1 in Hcmds. rewrite Hw1 in Hwire.
    rewrite length_app in Hcmds. cbn [length] in Hcmds. rewrite Nat.add_1_r in Hcmds.
    rewrite Hnet1, Hw1.
    destruct (acks (net w) (length (wire w))).
    + destruct (Command_update_run (cmd_id c1) "processing" w2 Hq2)
        as [Hc3 [Hq3 [Hd3 [Hs3 [_ [_ [Hn3 [Hnet3 Hw3]]]]]]]].
      set (w3 := exec (Command_update (cmd_id c1) "processing") w2) in *.
      assert (commands w3 =
              (commands w ++
               [with_status "processing" c1;
                mkCommand (S (length (commands w))) (sch_deviceId s) (kindName k)
                  (JS.orZero (sch_amount s)) "processing"])%list) as Hfinal.
      { rewrite Hc3, Hcmds, <- app_assoc. cbn [app].
        rewrite write_status_app, (write_status_beyond _ _ _ Hix (Nat.le_refl _)).
        unfold write_status. cbn [map cmd_id c1]. rewrite Nat.eqb_refl.
        destruct (Nat.eqb_spec (S (length (commands w))) (length (commands w))); [lia|].
        reflexivity. }
      split; [exact Hfinal|]. split; [congruence|].
      split; [split; [assumption|rewrite Hc3; apply commandsIndexed_write_status, Hix2]|].
      repeat split; congruence.
    + change (exec (ret tt) w2) with w2.
      split; [rewrite Hcmds, <- app_assoc; reflexivity|]. split; [congruence|].
      split; [split; assumption|].
      repeat split; congruence.
  - assert (sendCommand (kindName k) (sch_amount s) (sch_deviceId s) w1 =
            (false, log (SendCommandResult false) w1)) as Hsc
      by (apply sendCommand_refusal; left; congruence).
    assert (result (sendCommand (kindName k) (sch_amount s) (sch_deviceId s)) w1 = false)
      as Hres by (unfold result; rewrite Hsc; reflexivity).
    assert (exec (sendCommand (kindName k) (sch_amount s) (sch_deviceId s)) w1 =
            log (SendCommandResult false) w1)
      as Hexec by (unfold exec; rewrite Hsc; reflexivity).
    rewrite Hres, Hexec. change (exec (ret tt) ?x) with x. rewrite app_nil_r.
    destruct Hq1 as [Hq1 Hix1].
    split; [exact Hc1|]. split; [exact Hw1|]. split; [split; assumption|].
    repeat split; assumption.
Qed.

Lemma deviceKnown_false (s : Schedule) (w : World) :
  deviceKnown s w = false ->
  find (fun d => Nat.eqb (dev_id d) (sch_deviceId s)) (devices w) = None.
Proof. unfold deviceKnown. destruct (find _ (devices w)); [discriminate|reflexivity]. Qed.

Lemma forEach_unknown_devices (l : list Schedule) (w : World) :
  (forall s, In s l -> deviceKnown s w = false) ->
  forEach l executeSchedule w = (tt, w).
Proof.
  induction l as [|s l IH]; intros Hl; [reflexivity|].
  cbn [forEach]. unfold bind.
  rewrite (executeSchedule_missing_device s w)
    by (apply deviceKnown_false, Hl; left; reflexivity).
  apply IH. intros s' Hin. apply Hl. right. exact Hin.
Qed.

(** X10. A tick in which no stored schedule is both due and attached to a known
    device does nothing at all: a disabled schedule, a schedule outside its
    day or minute and a schedule whose device is gone leave the world as it
    was. *)
Theorem tick_without_dispatchable_schedule (now : Instant) (w : World) :
  (forall s, In s (schedules w) ->
     shouldRunSchedule s now = true -> deviceKnown s w = false) ->
  checkAndExecuteSchedules now w = (tt, w).
Proof.
  intros Hnone. rewrite checkAndExecuteSchedules_due.
  apply forEach_unknown_devices. intros s Hin.
  apply filter_In in Hin. destruct Hin as [Hin Hdue]. apply Hnone; assumption.
Qed.

(** X11. The dispatch of a due schedule whose device is known, on a world with
    no write in flight: a schedule of type 'food' becomes a 'dispenseFood'
    command and any other a 'dispenseWater' command; with the service
    connected the command is recorded twice, once by the scheduler with the
    amount and once by [sendCommand], both 'processing' when the broker
    acknowledged and both 'pending' when it did not, and one payload (F or W
    followed by the amount) is published; with the service disconnected
    only the scheduler's record is made, 'pending', and nothing is
    published. *)
Theorem due_schedule_is_recorded_twice (s : Schedule) (w : World) :
  deviceKnown s w = true ->
  quiescent w ->
  let ok := acks (net w) (length (wire w)) in
  let id := length (commands w) in
  let type := kindName (scheduleKind s) in
  let st := if ok then "processing" else "pending" in
  let w' := exec (executeSchedule s) w in
  commands w' =
    (commands w ++
     if connected w
     then [mkCommand id (sch_deviceId s) type (sch_amount s) st;
           mkCommand (S id) (sch_deviceId s) type (JS.orZero (sch_amount s)) st]
     else [mkCommand id (sch_deviceId s) type (sch_amount s) "pending"])%list /\
  wire w' =
    (wire w ++
     if connected w
     then [mkPublish brokerUrl s2cTopic
             (kindLetter (scheduleKind s) ++ JS.toString (sch_amount s))]
     else [])%list.
Proof.
  intros Hknown Hq. cbv zeta.
  destruct (executeSchedule_run s w Hknown Hq) as [Hc [Hw _]]. split; assumption.
Qed.

Lemma deviceKnown_devices (s : Schedule) (w w' : World) :
  devices w' = devices w -> deviceKnown s w' = deviceKnown s w.
Proof. intros H. unfold deviceKnown. rewrite H. reflexivity. Qed.

Lemma forEach_executeSchedule_counts (l : list Schedule) (w : World) :
  quiescent w ->
  let n := length (filter (fun s => deviceKnown s w) l) in
  let w' := exec (forEach l executeSchedule) w in
  length (commands w') = length (commands w) + (if connected w then 2 else 1) * n /\
  length (wire w') = length (wire w) + (if connected w then 1 else 0) * n /\
  quiescent w' /\ devices w' = devices w /\ schedules w' = schedules w /\
  connected w' = connected w.
Proof.
  revert w. induction l as [|s l IH]; intros w Hq; cbv zeta.
  - cbn. rewrite !Nat.mul_0_r, !Nat.add_0_r. repeat split; try reflexivity; apply Hq.
  - cbn [forEach filter]. rewrite exec_bind.
    destruct (deviceKnown s w) eqn:Hknown.
    + destruct (executeSchedule_run s w Hknown Hq)
        as [Hc [Hw [Hq1 [Hd [Hs [Hconn _]]]]]].
      set (w1 := exec (executeSchedule s) w) in *.
      destruct (IH w1 Hq1) as [Hc' [Hw' [Hq' [Hd' [Hs' Hconn']]]]].
      rewrite (filter_ext (fun s => deviceKnown s w1) (fun s => deviceKnown s w))
        in Hc', Hw' by (intros s'; apply deviceKnown_devices, Hd).
      rewrite Hconn in Hc', Hw'.
      rewrite Hc', Hw', Hc, Hw, !length_app. cbn [length].
      destruct (connected w); cbn [length];
        (split; [lia|]); (split; [lia|]); repeat split; try congruence; apply Hq'.
    + assert (exec (executeSchedule s) w = w) as Hsame.
      { unfold exec. rewrite (executeSchedule_missing_device s w); [reflexivity|].
        apply deviceKnown_false, Hknown. }
      rewrite Hsame. apply IH, Hq.
Qed.

Lemma filter_filter {A} (p q : A -> bool) (l : list A) :
  filter p (filter q l) = filter (fun x => q x && p x) l.
Proof.
  induction l as [|x l IH]; [reflexivity|]. cbn [filter].
  destruct (q x); cbn [filter andb]; rewrite IH; reflexivity.
Qed.

(** X12. One tick on a world with no write in flight: every stored schedule that
    is due and whose device is known adds two records and one published
    message when the service is connected, and one record and no message
    when it is not; the other schedules add nothing, and the devices and the
    schedules themselves are left as they were. *)
Theorem tick_records_each_due_schedule (now : Instant) (w : World) :
  quiescent w ->
  let due := filter (fun s => shouldRunSchedule s now && deviceKnown s w) (schedules w) in
  let w' := exec (checkAndExecuteSchedules now) w in
  length (commands w') =
    length (commands w) + (if connected w then 2 else 1) * length due /\
  length (wire w') = length (wire w) + (if connected w then 1 else 0) * length due /\
  devices w' = devices w /\ schedules w' = schedules w.
Proof.
  intros Hq. cbv zeta. unfold exec. rewrite checkAndExecuteSchedules_due.
  rewrite <- filter_filter.
  destruct (forEach_executeSchedule_counts
              (filter (fun s => shouldRunSchedule s now) (schedules w)) w Hq)
    as [Hc [Hw [_ [Hd [Hs _]]]]].
  repeat split; assumption.
Qed.

(** ** The socket service *)

Lemma filter_map_same {A} (p : A -> bool) (f : A -> A) (l : list A) :
  (forall x, p (f x) = p x) -> filter p (map f l) = map f (filter p l).
Proof.
  intros H. induction l as [|x l IH]; [reflexivity|]. cbn [map filter].
  rewrite H. destruct (p x); cbn [map]; rewrite IH; reflexivity.
Qed.

(** Saving a status on the first device of a user. *)
Lemma save_status_primary (uid : nat) (st : string) (d : Device) (w : World) :
  primaryDevice uid w = Some d ->
  let w' := exec (Device_save_status (dev_id d) st) w in
  primaryDevice uid w' = Some (with_dev_status st d) /\
  map dev_id (devices w') = map dev_id (devices w) /\
  (forall d', In d' (devices w) -> dev_id d' <> dev_id d -> In d' (devices w')) /\
  commands w' = commands w /\ wire w' = wire w /\ inflight w' = inflight w /\
  schedules w' = schedules w /\ connected w' = connected w /\ trace w' = trace w.
Proof.
  unfold primaryDevice. intros Hdev. cbv zeta.
  set (f := fun x => if Nat.eqb (dev_id x) (dev_id d)
                     then mkDevice (dev_id x) (dev_userId x) (dev_name x) st else x).
  change (devices (exec (Device_save_status (dev_id d) st) w)) with (map f (devices w)).
  assert (forall x, dev_id (f x) = dev_id x) as Hid
    by (intros x; unfold f; destruct (Nat.eqb _ _); reflexivity).
  assert (forall x, dev_userId (f x) = dev_userId x) as Huser
    by (intros x; unfold f; destruct (Nat.eqb _ _); reflexivity).
  split; [|split; [|split]].
  - rewrite filter_map_same by (intros x; rewrite Huser; reflexivity).
    destruct (filter _ (devices w)) as [|d0 rest]; cbn [hd_error] in Hdev; [discriminate|].
    injection Hdev as ->. cbn [map hd_error]. unfold f. rewrite Nat.eqb_refl. reflexivity.
  - rewrite map_map. apply map_ext. exact Hid.
  - intros d' Hin Hne. apply in_map_iff. exists d'. split; [|exact Hin].
    unfold f. destruct (Nat.eqb_spec (dev_id d') (dev_id d)); [contradiction|reflexivity].
  - repeat split.
Qed.

(** Without a device of the user, connecting and disconnecting change
    nothing. *)
Lemma socket_connection_status_none (uid : nat) (w : World) :
  primaryDevice uid w = None ->
  socket_connect uid w = (tt, w) /\ socket_disconnect uid w = (tt, w).
Proof.
  unfold primaryDevice. intros Hnone.
  assert (filter (fun d => Nat.eqb (dev_userId d) uid) (devices w) = []) as Hnil
    by (destruct (filter _ (devices w)); [reflexivity|discriminate]).
  unfold socket_connect, socket_disconnect, Device_find_userId, bind, get, ret.
  cbv beta iota. rewrite Hnil. split; reflexivity.
Qed.

(** X13. A socket connection marks the first device of the user 'online' and a
    disconnection marks it 'offline'; no device is added or removed, the
    devices with another id keep their status, and a user without a device
    changes nothing. *)
Theorem socket_connection_sets_device_status (uid : nat) (w : World) :
  (forall d, primaryDevice uid w = Some d ->
     primaryDevice uid (exec (socket_connect uid) w) = Some (with_dev_status "online" d) /\
     primaryDevice uid (exec (socket_disconnect uid) w) =
       Some (with_dev_status "offline" d) /\
     map dev_id (devices (exec (socket_connect uid) w)) = map dev_id (devices w) /\
     map dev_id (devices (exec (socket_disconnect uid) w)) = map dev_id (devices w) /\
     (forall d', In d' (devices w) -> dev_id d' <> dev_id d ->
        In d' (devices (exec (socket_connect uid) w)) /\
        In d' (devices (exec (socket_disconnect uid) w))))
  /\
  (primaryDevice uid w = None ->
     socket_connect uid w = (tt, w) /\ socket_disconnect uid w = (tt, w)).
Proof.
  split.
  - intros d Hdev.
    assert (forall st,
              exec (devices <- Device_find_userId uid ;;
                    match devices with
                    | device :: _ =>
                        Device_save_status (dev_id device) st ;;
                        emit (RoomDeviceStatus (dev_id device) st)
                    | [] => ret tt
                    end) w =
              log (RoomDeviceStatus (dev_id d) st)
                  (exec (Device_save_status (dev_id d) st) w)) as Hrun.
    { intros st. unfold primaryDevice in Hdev. rewrite exec_bind.
      change (exec (Device_find_userId uid) w) with w.
      change (result (Device_find_userId uid) w)
        with (filter (fun d => Nat.eqb (dev_userId d) uid) (devices w)).
      destruct (filter _ (devices w)) as [|d0 rest]; cbn [hd_error] in Hdev; [discriminate|].
      injection Hdev as ->. rewrite exec_bind. reflexivity. }
    unfold socket_connect, socket_disconnect. rewrite !Hrun.
    destruct (save_status_primary uid "online" d w Hdev) as [P1 [I1 [O1 _]]].
    destruct (save_status_primary uid "offline" d w Hdev) as [P2 [I2 [O2 _]]].
    repeat split; try assumption.
    + apply O1; assumption.
    + apply O2; assumption.
  - apply socket_connection_status_none.
Qed.

(** X14. After the user's socket has disconnected, the HTTP controllers refuse
    that user's commands: nothing is recorded and nothing is published. *)
Theorem http_refuses_after_socket_disconnect (req : Request) (w : World) :
  forall handler, In handler [dispenseFood; dispenseWater; setTemperature] ->
  let w1 := exec (socket_disconnect (req_user req)) w in
  commands (exec (handler req) w1) = commands w /\
  wire (exec (handler req) w1) = wire w.
Proof.
  intros handler Hin. cbv zeta.
  set (w1 := exec (socket_disconnect (req_user req)) w).
  assert (commands w1 = commands w /\ wire w1 = wire w /\
          match primaryDevice (req_user req) w1 with
          | None => True
          | Some d => isOnline d = false
          end) as [Hc [Hw Hoff]].
  { destruct (primaryDevice (req_user req) w) as [d|] eqn:Hdev.
    - assert (w1 = log (RoomDeviceStatus (dev_id d) "offline")
                       (exec (Device_save_status (dev_id d) "offline") w)) as ->.
      { unfold w1, socket_disconnect. unfold primaryDevice in Hdev. rewrite exec_bind.
        change (exec (Device_find_userId (req_user req)) w) with w.
        change (result (Device_find_userId (req_user req)) w)
          with (filter (fun d => Nat.eqb (dev_userId d) (req_user req)) (devices w)).
        destruct (filter _ (devices w)) as [|d0 rest]; cbn [hd_error] in Hdev;
          [discriminate|].
        injection Hdev as ->. rewrite exec_bind. reflexivity. }
      destruct (save_status_primary (req_user req) "offline" d w Hdev) as [P _].
      split; [reflexivity|]. split; [reflexivity|].
      change (primaryDevice (req_user req) (log ?e ?x)) with (primaryDevice (req_user req) x).
      rewrite P. reflexivity.
    - destruct (socket_connection_status_none (req_user req) w Hdev) as [_ Hsame].
      unfold w1, exec. rewrite Hsame. cbn [snd]. rewrite Hdev. repeat split. }
  destruct (http_unavailable_device_no_command req w1 Hoff handler Hin) as [Hc' Hw'].
  split; congruence.
Qed.

Lemma result_bind' {A B} (c : M A) (k : A -> M B) (w : World) :
  result (bind c k) w = result (k (result c w)) (exec c w).
Proof. unfold exec, result, bind. destruct (c w). reflexivity. Qed.

(** X15. A command sent over the socket, valid and for a user with a device, on
    a world with no write in flight.  The status of the device is not looked
    at.  The handler records the command with the value as sent; a connected
    service records it a second time in [sendCommand] and publishes the
    letter followed by the value; both records are 'processing' when the
    broker acknowledged and 'pending' otherwise, and that status is what the
    socket is told.  Whatever the outcome, the user gets the notification
    that the command has been sent. *)
Theorem socket_command_effect (k : CommandKind) (invalid : option JS.JSNum -> bool)
    (invalidMessage title : string) (message : JS.JSNum -> string)
    (uid : nat) (v : JS.JSNum) (d : Device) (w : World) :
  invalid (Some v) = false ->
  primaryDevice uid w = Some d ->
  quiescent w ->
  let ok := connected w && acks (net w) (length (wire w)) in
  let st := if ok then "processing" else "pending" in
  let id := length (commands w) in
  let n := mkNotification (length (notifications w)) uid title (message v) "info" false in
  let w' := exec (socketCommand (kindName k) invalid invalidMessage title message
                    uid (Some v)) w in
  commands w' =
    (commands w ++
     mkCommand id (dev_id d) (kindName k) v st ::
     if connected w
     then [mkCommand (S id) (dev_id d) (kindName k) (JS.orZero v) st]
     else [])%list /\
  wire w' =
    (wire w ++
     if connected w
     then [mkPublish brokerUrl s2cTopic (kindLetter k ++ JS.toString v)]
     else [])%list /\
  notifications w' = (notifications w ++ [n])%list /\
  (exists events,
     trace w' =
       (trace w ++ events ++
        [EmitNotification n; EmitCommandStatus id (kindName k) v st])%list).
Proof.
  intros Hvalid Hdev [Hq Hix]. unfold primaryDevice in Hdev. cbv zeta.
  unfold socketCommand. rewrite Hvalid. rewrite exec_bind.
  change (exec (Device_find_userId uid) w) with w.
  change (result (Device_find_userId uid) w)
    with (filter (fun d => Nat.eqb (dev_userId d) uid) (devices w)).
  destruct (filter _ (devices w)) as [|d0 rest]; cbn [hd_error] in Hdev; [discriminate|].
  injection Hdev as ->. rewrite exec_bind.
  set (c1 := mkCommand (length (commands w)) (dev_id d) (kindName k) v "pending").
  change (result (Command_create (dev_id d) (kindName k) v "pending") w) with c1.
  set (w1 := exec (Command_create (dev_id d) (kindName k) v "pending") w).
  assert (commands w1 = (commands w ++ [c1])%list) as Hc1 by reflexivity.
  assert (quiescent w1) as Hq1.
  { split; [exact Hq|]. rewrite Hc1. apply commandsIndexed_app; [assumption|reflexivity]. }
  assert (connected w1 = connected w /\ net w1 = net w /\ wire w1 = wire w /\
          notifications w1 = notifications w /\
          trace w1 = (trace w ++ [CommandCreated c1])%list)
    as [Hn1 [Hnet1 [Hw1 [Hntf1 Htr1]]]] by (repeat split).
  rewrite exec_bind.
  set (sc := sendCommand (kindName k) v (dev_id d)).
  (* the run of [sendCommand] and of the status write after it *)
  assert (exists w3 events,
            exec (if result sc w1
                  then Command_update (cmd_id c1) "processing" ;; ret "processing"
                  else ret (cmd_status c1)) (exec sc w1) = w3 /\
            result (if result sc w1
                    then Command_update (cmd_id c1) "processing" ;; ret "processing"
                    else ret (cmd_status c1)) (exec sc w1) =
              (if connected w && acks (net w) (length (wire w))
               then "processing" else "pending") /\
            commands w3 =
              (commands w ++
               mkCommand (length (commands w)) (dev_id d) (kindName k) v
                 (if connected w && acks (net w) (length (wire w))
                  then "processing" else "pending") ::
               if connected w
               then [mkCommand (S (length (commands w))) (dev_id d) (kindName k)
                       (JS.orZero v)
                       (if connected w && acks (net w) (length (wire w))
                        then "processing" else "pending")]
               else [])%list /\
            wire w3 =
              (wire w ++
               if connected w
               then [mkPublish brokerUrl s2cTopic (kindLetter k ++ JS.toString v)]
               else [])%list /\
            notifications w3 = notifications w /\
            trace w3 = (trace w ++ events)%list)
    as [w3 [events [Hw3 [Hst [Hc3 [Hwire3 [Hntf3 Htr3]]]]]]].
  { destruct (connected w) eqn:Hconn; cbn [andb].
    - pose proof (sendCommand_run k v (dev_id d) w1 Hn1 Hq1) as Hrun. cbv zeta in Hrun.
      fold sc in Hrun.
      destruct Hrun as [Hr [Hwire [Hcmds [[Hq2 Hix2] [_ [_ [_ [Hntf2 _]]]]]]]].
      rewrite Hnet1, Hw1 in Hr. rewrite Hnet1, Hw1, Hc1 in Hcmds. rewrite Hw1 in Hwire.
      rewrite length_app in Hcmds. cbn [length] in Hcmds. rewrite Nat.add_1_r in Hcmds.
      assert (exists ev2, trace (exec sc w1) = (trace w ++ ev2)%list) as [ev2 Htr2].
      { unfold sc, exec, sendCommand, bind at 1, get. rewrite Hn1. cbn [negb].
        rewrite mqttCommand_kind.
        destruct w as [ds cs sd ns ss conn nt wi infl tr]. cbn in Hq. subst infl.
        unfold bind, Command_create, publish, Command_update, Command_update_issue,
          settle, get, modify, emit, ret. cbn.
        destruct (acks nt (length wi)); cbn; rewrite <- !app_assoc; eexists; reflexivity. }
      rewrite Hr. destruct (acks (net w) (length (wire w))).
      + rewrite exec_bind, result_bind'.
        destruct (Command_update_run (cmd_id c1) "processing" (exec sc w1) Hq2)
          as [Hc4 [_ [_ [_ [_ [Hntf4 [_ [_ Hw4]]]]]]]].
        assert (exists ev3,
                  trace (exec (Command_update (cmd_id c1) "processing") (exec sc w1)) =
                  (trace (exec sc w1) ++ ev3)%list) as [ev3 Htr4].
        { generalize (exec sc w1) Hq2. intros w2 Hq2'.
          destruct w2 as [ds cs sd ns ss conn nt wi infl tr]. cbn in Hq2'. subst infl.
          eexists. cbn. rewrite <- app_assoc. reflexivity. }
        eexists. exists (ev2 ++ ev3)%list. split; [reflexivity|].
        split; [reflexivity|].
        change (exec (ret "processing") ?x) with x.
        split; [|split; [congruence|split; [congruence|]]].
        * rewrite Hc4, Hcmds, <- app_assoc. cbn [app].
          rewrite write_status_app, (write_status_beyond _ _ _ Hix (Nat.le_refl _)).
          unfold write_status. cbn [map cmd_id c1]. rewrite Nat.eqb_refl.
          destruct (Nat.eqb_spec (S (length (commands w))) (length (commands w))); [lia|].
          reflexivity.
        * rewrite Htr4, Htr2, app_assoc. reflexivity.
      + eexists. exists ev2. split; [reflexivity|]. split; [reflexivity|].
        change (exec (ret (cmd_status c1)) ?x) with x.
        split; [|split; [congruence|split; [congruence|exact Htr2]]].
        rewrite Hcmds, <- app_assoc. reflexivity.
    - assert (sc w1 = (false, log (SendCommandResult false) w1)) as Hsc
        by (apply sendCommand_refusal; left; congruence).
      assert (result sc w1 = false) as Hres by (unfold result; rewrite Hsc; reflexivity).
      assert (exec sc w1 = log (SendCommandResult false) w1) as Hexec
        by (unfold exec; rewrite Hsc; reflexivity).
      rewrite Hres, Hexec. eexists. exists [CommandCreated c1; SendCommandResult false].
      split; [reflexivity|]. split; [reflexivity|].
      change (exec (ret (cmd_status c1)) ?x) with x.
      rewrite app_nil_r. repeat split; try assumption.
      cbn [trace log]. rewrite Htr1, <- app_assoc. reflexivity. }
  rewrite exec_bind, Hw3, Hst.
  set (st := if connected w && acks (net w) (length (wire w))
             then "processing" else "pending") in *.
  rewrite exec_bind.
  set (n := mkNotification (length (notifications w)) uid title (message v) "info" false).
  assert (result (Notification_create uid title (message v) "info") w3 = n) as Hn
    by (unfold result, Notification_create, bind, get, modify, ret; cbn; rewrite Hntf3;
        reflexivity).
  rewrite Hn.
  set (w4 := exec (Notification_create uid title (message v) "info") w3).
  assert (commands w4 = commands w3 /\ wire w4 = wire w3 /\
          notifications w4 = (notifications w3 ++ [n])%list /\ trace w4 = trace w3)
    as [Hc4 [Hwire4 [Hntf4 Htr4]]].
  { unfold w4, n. rewrite <- Hntf3. repeat split. }
  rewrite exec_bind.
  change (exec (emit (EmitNotification n)) w4) with (log (EmitNotification n) w4).
  change (exec (emit ?e) ?x) with (log e x).
  cbn [commands wire notifications trace log].
  split; [congruence|]. split; [congruence|]. split; [congruence|].
  exists events. rewrite Htr4, Htr3, <- !app_assoc. reflexivity.
Qed.

(** ** The command routes of the hardware *)

Lemma pendingOf_app (deviceId : nat) (l1 l2 : list Command) :
  pendingOf deviceId (l1 ++ l2) = (pendingOf deviceId l1 ++ pendingOf deviceId l2)%list.
Proof. unfold pendingOf. apply filter_app. Qed.

Lemma getPendingCommands_owned (uid deviceId : nat) (d : Device) (w : World) :
  find (fun d => Nat.eqb (dev_id d) deviceId && Nat.eqb (dev_userId d) uid) (devices w)
    = Some d ->
  getPendingCommands uid deviceId w =
    (Some (pendingOf deviceId (commands w)), log (Responded 200 true EmptyString) w).
Proof.
  intros Hfind. unfold getPendingCommands, bind at 1, Device_findOne_owned, bind at 1, get, ret.
  cbv beta iota. rewrite Hfind. reflexivity.
Qed.

(** X16. What the hardware sees when it polls.  The route lists exactly the
    commands of the device that are 'pending', and only to the user the
    device belongs to: anybody else gets 404 and no list.  Right after a
    connected [sendCommand], the command just sent is in that list exactly
    when the broker did not acknowledge the publish. *)
Theorem polling_lists_pending_commands (uid deviceId : nat) (w : World) :
  (forall d,
     find (fun d => Nat.eqb (dev_id d) deviceId && Nat.eqb (dev_userId d) uid) (devices w)
       = Some d ->
     (exists l,
        result (getPendingCommands uid deviceId) w = Some l /\
        forall c, In c l <->
                  In c (commands w) /\ cmd_deviceId c = deviceId /\
                  cmd_status c = "pending") /\
     (forall k value,
        connected w = true -> quiescent w ->
        let w' := exec (sendCommand (kindName k) value deviceId) w in
        result (getPendingCommands uid deviceId) w' =
          Some (pendingOf deviceId (commands w) ++
                if acks (net w) (length (wire w)) then []
                else [mkCommand (length (commands w)) deviceId (kindName k)
                        (JS.orZero value) "pending"])%list))
  /\
  (find (fun d => Nat.eqb (dev_id d) deviceId && Nat.eqb (dev_userId d) uid) (devices w)
     = None ->
   getPendingCommands uid deviceId w =
     (None, log (Responded 404 false "Device not found or not authorized") w)).
Proof.
  split.
  - intros d Hfind. split.
    + exists (pendingOf deviceId (commands w)). split.
      * unfold result. rewrite (getPendingCommands_owned uid deviceId d w Hfind). reflexivity.
      * intros c. unfold pendingOf. rewrite filter_In, andb_true_iff, Nat.eqb_eq, String.eqb_eq.
        tauto.
    + intros k value Hconn Hq. cbv zeta.
      destruct (sendCommand_run k value deviceId w Hconn Hq)
        as [_ [_ [Hcmds [_ [Hdev _]]]]].
      set (w' := exec (sendCommand (kindName k) value deviceId) w) in *.
      rewrite <- Hdev in Hfind. unfold result.
      rewrite (getPendingCommands_owned uid deviceId d w' Hfind). cbn [fst].
      rewrite Hcmds, pendingOf_app. f_equal.
      unfold pendingOf. cbn [filter cmd_deviceId cmd_status]. rewrite Nat.eqb_refl.
      destruct (acks (net w) (length (wire w))); reflexivity.
  - intros Hfind. unfold getPendingCommands, bind at 1, Device_findOne_owned, bind at 1, get, ret.
    cbv beta iota. rewrite Hfind. reflexivity.
Qed.

Lemma find_indexed (cs : list Command) (id : nat) (c : Command) :
  commandsIndexed cs ->
  find (fun c => Nat.eqb (cmd_id c) id) cs = Some c ->
  nth_error cs id = Some c.
Proof.
  intros Hix Hfind. destruct (find_some _ _ Hfind) as [Hin Hid].
  apply Nat.eqb_eq in Hid. destruct (In_nth_error cs c Hin) as [i Hi].
  rewrite <- Hid, (Hix i c Hi). exact Hi.
Qed.

Lemma write_status_In_other (id : nat) (st : string) (cs : list Command) (c : Command) :
  In c cs -> cmd_id c <> id -> In c (write_status id st cs).
Proof.
  intros Hin Hne. unfold write_status. apply in_map_iff. exists c. split; [|exact Hin].
  destruct (Nat.eqb_spec (cmd_id c) id); [contradiction|reflexivity].
Qed.

Lemma write_status_In_same (id : nat) (st : string) (cs : list Command) (c : Command) :
  In c cs -> cmd_id c = id -> In (with_status st c) (write_status id st cs).
Proof.
  intros Hin Heq. unfold write_status. apply in_map_iff. exists c. split; [|exact Hin].
  rewrite Heq, Nat.eqb_refl. reflexivity.
Qed.

Lemma write_status_status (id : nat) (st : string) (cs : list Command) (c : Command) :
  In c (write_status id st cs) -> cmd_id c = id -> cmd_status c = st.
Proof.
  intros Hin Hid. unfold write_status in Hin. apply in_map_iff in Hin.
  destruct Hin as [c0 [Heq Hin0]].
  destruct (Nat.eqb_spec (cmd_id c0) id) as [E|E]; subst c; [reflexivity|contradiction].
Qed.

(** X17. A status report of the hardware, on a world with no write in flight.
    It changes no command and stores no reading when the command does not
    exist, when its device is not the user's or when the status is not one
    of the four of the schema.  Otherwise the command, and no other,
    takes the reported status, so that a command reported with another status
    than 'pending' leaves the list the hardware polls; a reading that comes
    with the report is stored when its type is one of the four sensor
    types and its value a number, and any other reading is answered with
    500 although the status has been saved by then. *)
Theorem status_report_updates_owned_command (uid commandId : nat)
    (report : StatusReport) (w : World) :
  quiescent w ->
  let w' := exec (updateCommand uid commandId report) w in
  let found := find (fun c => Nat.eqb (cmd_id c) commandId) (commands w) in
  let owner c :=
    find (fun d => Nat.eqb (dev_id d) (cmd_deviceId c) && Nat.eqb (dev_userId d) uid)
         (devices w) in
  (match found with
   | None => True
   | Some c => owner c = None \/
               schemaValidCommand (with_status (rep_status report) c) = false
   end ->
   commands w' = commands w /\ sensorData w' = sensorData w)
  /\
  (forall c d,
     found = Some c -> owner c = Some d ->
     schemaValidCommand (with_status (rep_status report) c) = true ->
     nth_error (commands w') commandId = Some (with_status (rep_status report) c) /\
     (forall c', In c' (commands w) -> cmd_id c' <> commandId -> In c' (commands w')) /\
     (rep_status report <> "pending" ->
      forall c', In c' (pendingOf (cmd_deviceId c) (commands w')) ->
                 cmd_id c' <> commandId) /\
     let reading :=
       match rep_sensorType report, rep_sensorValue report with
       | Some type, Some value =>
           if String.eqb type EmptyString then None else Some (type, value)
       | _, _ => None
       end in
     map sd_fields (sensorData w') =
       (map sd_fields (sensorData w) ++
        match reading with
        | Some (type, value) =>
            if schemaValidReading type value then [(cmd_deviceId c, type, value)] else []
        | None => []
        end)%list /\
     responses w' =
       (responses w ++
        [match reading with
         | Some (type, value) =>
             if schemaValidReading type value then (200, true, EmptyString)
             else (500, false, "Server error")
         | None => (200, true, EmptyString)
         end])%list).
Proof.
  intros [Hq Hix]. cbv zeta. split.
  - intros Hrefused. unfold updateCommand. rewrite exec_bind.
    change (exec (Command_findById commandId) w) with w.
    change (result (Command_findById commandId) w)
      with (find (fun c => Nat.eqb (cmd_id c) commandId) (commands w)).
    destruct (find _ (commands w)) as [c|]; [|split; reflexivity].
    rewrite exec_bind.
    change (exec (Device_findOne_owned (cmd_deviceId c) uid) w) with w.
    change (result (Device_findOne_owned (cmd_deviceId c) uid) w)
      with (find (fun d => Nat.eqb (dev_id d) (cmd_deviceId c) && Nat.eqb (dev_userId d) uid)
                 (devices w)).
    destruct (find _ (devices w)) as [d|]; [|split; reflexivity].
    destruct Hrefused as [Hno | Hbad]; [discriminate|]. rewrite Hbad. split; reflexivity.
  - intros c d Hfound Howner Hvalid.
    assert (cmd_id c = commandId) as Hid.
    { destruct (find_some _ _ Hfound) as [_ H]. apply Nat.eqb_eq, H. }
    pose proof (find_indexed (commands w) commandId c Hix Hfound) as Hnth.
    unfold updateCommand. rewrite exec_bind.
    change (exec (Command_findById commandId) w) with w.
    change (result (Command_findById commandId) w)
      with (find (fun c => Nat.eqb (cmd_id c) commandId) (commands w)).
    rewrite Hfound. rewrite exec_bind.
    change (exec (Device_findOne_owned (cmd_deviceId c) uid) w) with w.
    change (result (Device_findOne_owned (cmd_deviceId c) uid) w)
      with (find (fun d => Nat.eqb (dev_id d) (cmd_deviceId c) && Nat.eqb (dev_userId d) uid)
                 (devices w)).
    rewrite Howner, Hvalid. cbn [negb]. rewrite exec_bind, Hid.
    destruct (Command_update_run commandId (rep_status report) w Hq)
      as [Hc [_ [_ [_ [Hsd _]]]]].
    assert (trace (exec (Command_update commandId (rep_status report)) w) =
            (trace w ++ [UpdateIssued commandId (rep_status report);
                         UpdateDurable commandId (rep_status report)])%list) as Htr.
    { destruct w as [ds cs sd ns ss conn nt wi infl tr]. cbn in Hq. subst infl.
      cbn. rewrite <- app_assoc. reflexivity. }
    set (w1 := exec (Command_update commandId (rep_status report)) w) in *.
    assert (responses w1 = responses w) as Hresp.
    { unfold responses. rewrite Htr, flat_map_app. cbn. rewrite app_nil_r. reflexivity. }
    assert (forall w2,
              commands w2 = commands w1 ->
              nth_error (commands w2) commandId = Some (with_status (rep_status report) c) /\
              (forall c', In c' (commands w) -> cmd_id c' <> commandId ->
                          In c' (commands w2)) /\
              (rep_status report <> "pending" ->
               forall c', In c' (pendingOf (cmd_deviceId c) (commands w2)) ->
                          cmd_id c' <> commandId)) as Hcommands.
    { intros w2 ->. rewrite Hc. split; [|split].
      - unfold write_status. rewrite nth_error_map, Hnth. cbn [option_map].
        rewrite Hid, Nat.eqb_refl. reflexivity.
      - intros c' Hin Hne. apply write_status_In_other; assumption.
      - intros Hst c' Hin Heq. unfold pendingOf in Hin. apply filter_In in Hin.
        destruct Hin as [Hin Hp]. apply andb_prop in Hp. destruct Hp as [_ Hp].
        apply String.eqb_eq in Hp.
        rewrite (write_status_status commandId (rep_status report) (commands w) c' Hin Heq)
          in Hp. contradiction. }
    destruct (rep_sensorType report) as [type|];
      [destruct (rep_sensorValue report) as [value|]|].
    + destruct (String.eqb type EmptyString).
      * destruct (Hcommands (exec (respond 200 true EmptyString) w1) eq_refl) as [A [B C]].
        repeat split; try assumption.
        -- change (sensorData (exec (respond 200 true EmptyString) w1)) with (sensorData w1).
           rewrite Hsd, app_nil_r. reflexivity.
        -- change (exec (respond 200 true EmptyString) w1)
             with (log (Responded 200 true EmptyString) w1).
           rewrite responses_log, Hresp. reflexivity.
      * destruct (schemaValidReading type value); cbn [negb].
        -- rewrite exec_bind.
           set (w2 := exec (SensorData_create (cmd_deviceId c) type value) w1).
           destruct (Hcommands (exec (respond 200 true EmptyString) w2) eq_refl)
             as [A [B C]].
           repeat split; try assumption.
           ++ change (sensorData (exec (respond 200 true EmptyString) w2))
                with (sensorData w1 ++ [mkSensorData (length (sensorData w1))
                                          (cmd_deviceId c) type value])%list.
              rewrite map_app, Hsd. reflexivity.
           ++ change (exec (respond 200 true EmptyString) w2)
                with (log (Responded 200 true EmptyString) w2).
              rewrite responses_log. change (responses w2) with (responses w1).
              rewrite Hresp. reflexivity.
        -- destruct (Hcommands (exec (respond 500 false "Server error") w1) eq_refl)
             as [A [B C]].
           repeat split; try assumption.
           ++ change (sensorData (exec (respond 500 false "Server error") w1))
                with (sensorData w1).
              rewrite Hsd, app_nil_r. reflexivity.
           ++ change (exec (respond 500 false "Server error") w1)
                with (log (Responded 500 false "Server error") w1).
              rewrite responses_log, Hresp. reflexivity.
    + destruct (Hcommands (exec (respond 200 true EmptyString) w1) eq_refl) as [A [B C]].
      repeat split; try assumption.
      * change (sensorData (exec (respond 200 true EmptyString) w1)) with (sensorData w1).
        rewrite Hsd, app_nil_r. reflexivity.
      * change (exec (respond 200 true EmptyString) w1)
          with (log (Responded 200 true EmptyString) w1).
        rewrite responses_log, Hresp. reflexivity.
    + destruct (Hcommands (exec (respond 200 true EmptyString) w1) eq_refl) as [A [B C]].
      repeat split; try assumption.
      * change (sensorData (exec (respond 200 true EmptyString) w1)) with (sensorData w1).
        rewrite Hsd, app_nil_r. reflexivity.
      * change (exec (respond 200 true EmptyString) w1)
          with (log (Responded 200 true EmptyString) w1).
        rewrite responses_log, Hresp. reflexivity.
Qed.

(** ** The schedule routes *)

Lemma charBetween_digit (lo hi : nat) (c : ascii) :
  48 <= lo ->
  charBetween lo hi c = true ->
  exists d, (Z.of_nat lo - 48 <= d <= Z.of_nat hi - 48)%Z /\ c = digitChar d.
Proof.
  intros Hlo H. unfold charBetween in H. apply andb_prop in H. destruct H as [H1 H2].
  apply Nat.leb_le in H1. apply Nat.leb_le in H2.
  exists (Z.of_nat (nat_of_ascii c) - 48)%Z. split; [lia|].
  unfold digitChar.
  replace (48 + Z.to_N (Z.of_nat (nat_of_ascii c) - 48))%N with (N.of_nat (nat_of_ascii c))
    by lia.
  rewrite <- (ascii_nat_embedding c) at 1. unfold ascii_of_nat. reflexivity.
Qed.

Lemma twoDigits_of_digits (d1 d2 : Z) :
  (0 <= d1)%Z -> (0 <= d2 <= 9)%Z ->
  twoDigits (10 * d1 + d2) = String (digitChar d1) (String (digitChar d2) EmptyString).
Proof.
  intros H1 H2. unfold twoDigits.
  replace ((10 * d1 + d2) / 10)%Z with d1
    by (apply (Z.div_unique _ 10 d1 d2); lia).
  replace ((10 * d1 + d2) mod 10)%Z with d2
    by (apply (Z.mod_unique _ 10 d1 d2); lia).
  reflexivity.
Qed.

Lemma timePattern_hhmm (h m : Z) :
  (0 <= h < 24)%Z -> (0 <= m < 60)%Z -> timePattern (hhmm h m) = true.
Proof.
  intros Hh Hm.
  assert (forallb (fun h => forallb (fun m => timePattern (hhmm (Z.of_nat h) (Z.of_nat m)))
                                    (seq 0 60)) (seq 0 24) = true) as H
    by (vm_compute; reflexivity).
  rewrite forallb_forall in H.
  assert (In (Z.to_nat h) (seq 0 24)) as Hin by (apply in_seq; lia).
  specialize (H (Z.to_nat h) Hin). rewrite forallb_forall in H.
  assert (In (Z.to_nat m) (seq 0 60)) as Hin' by (apply in_seq; lia).
  specialize (H (Z.to_nat m) Hin'). rewrite !Z2Nat.id in H by lia. exact H.
Qed.

Lemma timePattern_inv (time : string) :
  timePattern time = true ->
  exists h m, (0 <= h < 24)%Z /\ (0 <= m < 60)%Z /\ time = hhmm h m.
Proof.
  intros H.
  destruct time as [|h1 [|h2 [|c [|m1 [|m2 [|x r]]]]]]; try discriminate H.
  cbn [timePattern] in H.
  apply andb_prop in H. destruct H as [H Hm2].
  apply andb_prop in H. destruct H as [H Hm1].
  apply andb_prop in H. destruct H as [Hh Hc].
  apply Ascii.eqb_eq in Hc. subst c.
  destruct (charBetween_digit 48 53 m1 (le_n _) Hm1) as [e1 [He1 ->]].
  destruct (charBetween_digit 48 57 m2 (le_n _) Hm2) as [e2 [He2 ->]].
  assert (exists d1 d2, (0 <= d1)%Z /\ (0 <= d2 <= 9)%Z /\ (10 * d1 + d2 < 24)%Z /\
                        h1 = digitChar d1 /\ h2 = digitChar d2) as [d1 [d2 [A [B [C [-> ->]]]]]].
  { apply orb_prop in Hh. destruct Hh as [Hh|Hh]; apply andb_prop in Hh;
      destruct Hh as [Ha Hb].
    - destruct (charBetween_digit 48 49 h1 (le_n _) Ha) as [d1 [Hd1 ->]].
      destruct (charBetween_digit 48 57 h2 (le_n _) Hb) as [d2 [Hd2 ->]].
      exists d1, d2. repeat split; lia.
    - apply Ascii.eqb_eq in Ha. subst h1.
      destruct (charBetween_digit 48 51 h2 (le_n _) Hb) as [d2 [Hd2 ->]].
      exists 2%Z, d2. repeat split; lia. }
  exists (10 * d1 + d2)%Z, (10 * e1 + e2)%Z.
  split; [lia|]. split; [lia|].
  unfold hhmm. rewrite !twoDigits_of_digits by lia. reflexivity.
Qed.

(** X18. The times the schedule routes accept are the 1440 texts "HH:MM" of the
    minutes of a day, and the scheduler reads each of them back as its hour
    and its minute. *)
Theorem accepted_times_are_the_minutes_of_a_day (time : string) :
  (timePattern time = true <->
   exists h m, (0 <= h < 24)%Z /\ (0 <= m < 60)%Z /\ time = hhmm h m) /\
  (timePattern time = true ->
   exists h m, (0 <= h < 24)%Z /\ (0 <= m < 60)%Z /\
               parseTime time = [JS.ofZ h; JS.ofZ m]).
Proof.
  split; [split|].
  - apply timePattern_inv.
  - intros [h [m [Hh [Hm ->]]]]. apply timePattern_hhmm; assumption.
  - intros H. destruct (timePattern_inv time H) as [h [m [Hh [Hm ->]]]].
    exists h, m. split; [assumption|]. split; [assumption|].
    apply parseTime_hhmm; assumption.
Qed.

Lemma le_of_not_gt (a : JS.JSNum) (z : Z) :
  JS.isNaN a = false -> JS.gt a (JS.ofZ z) = false -> JS.le a (JS.ofZ z) = true.
Proof.
  intros Hnan Hgt. unfold JS.le, JS.gt in *.
  destruct a as [|neg|neg m e]; [discriminate Hnan| |].
  - cbn in *. destruct neg; [reflexivity|discriminate].
  - unfold JS.ofZ in *. cbn [JS.compare] in *.
    destruct (_ ?= _)%Z; try reflexivity; discriminate.
Qed.

Lemma le_not_NaN (a b : JS.JSNum) : JS.le a b = true -> JS.isNaN b = false.
Proof.
  unfold JS.le. destruct a, b; cbn; try reflexivity; discriminate.
Qed.

Lemma hhmm_not_empty (h m : Z) : String.eqb (hhmm h m) EmptyString = false.
Proof. reflexivity. Qed.

(** The id [Schedule_create] picks is new. *)
Lemma fresh_schedule_id (l : list Schedule) :
  ~ In (S (list_max (map sch_id l))) (map sch_id l).
Proof.
  intros Hin.
  assert (Forall (fun k => k <= list_max (map sch_id l)) (map sch_id l)) as H
    by (apply list_max_le; apply Nat.le_refl).
  rewrite Forall_forall in H. specialize (H _ Hin). lia.
Qed.


Lemma createSchedule_run (uid : nat) (body : ScheduleBody) (w : World) (d : Device)
    (rest : list Device) :
  invalidType (sb_type body) = false ->
  invalidTime (sb_time body) = false ->
  invalidDays (sb_days body) = false ->
  invalidAmount (sb_amount body) = false ->
  filter (fun d => Nat.eqb (dev_userId d) uid) (devices w) = d :: rest ->
  exists type time days amount,
    sb_type body = Some type /\ sb_time body = Some time /\
    sb_days body = Some days /\ sb_amount body = Some amount /\
    let s := mkSchedule (S (list_max (map sch_id (schedules w)))) (dev_id d) type time days
                        amount (match sb_enabled body with Some e => e | None => true end) in
    createSchedule uid body w =
      if JS.le (JS.ofZ 1) amount
      then (Some s, log (Responded 201 true EmptyString)
                        (set_schedules (fun l => (l ++ [s])%list) w))
      else (None, log (Responded 500 false "Server error") w).
Proof.
  intros Hty Hti Hda Ham Hdev.
  destruct body as [[type|] [time|] [days|] [amount|] enabled]; try discriminate.
  exists type, time, days, amount. repeat (split; [reflexivity|]).
  cbn [sb_type sb_time sb_days sb_amount sb_enabled] in *. cbv zeta.
  unfold createSchedule. cbn [sb_type sb_time sb_days sb_amount sb_enabled].
  rewrite Hty, Hti, Hda, Ham.
  unfold bind at 1, Device_find_userId, bind at 1, get, ret. cbv beta iota.
  cbn [fst snd]. rewrite Hdev.
  set (s := mkSchedule _ _ _ _ _ _ _).
  assert (schemaValidSchedule s = JS.le (JS.ofZ 1) amount) as Hvalid.
  { unfold schemaValidSchedule, s. cbn [sch_type sch_time sch_days sch_amount].
    unfold invalidType, invalidTime, invalidDays, invalidAmount, falsyString in *.
    apply orb_false_elim in Hty. destruct Hty as [_ Hty]. apply negb_false_iff in Hty.
    apply orb_false_elim in Hti. destruct Hti as [Hti _].
    apply orb_false_elim in Hda. destruct Hda as [_ Hda]. apply negb_false_iff in Hda.
    apply orb_false_elim in Ham. destruct Ham as [Ham Hgt].
    apply orb_false_elim in Ham. destruct Ham as [Htruthy _].
    apply negb_false_iff in Htruthy.
    rewrite Hty, Hti, Hda. cbn [negb andb].
    rewrite (le_of_not_gt amount 100); [apply andb_true_r| |exact Hgt].
    destruct amount; [discriminate Htruthy|reflexivity|reflexivity]. }
  unfold Schedule_create, bind, get, ret, modify, refuse, respond, emit, modify.
  cbv beta iota. fold s. rewrite Hvalid.
  destruct (JS.le (JS.ofZ 1) amount); reflexivity.
Qed.


(** X20. What [createSchedule] refuses, and that a refusal stores nothing.  A
    body that fails one of the four checks is answered with 400, and a user
    without a device with 404.  An amount below 1 that is greater than 0
    passes the check of the handler, which speaks of 1 to 100, and fails the
    schema: the answer is 500, 'Server error'. *)
Theorem createSchedule_refusals (uid : nat) (body : ScheduleBody) (w : World) :
  (invalidType (sb_type body) || invalidTime (sb_time body)
   || invalidDays (sb_days body) || invalidAmount (sb_amount body) = true ->
   exists message,
     createSchedule uid body w = (None, log (Responded 400 false message) w)) /\
  (invalidType (sb_type body) || invalidTime (sb_time body)
   || invalidDays (sb_days body) || invalidAmount (sb_amount body) = false ->
   (filter (fun d => Nat.eqb (dev_userId d) uid) (devices w) = [] ->
    createSchedule uid body w = (None, log (Responded 404 false "No devices found") w)) /\
   (forall a, sb_amount body = Some a -> JS.le (JS.ofZ 1) a = false ->
    filter (fun d => Nat.eqb (dev_userId d) uid) (devices w) <> [] ->
    createSchedule uid body w = (None, log (Responded 500 false "Server error") w))).
Proof.
  split.
  - intros H. unfold createSchedule.
    destruct (invalidType (sb_type body)); [eexists; reflexivity|].
    destruct (invalidTime (sb_time body)); [eexists; reflexivity|].
    destruct (invalidDays (sb_days body)); [eexists; reflexivity|].
    destruct (invalidAmount (sb_amount body)); [eexists; reflexivity|].
    discriminate H.
  - intros H.
    apply orb_false_elim in H. destruct H as [H Ham].
    apply orb_false_elim in H. destruct H as [H Hda].
    apply orb_false_elim in H. destruct H as [Hty Hti].
    split.
    + intros Hdev. unfold createSchedule. rewrite Hty, Hti, Hda, Ham.
      destruct body as [[type|] [time|] [days|] [amount|] enabled]; try discriminate.
      cbn [sb_type sb_time sb_days sb_amount sb_enabled].
      unfold bind at 1, Device_find_userId, bind at 1, get, ret. cbv beta iota.
      cbn [fst snd]. rewrite Hdev. reflexivity.
    + intros a Ea Hlow Hdev.
      destruct (filter _ (devices w)) as [|d rest] eqn:E; [contradiction|].
      destruct (createSchedule_run uid body w d rest Hty Hti Hda Ham E)
        as [type [time [days [amount [_ [_ [_ [Eam Hrun]]]]]]]].
      rewrite Ea in Eam. injection Eam as <-. cbv zeta in Hrun.
      rewrite Hlow in Hrun. exact Hrun.
Qed.

Lemma find_owned (id : nat) (deviceIds : list nat) (l : list Schedule) (s : Schedule) :
  find (ownedSchedule id deviceIds) l = Some s ->
  In s l /\ sch_id s = id /\ existsb (Nat.eqb (sch_deviceId s)) deviceIds = true.
Proof.
  intros H. destruct (find_some _ _ H) as [Hin Hp]. unfold ownedSchedule in Hp.
  apply andb_prop in Hp. destruct Hp as [Hid Hdev]. apply Nat.eqb_eq in Hid.
  repeat split; assumption.
Qed.

Lemma NoDup_same_id (l : list Schedule) (x y : Schedule) :
  NoDup (map sch_id l) -> In x l -> In y l -> sch_id x = sch_id y -> x = y.
Proof.
  induction l as [|a l IH]; intros Hnd Hx Hy Heq; [contradiction|].
  cbn [map] in Hnd. inversion Hnd as [|? ? Hnotin Hnd']; subst.
  destruct Hx as [->|Hx], Hy as [->|Hy].
  - reflexivity.
  - exfalso. apply Hnotin. rewrite Heq. apply in_map, Hy.
  - exfalso. apply Hnotin. rewrite <- Heq. apply in_map, Hx.
  - apply IH; assumption.
Qed.

Lemma replaceSchedule_ids (s : Schedule) (l : list Schedule) :
  map sch_id (replaceSchedule s l) = map sch_id l.
Proof.
  unfold replaceSchedule. rewrite map_map. apply map_ext. intros x.
  destruct (Nat.eqb_spec (sch_id x) (sch_id s)); congruence.
Qed.

Lemma replaceSchedule_valid (s : Schedule) (l : list Schedule) :
  schemaValidSchedule s = true -> forallb schemaValidSchedule l = true ->
  forallb schemaValidSchedule (replaceSchedule s l) = true.
Proof.
  intros Hs Hl. rewrite forallb_forall in *. intros x Hin.
  unfold replaceSchedule in Hin. apply in_map_iff in Hin. destruct Hin as [y [Hy Hin]].
  destruct (Nat.eqb (sch_id y) (sch_id s)); subst x; [exact Hs|apply Hl, Hin].
Qed.

Lemma replaceSchedule_In (s s' : Schedule) (l : list Schedule) (x : Schedule) :
  NoDup (map sch_id l) -> In s l -> sch_id s' = sch_id s ->
  (In x (replaceSchedule s' l) <-> x = s' \/ (In x l /\ sch_id x <> sch_id s)).
Proof.
  intros Hnd Hs Hid. unfold replaceSchedule. rewrite in_map_iff. split.
  - intros [y [Hy Hin]]. destruct (Nat.eqb_spec (sch_id y) (sch_id s')) as [E|E]; subst x.
    + left. reflexivity.
    + right. split; [exact Hin|congruence].
  - intros [->|[Hin Hne]].
    + exists s. rewrite Hid, Nat.eqb_refl. split; [reflexivity|exact Hs].
    + exists x. rewrite Hid. apply Nat.eqb_neq in Hne. rewrite Hne. split; [reflexivity|exact Hin].
Qed.

Lemma removeFirst_none {A} (p : A -> bool) (l : list A) :
  find p l = None -> removeFirst p l = l.
Proof.
  induction l as [|x l IH]; cbn [find removeFirst]; [reflexivity|].
  destruct (p x); [discriminate|]. intros H. rewrite IH by exact H. reflexivity.
Qed.

Lemma removeFirst_In {A} (p : A -> bool) (l : list A) (x : A) :
  In x (removeFirst p l) -> In x l.
Proof.
  induction l as [|y l IH]; cbn [removeFirst]; [tauto|].
  destruct (p y); cbn [In]; tauto.
Qed.

Lemma removeFirst_keeps {A} (p : A -> bool) (l : list A) (x : A) :
  In x l -> p x = false -> In x (removeFirst p l).
Proof.
  induction l as [|y l IH]; cbn [removeFirst]; [tauto|].
  intros [->|Hin] Hp.
  - rewrite Hp. left. reflexivity.
  - destruct (p y); [exact Hin|right; apply IH; assumption].
Qed.

Lemma removeFirst_NoDup (p : Schedule -> bool) (l : list Schedule) :
  NoDup (map sch_id l) -> NoDup (map sch_id (removeFirst p l)).
Proof.
  induction l as [|y l IH]; cbn [removeFirst map]; [tauto|].
  intros Hnd. inversion Hnd as [|? ? Hnotin Hnd']; subst.
  destruct (p y); [exact Hnd'|]. cbn [map]. constructor; [|apply IH, Hnd'].
  intros Hin. apply Hnotin. apply in_map_iff in Hin. destruct Hin as [z [Hz Hin]].
  rewrite <- Hz. apply in_map. eapply removeFirst_In, Hin.
Qed.

Lemma removeFirst_valid (p : Schedule -> bool) (l : list Schedule) :
  forallb schemaValidSchedule l = true ->
  forallb schemaValidSchedule (removeFirst p l) = true.
Proof.
  intros H. rewrite forallb_forall in *. intros x Hin. eapply H, removeFirst_In, Hin.
Qed.

Lemma removeFirst_owned_id (id : nat) (deviceIds : list nat) (l : list Schedule)
    (s : Schedule) :
  NoDup (map sch_id l) -> find (ownedSchedule id deviceIds) l = Some s ->
  ~ In id (map sch_id (removeFirst (ownedSchedule id deviceIds) l)).
Proof.
  induction l as [|y l IH]; cbn [find removeFirst map]; [discriminate|].
  intros Hnd Hfind. inversion Hnd as [|? ? Hnotin Hnd']; subst.
  destruct (ownedSchedule id deviceIds y) eqn:Hp.
  - unfold ownedSchedule in Hp. apply andb_prop in Hp. destruct Hp as [Hid _].
    apply Nat.eqb_eq in Hid. rewrite <- Hid. exact Hnotin.
  - cbn [map In]. intros [Heq|Hin]; [|exact (IH Hnd' Hfind Hin)].
    destruct (find_owned _ _ _ _ Hfind) as [Hs [Hsid _]].
    apply Hnotin. rewrite Heq, <- Hsid. apply in_map, Hs.
Qed.

Lemma applyBody_id (body : ScheduleBody) (s : Schedule) :
  sch_id (applyBody body s) = sch_id s /\
  sch_deviceId (applyBody body s) = sch_deviceId s.
Proof.
  unfold applyBody.
  destruct (sb_type body), (sb_time body), (sb_days body), (sb_amount body),
    (sb_enabled body);
    repeat match goal with |- context [if ?b then _ else _] => destruct b end;
    split; reflexivity.
Qed.

Lemma applyBody_fields (body : ScheduleBody) (s : Schedule) :
  let s' := applyBody body s in
  sch_type s' = pick (acceptedType (sb_type body)) (sb_type body) (sch_type s) /\
  sch_time s' = pick (acceptedTime (sb_time body)) (sb_time body) (sch_time s) /\
  sch_days s' = pick (acceptedDays (sb_days body)) (sb_days body) (sch_days s) /\
  sch_amount s' = pick (acceptedAmount (sb_amount body)) (sb_amount body) (sch_amount s) /\
  sch_enabled s' = pick true (sb_enabled body) (sch_enabled s).
Proof.
  cbv zeta. unfold applyBody, pick.
  destruct (sb_type body), (sb_time body), (sb_days body), (sb_amount body),
    (sb_enabled body);
    repeat match goal with |- context [if ?b then _ else _] => destruct b end;
    repeat split; reflexivity.
Qed.

(** On a schedule that passes the schema, the assignments of an update give
    one that passes it too, unless they put in an amount below 1. *)
Lemma applyBody_valid (body : ScheduleBody) (s : Schedule) :
  schemaValidSchedule s = true ->
  schemaValidSchedule (applyBody body s) = negb (belowSchemaMin (sb_amount body)).
Proof.
  intros Hs. destruct (applyBody_fields body s) as [Hty [Hti [Hda [Ham _]]]].
  unfold schemaValidSchedule in *. rewrite Hty, Hti, Hda, Ham. clear Hty Hti Hda Ham.
  apply andb_prop in Hs. destruct Hs as [Hs H100].
  apply andb_prop in Hs. destruct Hs as [Hs H1].
  apply andb_prop in Hs. destruct Hs as [Hs Hdays].
  apply andb_prop in Hs. destruct Hs as [Htype Htime].
  assert (inEnum (pick (acceptedType (sb_type body)) (sb_type body) (sch_type s))
                 scheduleTypes = true) as ->.
  { unfold pick, acceptedType. destruct (sb_type body) as [t|]; [|exact Htype].
    destruct (negb (falsyString (Some t))); cbn [andb]; [|exact Htype].
    destruct (inEnum t scheduleTypes) eqn:E; [exact E|exact Htype]. }
  assert (negb (String.eqb (pick (acceptedTime (sb_time body)) (sb_time body) (sch_time s))
                           EmptyString) = true) as ->.
  { unfold pick, acceptedTime, falsyString. destruct (sb_time body) as [t|]; [|exact Htime].
    destruct (String.eqb t EmptyString) eqn:E; cbn [negb andb]; [exact Htime|].
    destruct (timePattern t); [rewrite E; reflexivity|exact Htime]. }
  assert (forallb (fun day => inEnum day validDays)
                  (pick (acceptedDays (sb_days body)) (sb_days body) (sch_days s)) = true)
    as ->.
  { unfold pick, acceptedDays. destruct (sb_days body) as [ds|]; [|exact Hdays].
    destruct (Nat.ltb 0 (length ds)); cbn [andb]; [|exact Hdays].
    destruct (forallb _ ds) eqn:E; [exact E|exact Hdays]. }
  cbn [andb]. unfold pick, belowSchemaMin.
  destruct (sb_amount body) as [a|]; [|rewrite H1, H100; reflexivity].
  destruct (acceptedAmount (Some a)) eqn:E; [|rewrite H1, H100; reflexivity].
  cbn [andb]. rewrite negb_involutive.
  unfold acceptedAmount in E. apply andb_prop in E. destruct E as [_ E]. rewrite E.
  apply andb_true_r.
Qed.

Lemma owned_devices_nonempty (uid id : nat) (w : World) (s : Schedule) :
  find (ownedSchedule id (deviceIdsOf uid w)) (schedules w) = Some s ->
  Nat.eqb (length (filter (fun d => Nat.eqb (dev_userId d) uid) (devices w))) 0 = false.
Proof.
  intros H. destruct (find_owned _ _ _ _ H) as [_ [_ Hdev]].
  unfold deviceIdsOf in Hdev.
  destruct (filter _ (devices w)); [discriminate Hdev|reflexivity].
Qed.

Lemma updateSchedule_run (uid id : nat) (body : ScheduleBody) (w : World) (s : Schedule) :
  find (ownedSchedule id (deviceIdsOf uid w)) (schedules w) = Some s ->
  updateSchedule uid id body w =
    if schemaValidSchedule (applyBody body s)
    then (Some (applyBody body s),
          log (Responded 200 true EmptyString)
              (set_schedules (replaceSchedule (applyBody body s)) w))
    else (None, log (Responded 500 false "Server error") w).
Proof.
  intros Hfind. pose proof (owned_devices_nonempty uid id w s Hfind) as Hlen.
  unfold deviceIdsOf in Hfind.
  unfold updateSchedule, bind at 1, Device_find_userId, bind at 1, get, ret.
  cbv beta iota. cbn [fst snd]. rewrite Hlen.
  unfold bind at 1, Schedule_findOne, bind at 1, get, ret. cbv beta iota.
  rewrite Hfind. unfold Schedule_save.
  destruct (schemaValidSchedule (applyBody body s)); reflexivity.
Qed.

Lemma toggleSchedule_run (uid id : nat) (enabled : bool) (w : World) (s : Schedule) :
  find (ownedSchedule id (deviceIdsOf uid w)) (schedules w) = Some s ->
  toggleSchedule uid id (Some enabled) w =
    if schemaValidSchedule (with_enabled enabled s)
    then (Some (with_enabled enabled s),
          log (Responded 200 true EmptyString)
              (set_schedules (replaceSchedule (with_enabled enabled s)) w))
    else (None, log (Responded 500 false "Server error") w).
Proof.
  intros Hfind. pose proof (owned_devices_nonempty uid id w s Hfind) as Hlen.
  unfold deviceIdsOf in Hfind.
  unfold toggleSchedule, bind at 1, Device_find_userId, bind at 1, get, ret.
  cbv beta iota. cbn [fst snd]. rewrite Hlen.
  unfold bind at 1, Schedule_findOne, bind at 1, get, ret. cbv beta iota.
  rewrite Hfind. unfold Schedule_save.
  destruct (schemaValidSchedule (with_enabled enabled s)); reflexivity.
Qed.

Lemma deleteSchedule_run (uid id : nat) (w : World) (s : Schedule) :
  find (ownedSchedule id (deviceIdsOf uid w)) (schedules w) = Some s ->
  deleteSchedule uid id w =
    (tt, log (Responded 200 true "Schedule deleted successfully")
             (set_schedules (removeFirst (ownedSchedule id (deviceIdsOf uid w))) w)).
Proof.
  intros Hfind. pose proof (owned_devices_nonempty uid id w s Hfind) as Hlen.
  unfold deviceIdsOf in *.
  unfold deleteSchedule, bind at 1, Device_find_userId, bind at 1, get, ret.
  cbv beta iota. cbn [fst snd]. rewrite Hlen.
  unfold bind at 1, Schedule_findOneAndDelete, bind at 1, get, ret. cbv beta iota.
  rewrite Hfind. reflexivity.
Qed.

(** The three routes on an id that is not a schedule of the user. *)
Lemma schedule_not_found (uid id : nat) (w : World) :
  find (ownedSchedule id (deviceIdsOf uid w)) (schedules w) = None ->
  exists message,
    (forall body, updateSchedule uid id body w =
                  (None, log (Responded 404 false message) w)) /\
    (forall enabled, toggleSchedule uid id (Some enabled) w =
                     (None, log (Responded 404 false message) w)) /\
    deleteSchedule uid id w = (tt, log (Responded 404 false message) w).
Proof.
  intros Hfind. unfold deviceIdsOf in Hfind.
  unfold updateSchedule, toggleSchedule, deleteSchedule, Device_find_userId,
    Schedule_findOne, Schedule_findOneAndDelete.
  destruct (filter (fun d => Nat.eqb (dev_userId d) uid) (devices w)) as [|d ds] eqn:E.
  - exists "No devices found". unfold bind, get, ret. cbv beta iota. rewrite E.
    repeat split; reflexivity.
  - exists "Schedule not found". unfold bind, get, ret. cbv beta iota. rewrite E.
    cbn [length Nat.eqb]. rewrite Hfind.
    repeat split; try reflexivity.
    unfold modify, refuse, respond, emit, modify, bind, ret, set_schedules. cbn [fst snd].
    cbn [schedules log]. rewrite (removeFirst_none _ _ Hfind).
    destruct w; reflexivity.
Qed.

(** X21. An update of a schedule of the user, in a store whose schedules pass
    the schema and have ids of their own.  When the body has an amount
    below 1 that the handler accepts, the save fails on the schema: the
    answer is 500 and nothing is changed, whatever else the body has.
    Otherwise the answer is 200, the schedule of that id is replaced and no
    other is touched; a field of the body that is absent or not acceptable
    is passed over in silence and the schedule keeps its old value. *)
Theorem update_changes_one_schedule_or_nothing (uid id : nat) (body : ScheduleBody)
    (w : World) (s : Schedule) :
  schedulesWellFormed (schedules w) ->
  find (ownedSchedule id (deviceIdsOf uid w)) (schedules w) = Some s ->
  let s' := applyBody body s in
  let w' := exec (updateSchedule uid id body) w in
  (belowSchemaMin (sb_amount body) = true ->
   updateSchedule uid id body w = (None, log (Responded 500 false "Server error") w)) /\
  (belowSchemaMin (sb_amount body) = false ->
   updateSchedule uid id body w =
     (Some s', log (Responded 200 true EmptyString) (set_schedules (replaceSchedule s') w)) /\
   (forall x, In x (schedules w') <-> x = s' \/ (In x (schedules w) /\ sch_id x <> id)) /\
   sch_id s' = id /\ sch_deviceId s' = sch_deviceId s /\
   sch_type s' = pick (acceptedType (sb_type body)) (sb_type body) (sch_type s) /\
   sch_time s' = pick (acceptedTime (sb_time body)) (sb_time body) (sch_time s) /\
   sch_days s' = pick (acceptedDays (sb_days body)) (sb_days body) (sch_days s) /\
   sch_amount s' = pick (acceptedAmount (sb_amount body)) (sb_amount body) (sch_amount s) /\
   sch_enabled s' = pick true (sb_enabled body) (sch_enabled s)).
Proof.
  intros [Hnd Hvalid] Hfind. cbv zeta.
  destruct (find_owned _ _ _ _ Hfind) as [Hin [Hid _]].
  assert (schemaValidSchedule s = true) as Hs
    by (rewrite forallb_forall in Hvalid; apply Hvalid, Hin).
  pose proof (updateSchedule_run uid id body w s Hfind) as Hrun.
  rewrite (applyBody_valid body s Hs) in Hrun.
  destruct (applyBody_id body s) as [Hid' Hdev'].
  split; intros Hgap; rewrite Hgap in Hrun; cbn [negb] in Hrun; [exact Hrun|].
  split; [exact Hrun|]. split.
  - intros x. unfold exec. rewrite Hrun. cbn [snd]. cbn [log set_schedules schedules].
    rewrite <- Hid. apply replaceSchedule_In; assumption.
  - split; [congruence|]. split; [exact Hdev'|]. apply applyBody_fields.
Qed.

Lemma createSchedule_schedules (uid : nat) (body : ScheduleBody) (w : World) :
  schedules (exec (createSchedule uid body) w) = schedules w \/
  exists s, schedules (exec (createSchedule uid body) w) = (schedules w ++ [s])%list /\
            schemaValidSchedule s = true /\
            sch_id s = S (list_max (map sch_id (schedules w))) /\
            scheduleOwnedBy uid w s = true.
Proof.
  unfold createSchedule.
  destruct (invalidType (sb_type body)); [left; reflexivity|].
  destruct (invalidTime (sb_time body)); [left; reflexivity|].
  destruct (invalidDays (sb_days body)); [left; reflexivity|].
  destruct (invalidAmount (sb_amount body)); [left; reflexivity|].
  destruct (sb_type body) as [type|]; [|left; reflexivity].
  destruct (sb_time body) as [time|]; [|left; reflexivity].
  destruct (sb_days body) as [days|]; [|left; reflexivity].
  destruct (sb_amount body) as [amount|]; [|left; reflexivity].
  unfold exec, Device_find_userId, Schedule_create, bind, get, ret. cbv beta iota.
  cbn [fst snd].
  destruct (filter (fun d => Nat.eqb (dev_userId d) uid) (devices w)) as [|d ds] eqn:E;
    [left; reflexivity|].
  unfold modify, refuse, respond, emit, modify, bind, ret.
  cbv beta iota.
  match goal with |- context [schemaValidSchedule ?x] => set (s := x) end.
  destruct (schemaValidSchedule s) eqn:Hs; [|left; reflexivity].
  right. exists s. split; [reflexivity|]. split; [exact Hs|]. split; [reflexivity|].
  unfold scheduleOwnedBy. rewrite E. cbn. rewrite Nat.eqb_refl. reflexivity.
Qed.

Lemma NoDup_snoc (l : list nat) (a : nat) : NoDup l -> ~ In a l -> NoDup (l ++ [a]).
Proof.
  intros Hnd Hnotin. induction Hnd as [|x l Hx Hnd IH]; cbn [app].
  - constructor; [tauto|constructor].
  - constructor.
    + rewrite in_app_iff. cbn [In]. intros [H|[H|[]]]; [contradiction|].
      subst. apply Hnotin. left. reflexivity.
    + apply IH. intros Hin. apply Hnotin. right. exact Hin.
Qed.

Lemma createSchedule_well_formed (uid : nat) (body : ScheduleBody) (w : World) :
  schedulesWellFormed (schedules w) ->
  schedulesWellFormed (schedules (exec (createSchedule uid body) w)).
Proof.
  intros Hwf. pose proof Hwf as [Hnd Hvalid].
  destruct (createSchedule_schedules uid body w) as [->|[s0 [-> [Hs0 [Hid0 _]]]]];
    [exact Hwf|].
  split.
  - rewrite map_app. cbn [map]. apply NoDup_snoc; [exact Hnd|].
    rewrite Hid0. apply fresh_schedule_id.
  - rewrite forallb_app, Hvalid. cbn. rewrite Hs0. reflexivity.
Qed.

(** X22. The four schedule routes keep the store well formed: when the stored
    schedules pass the schema and have ids of their own, so they do after a
    create, an update, a toggle or a delete, whatever the request is and
    whoever sends it. *)
Theorem schedule_routes_keep_store_well_formed (uid id : nat) (body : ScheduleBody)
    (enabled : option bool) (w : World) :
  schedulesWellFormed (schedules w) ->
  schedulesWellFormed (schedules (exec (createSchedule uid body) w)) /\
  schedulesWellFormed (schedules (exec (updateSchedule uid id body) w)) /\
  schedulesWellFormed (schedules (exec (toggleSchedule uid id enabled) w)) /\
  schedulesWellFormed (schedules (exec (deleteSchedule uid id) w)).
Proof.
  intros Hwf. pose proof Hwf as [Hnd Hvalid].
  destruct (find (ownedSchedule id (deviceIdsOf uid w)) (schedules w)) as [s|] eqn:Hfind.
  - destruct (find_owned _ _ _ _ Hfind) as [Hin [Hid _]].
    split; [|split; [|split]].
    + apply createSchedule_well_formed, Hwf.
    + unfold exec. rewrite (updateSchedule_run uid id body w s Hfind).
      destruct (schemaValidSchedule (applyBody body s)) eqn:Hs; [|exact Hwf].
      cbn [snd log set_schedules schedules]. split.
      * rewrite replaceSchedule_ids. exact Hnd.
      * apply replaceSchedule_valid; assumption.
    + destruct enabled as [enabled|]; [|exact Hwf].
      unfold exec. rewrite (toggleSchedule_run uid id enabled w s Hfind).
      destruct (schemaValidSchedule (with_enabled enabled s)) eqn:Hs; [|exact Hwf].
      cbn [snd log set_schedules schedules]. split.
      * rewrite replaceSchedule_ids. exact Hnd.
      * apply replaceSchedule_valid; assumption.
    + unfold exec. rewrite (deleteSchedule_run uid id w s Hfind).
      cbn [snd log set_schedules schedules]. split.
      * apply removeFirst_NoDup, Hnd.
      * apply removeFirst_valid, Hvalid.
  - destruct (schedule_not_found uid id w Hfind) as [message [Hu [Ht Hd]]].
    split; [|split; [|split]].
    + apply createSchedule_well_formed, Hwf.
    + unfold exec. rewrite Hu. exact Hwf.
    + destruct enabled as [enabled|]; [|exact Hwf]. unfold exec. rewrite Ht. exact Hwf.
    + unfold exec. rewrite Hd. exact Hwf.
Qed.

Lemma foreign_schedule_not_found (uid : nat) (w : World) (x : Schedule) :
  NoDup (map sch_id (schedules w)) ->
  In x (schedules w) -> scheduleOwnedBy uid w x = false ->
  find (ownedSchedule (sch_id x) (deviceIdsOf uid w)) (schedules w) = None.
Proof.
  intros Hnd Hin Hforeign.
  destruct (find _ (schedules w)) as [s|] eqn:Hfind; [|reflexivity].
  destruct (find_owned _ _ _ _ Hfind) as [Hs [Hid Hdev]].
  rewrite (NoDup_same_id _ _ _ Hnd Hs Hin Hid) in Hdev.
  unfold scheduleOwnedBy in Hforeign. unfold deviceIdsOf in Hdev. congruence.
Qed.

(** X23. The schedule routes act on the schedules of the caller only.  A
    schedule on a device that is not the caller's stays in the store as it
    is through the caller's create, update, toggle and delete, whatever id
    they name; and naming the id of that schedule gets the answer 404 and
    changes nothing. *)
Theorem schedule_routes_touch_only_own_schedules (uid id : nat) (body : ScheduleBody)
    (enabled : option bool) (w : World) (x : Schedule) :
  NoDup (map sch_id (schedules w)) ->
  In x (schedules w) -> scheduleOwnedBy uid w x = false ->
  (In x (schedules (exec (createSchedule uid body) w)) /\
   In x (schedules (exec (updateSchedule uid id body) w)) /\
   In x (schedules (exec (toggleSchedule uid id enabled) w)) /\
   In x (schedules (exec (deleteSchedule uid id) w))) /\
  (sch_id x = id ->
   exists message,
     updateSchedule uid id body w = (None, log (Responded 404 false message) w) /\
     (forall e, toggleSchedule uid id (Some e) w =
                (None, log (Responded 404 false message) w)) /\
     deleteSchedule uid id w = (tt, log (Responded 404 false message) w)).
Proof.
  intros Hnd Hin Hforeign. split.
  - split; [|split; [|split]].
    + destruct (createSchedule_schedules uid body w) as [->|[s0 [-> _]]];
        [exact Hin|apply in_or_app; left; exact Hin].
    + destruct (find (ownedSchedule id (deviceIdsOf uid w)) (schedules w)) as [s|] eqn:Hfind.
      * destruct (find_owned _ _ _ _ Hfind) as [Hs [Hid Hdev]].
        unfold exec. rewrite (updateSchedule_run uid id body w s Hfind).
        destruct (schemaValidSchedule (applyBody body s)); [|exact Hin].
        cbn [snd log set_schedules schedules].
        apply (replaceSchedule_In s); [exact Hnd|exact Hs|apply applyBody_id|].
        right. split; [exact Hin|]. intros Heq.
        rewrite (NoDup_same_id _ _ _ Hnd Hin Hs Heq) in Hforeign.
        unfold scheduleOwnedBy in Hforeign. unfold deviceIdsOf in Hdev. congruence.
      * destruct (schedule_not_found uid id w Hfind) as [message [Hu _]].
        unfold exec. rewrite Hu. exact Hin.
    + destruct enabled as [e|]; [|exact Hin].
      destruct (find (ownedSchedule id (deviceIdsOf uid w)) (schedules w)) as [s|] eqn:Hfind.
      * destruct (find_owned _ _ _ _ Hfind) as [Hs [Hid Hdev]].
        unfold exec. rewrite (toggleSchedule_run uid id e w s Hfind).
        destruct (schemaValidSchedule (with_enabled e s)); [|exact Hin].
        cbn [snd log set_schedules schedules].
        apply (replaceSchedule_In s); [exact Hnd|exact Hs|reflexivity|].
        right. split; [exact Hin|]. intros Heq.
        rewrite (NoDup_same_id _ _ _ Hnd Hin Hs Heq) in Hforeign.
        unfold scheduleOwnedBy in Hforeign. unfold deviceIdsOf in Hdev. congruence.
      * destruct (schedule_not_found uid id w Hfind) as [message [_ [Ht _]]].
        unfold exec. rewrite Ht. exact Hin.
    + destruct (find (ownedSchedule id (deviceIdsOf uid w)) (schedules w)) as [s|] eqn:Hfind.
      * unfold exec. rewrite (deleteSchedule_run uid id w s Hfind).
        cbn [snd log set_schedules schedules].
        apply removeFirst_keeps; [exact Hin|].
        unfold ownedSchedule. unfold scheduleOwnedBy in Hforeign. unfold deviceIdsOf.
        rewrite Hforeign. apply andb_false_r.
      * destruct (schedule_not_found uid id w Hfind) as [message [_ [_ Hd]]].
        unfold exec. rewrite Hd. exact Hin.
  - intros <-.
    destruct (schedule_not_found uid (sch_id x) w
                (foreign_schedule_not_found uid w x Hnd Hin Hforeign))
      as [message [Hu [Ht Hd]]].
    exists message. split; [apply Hu|]. split; [exact Ht|exact Hd].
Qed.

Lemma filter_due_replace (now : Instant) (s' : Schedule) (l : list Schedule) :
  shouldRunSchedule s' now = false ->
  filter (fun x => shouldRunSchedule x now) (replaceSchedule s' l) =
  filter (fun x => shouldRunSchedule x now && negb (Nat.eqb (sch_id x) (sch_id s'))) l.
Proof.
  intros Hoff. induction l as [|x l IH]; [reflexivity|].
  cbn [replaceSchedule map filter]. fold (replaceSchedule s' l). rewrite IH.
  destruct (Nat.eqb (sch_id x) (sch_id s')); cbn [negb].
  - rewrite Hoff, andb_false_r. reflexivity.
  - rewrite andb_true_r. reflexivity.
Qed.

Lemma filter_due_absent (now : Instant) (id : nat) (l : list Schedule) :
  ~ In id (map sch_id l) ->
  filter (fun x => shouldRunSchedule x now) l =
  filter (fun x => shouldRunSchedule x now && negb (Nat.eqb (sch_id x) id)) l.
Proof.
  intros Hnotin. apply filter_ext_in. intros x Hin.
  destruct (Nat.eqb_spec (sch_id x) id) as [E|E]; [|rewrite andb_true_r; reflexivity].
  exfalso. apply Hnotin. rewrite <- E. apply in_map, Hin.
Qed.

Lemma filter_due_remove (now : Instant) (id : nat) (deviceIds : list nat)
    (l : list Schedule) (s : Schedule) :
  NoDup (map sch_id l) -> find (ownedSchedule id deviceIds) l = Some s ->
  filter (fun x => shouldRunSchedule x now) (removeFirst (ownedSchedule id deviceIds) l) =
  filter (fun x => shouldRunSchedule x now && negb (Nat.eqb (sch_id x) id)) l.
Proof.
  induction l as [|y l IH]; cbn [find removeFirst]; [discriminate|].
  intros Hnd Hfind. cbn [map] in Hnd. inversion Hnd as [|? ? Hnotin Hnd']; subst.
  destruct (ownedSchedule id deviceIds y) eqn:Hp.
  - unfold ownedSchedule in Hp. apply andb_prop in Hp. destruct Hp as [Hid _].
    cbn [filter]. rewrite Hid. cbn [negb]. rewrite andb_false_r.
    apply Nat.eqb_eq in Hid. apply filter_due_absent. rewrite <- Hid. exact Hnotin.
  - cbn [filter]. rewrite (IH Hnd' Hfind).
    destruct (find_owned _ _ _ _ Hfind) as [Hs [Hsid _]].
    destruct (Nat.eqb_spec (sch_id y) id) as [E|E]; [|rewrite andb_true_r; reflexivity].
    exfalso. apply Hnotin. rewrite E, <- Hsid. apply in_map, Hs.
Qed.

Lemma find_replace (id : nat) (deviceIds : list nat) (l : list Schedule)
    (s s' : Schedule) :
  find (ownedSchedule id deviceIds) l = Some s ->
  sch_id s' = id -> ownedSchedule id deviceIds s' = true ->
  find (ownedSchedule id deviceIds) (replaceSchedule s' l) = Some s'.
Proof.
  intros Hfind Hid Hp. induction l as [|y l IH]; [discriminate|].
  cbn [find] in Hfind. cbn [replaceSchedule map find]. fold (replaceSchedule s' l).
  destruct (ownedSchedule id deviceIds y) eqn:Hy.
  - unfold ownedSchedule in Hy. apply andb_prop in Hy. destruct Hy as [Hyid _].
    rewrite Hid, Hyid, Hp. reflexivity.
  - destruct (Nat.eqb (sch_id y) (sch_id s')); [rewrite Hp; reflexivity|].
    rewrite Hy. apply IH, Hfind.
Qed.

Lemma replace_back (l : list Schedule) (s s' : Schedule) :
  NoDup (map sch_id l) -> In s l -> sch_id s' = sch_id s ->
  replaceSchedule s (replaceSchedule s' l) = l.
Proof.
  intros Hnd Hin Hid. unfold replaceSchedule. rewrite map_map.
  rewrite <- (map_id l) at 2. apply map_ext_in. intros x Hx.
  destruct (Nat.eqb_spec (sch_id x) (sch_id s')) as [E|E].
  - rewrite Hid, Nat.eqb_refl. symmetry. apply (NoDup_same_id l); congruence.
  - rewrite <- Hid. apply Nat.eqb_neq in E. rewrite E. reflexivity.
Qed.

(** X24. Switching a schedule off and deleting it are the same to the scheduler.
    For a schedule of the user in a well-formed store: after the toggle to
    [false], as after the delete, a tick at any instant dispatches the
    schedules that were due before, in their order, except this one.  The
    delete leaves no schedule of that id; the toggle is undone by toggling
    back, which restores the store as it was. *)
Theorem disabled_schedule_is_skipped_like_a_deleted_one (uid id : nat) (w : World)
    (s : Schedule) (now : Instant) :
  schedulesWellFormed (schedules w) ->
  find (ownedSchedule id (deviceIdsOf uid w)) (schedules w) = Some s ->
  let off := exec (toggleSchedule uid id (Some false)) w in
  let gone := exec (deleteSchedule uid id) w in
  let others :=
    filter (fun x => shouldRunSchedule x now && negb (Nat.eqb (sch_id x) id))
           (schedules w) in
  checkAndExecuteSchedules now off = forEach others executeSchedule off /\
  checkAndExecuteSchedules now gone = forEach others executeSchedule gone /\
  ~ In id (map sch_id (schedules gone)) /\
  schedules (exec (toggleSchedule uid id (Some (sch_enabled s))) off) = schedules w.
Proof.
  intros [Hnd Hvalid] Hfind. cbv zeta.
  destruct (find_owned _ _ _ _ Hfind) as [Hin [Hid Hdev]].
  assert (forall e, schemaValidSchedule (with_enabled e s) = true) as Hs.
  { intros e. rewrite forallb_forall in Hvalid. apply (Hvalid s Hin). }
  pose proof (toggleSchedule_run uid id false w s Hfind) as Hoff. rewrite Hs in Hoff.
  pose proof (deleteSchedule_run uid id w s Hfind) as Hgone.
  unfold exec at 1 2. rewrite Hoff. cbn [snd].
  unfold exec at 1 2 3. rewrite Hgone. cbn [snd].
  split; [|split; [|split]].
  - rewrite checkAndExecuteSchedules_due. cbn [log set_schedules schedules].
    rewrite filter_due_replace.
    + cbn [with_enabled sch_id]. rewrite Hid. reflexivity.
    + unfold shouldRunSchedule. reflexivity.
  - rewrite checkAndExecuteSchedules_due. cbn [log set_schedules schedules].
    rewrite (filter_due_remove now id _ _ s Hnd Hfind). reflexivity.
  - cbn [log set_schedules schedules]. apply (removeFirst_owned_id id _ _ s); assumption.
  - set (off := log _ _) in *.
    assert (find (ownedSchedule id (deviceIdsOf uid off)) (schedules off) =
            Some (with_enabled false s)) as Hfind'.
    { change (deviceIdsOf uid off) with (deviceIdsOf uid w).
      change (schedules off) with (replaceSchedule (with_enabled false s) (schedules w)).
      apply (find_replace id _ _ s); [exact Hfind|exact Hid|].
      unfold ownedSchedule. cbn [with_enabled sch_id sch_deviceId].
      rewrite Hid, Nat.eqb_refl, Hdev. reflexivity. }
    replace (exec (toggleSchedule uid id (Some false)) w) with off
      by (unfold exec; rewrite Hoff; reflexivity).
    unfold exec. rewrite (toggleSchedule_run uid id (sch_enabled s) off _ Hfind').
    replace (with_enabled (sch_enabled s) (with_enabled false s)) with s
      by (destruct s; reflexivity).
    rewrite (Hs (sch_enabled s)) || (replace s with (with_enabled (sch_enabled s) s) at 1
                                       by (destruct s; reflexivity); rewrite Hs).
    cbn [snd log set_schedules schedules].
    change (schedules off) with (replaceSchedule (with_enabled false s) (schedules w)).
    apply replace_back; [exact Hnd|exact Hin|reflexivity].
Qed.

(** ** The notification routes *)






Lemma filter_none {A} (p : A -> bool) (l : list A) :
  (forall x, In x l -> p x = false) -> filter p l = [].
Proof.
  induction l as [|x l IH]; intros H; [reflexivity|]. cbn [filter].
  rewrite (H x (or_introl eq_refl)). apply IH. intros y Hy. apply H. right. exact Hy.
Qed.

(** X26. Marking all as read and deleting all act on the notifications of the
    caller and on no other.  After the first every notification of the
    caller is read, the others and the order of the collection are as
    before, and the number reported is the number that were unread; a
    second call reports 0 and changes nothing.  After the second no
    notification of the caller is left, those of the other users are all
    there in their order, and the number reported is the number the caller
    had. *)
Theorem notification_housekeeping_is_per_user (uid : nat) (w : World) :
  let mine n := Nat.eqb (ntf_userId n) uid in
  let read := exec (markAllNotificationsAsRead uid) w in
  let gone := exec (deleteAllNotifications uid) w in
  (forall n, In n (notifications read) -> mine n = true -> ntf_read n = true) /\
  filter (fun n => negb (mine n)) (notifications read) =
    filter (fun n => negb (mine n)) (notifications w) /\
  map ntf_id (notifications read) = map ntf_id (notifications w) /\
  result (markAllNotificationsAsRead uid) w =
    length (filter (fun n => mine n && negb (ntf_read n)) (notifications w)) /\
  result (markAllNotificationsAsRead uid) read = 0 /\
  notifications (exec (markAllNotificationsAsRead uid) read) = notifications read /\
  filter mine (notifications gone) = [] /\
  notifications gone = filter (fun n => negb (mine n)) (notifications w) /\
  result (deleteAllNotifications uid) w = length (filter mine (notifications w)) /\
  result (deleteAllNotifications uid) gone = 0.
Proof.
  cbv zeta.
  change (notifications (exec (markAllNotificationsAsRead uid) w))
    with (map (fun n => if unreadOf uid n then set_read n else n) (notifications w)).
  change (notifications (exec (deleteAllNotifications uid) w))
    with (filter (fun n => negb (Nat.eqb (ntf_userId n) uid)) (notifications w)).
  assert (forall l, filter (unreadOf uid)
                      (map (fun n => if unreadOf uid n then set_read n else n) l) = [])
    as Hnone.
  { intros l. apply filter_none. intros x Hin. apply in_map_iff in Hin.
    destruct Hin as [y [<- _]]. unfold unreadOf.
    destruct (Nat.eqb (ntf_userId y) uid) eqn:E, (ntf_read y) eqn:R;
      cbn [andb negb set_read ntf_userId ntf_read]; rewrite ?E, ?R; reflexivity. }
  repeat split.
  - intros n Hin Hmine. apply in_map_iff in Hin. destruct Hin as [y [<- _]].
    unfold unreadOf in *. destruct (Nat.eqb (ntf_userId y) uid) eqn:E;
      destruct (ntf_read y) eqn:R; cbn [andb negb] in *; try assumption; try reflexivity.
    congruence.
  - induction (notifications w) as [|x l IH]; [reflexivity|]. cbn [map filter].
    rewrite IH. unfold unreadOf.
    destruct (Nat.eqb (ntf_userId x) uid) eqn:E; cbn [andb negb].
    + destruct (ntf_read x); cbn [negb set_read ntf_userId]; rewrite E; reflexivity.
    + rewrite E. reflexivity.
  - rewrite map_map. apply map_ext. intros x. destruct (unreadOf uid x); reflexivity.
  - change (result (markAllNotificationsAsRead uid)
              (exec (markAllNotificationsAsRead uid) w))
      with (length (filter (unreadOf uid)
                      (map (fun n => if unreadOf uid n then set_read n else n)
                           (notifications w)))).
    rewrite Hnone. reflexivity.
  - change (notifications (exec (markAllNotificationsAsRead uid)
                             (exec (markAllNotificationsAsRead uid) w)))
      with (map (fun n => if unreadOf uid n then set_read n else n)
                (map (fun n => if unreadOf uid n then set_read n else n)
                     (notifications w))).
    rewrite <- (map_id (map _ (notifications w))) at 2.
    apply map_ext_in. intros x Hin.
    destruct (unreadOf uid x) eqn:E; [|reflexivity].
    exfalso. assert (In x (filter (unreadOf uid)
                             (map (fun n => if unreadOf uid n then set_read n else n)
                                  (notifications w)))) as H
      by (apply filter_In; split; assumption).
    rewrite Hnone in H. exact H.
  - apply filter_none. intros x Hin. apply filter_In in Hin. destruct Hin as [_ H].
    apply negb_true_iff. exact H.
  - change (result (deleteAllNotifications uid) (exec (deleteAllNotifications uid) w))
      with (length (filter (fun n => Nat.eqb (ntf_userId n) uid)
                      (filter (fun n => negb (Nat.eqb (ntf_userId n) uid))
                              (notifications w)))).
    rewrite filter_none; [reflexivity|]. intros x Hin. apply filter_In in Hin.
    destruct Hin as [_ H]. apply negb_true_iff. exact H.
Qed.

(** ** Readings entered by hand *)

(** X27. A reading posted through the API is stored and nothing else happens:
    whatever its value, no notification is raised and no device, command or
    schedule is touched, where the same value arriving as telemetry would
    have raised the alerts of its thresholds.  It is stored, with the answer
    201, exactly when the type is one of the four, the user has a device and
    the value is a number; it then belongs to the first device of the
    user. *)
Theorem manual_reading_raises_no_alert (uid : nat) (type : string)
    (value : option JS.JSNum) (w : World) :
  let w' := exec (addSensorReading uid type value) w in
  notifications w' = notifications w /\
  controlState w' = controlState w /\
  (forall r, result (addSensorReading uid type value) w = Some r ->
     sensorData w' = (sensorData w ++ [r])%list /\
     sd_fields r = (match filter (fun d => Nat.eqb (dev_userId d) uid) (devices w) with
                    | d :: _ => dev_id d
                    | [] => 0
                    end, type, match value with Some v => v | None => JS.NaN end) /\
     responses w' = (responses w ++ [(201, true, EmptyString)])%list) /\
  (result (addSensorReading uid type value) w = None -> sensorData w' = sensorData w) /\
  (result (addSensorReading uid type value) w <> None <->
   In type sensorTypes /\
   filter (fun d => Nat.eqb (dev_userId d) uid) (devices w) <> [] /\
   exists v, value = Some v /\ JS.isNaN v = false).
Proof.
  cbv zeta. unfold addSensorReading, schemaValidReading.
  assert (forall (w0 : World) (P : Prop),
            notifications w0 = notifications w -> controlState w0 = controlState w ->
            sensorData w0 = sensorData w -> ~ P ->
            notifications w0 = notifications w /\ controlState w0 = controlState w /\
            (forall r, @None SensorData = Some r ->
               sensorData w0 = (sensorData w ++ [r])%list /\
               sd_fields r = (match filter (fun d => Nat.eqb (dev_userId d) uid) (devices w)
                              with d :: _ => dev_id d | [] => 0 end, type,
                              match value with Some v => v | None => JS.NaN end) /\
               responses w0 = (responses w ++ [(201, true, EmptyString)])%list) /\
            (@None SensorData = None -> sensorData w0 = sensorData w) /\
            (@None SensorData <> None <-> P)) as Hrefused.
  { intros w0 P Hn Hc Hsd HP. split; [exact Hn|]. split; [exact Hc|].
    split; [intros r Hr; discriminate Hr|]. split; [intros _; exact Hsd|].
    split; [intros Hx; exfalso; apply Hx; reflexivity|intros Hx; contradiction]. }
  destruct (String.eqb type EmptyString) eqn:Hempty.
  { apply String.eqb_eq in Hempty. subst type. cbn [orb].
    apply Hrefused; try reflexivity.
    intros [Hin _]. cbn in Hin. intuition discriminate. }
  cbn [orb].
  destruct (inEnum type sensorTypes) eqn:Henum; cbn [negb andb].
  2:{ apply Hrefused; try reflexivity.
      intros [Hin _]. apply includes_In in Hin. unfold inEnum in Henum. congruence. }
  apply includes_In in Henum.
  unfold exec, result, Device_find_userId, bind, get, ret. cbv beta iota. cbn [fst snd].
  destruct (filter (fun d => Nat.eqb (dev_userId d) uid) (devices w)) as [|d ds] eqn:E.
  { apply Hrefused; try reflexivity. intros [_ [Hx _]]. apply Hx. reflexivity. }
  destruct value as [v|].
  2:{ apply Hrefused; try reflexivity. intros [_ [_ [v [Hx _]]]]. discriminate Hx. }
  destruct (JS.isNaN v) eqn:Hnan; cbn [negb].
  { apply Hrefused; try reflexivity.
    intros [_ [_ [v' [Hx Hy]]]]. injection Hx as <-. congruence. }
  clear Hrefused.
  unfold SensorData_create, bind, get, ret, modify, respond, emit, modify.
  cbv beta iota. cbn [fst snd].
  split; [reflexivity|]. split; [reflexivity|]. split; [|split].
  - intros r Hr. injection Hr as <-. split; [reflexivity|]. split; [reflexivity|].
    unfold responses. cbn [log trace set_sensorData].
    rewrite flat_map_app. reflexivity.
  - intros Hx. discriminate Hx.
  - split; [|intros _; discriminate].
    intros _. split; [exact Henum|]. split; [discriminate|].
    exists v. split; [reflexivity|exact Hnan].
Qed.

(** ** The further properties at concrete inputs *)

Lemma sendCommand_refuses_offline_or_unknown_witness :
  sendCommand "reboot" (JS.ofZ 1) 7 fleet = (false, log (SendCommandResult false) fleet).
Proof.
  apply sendCommand_refuses_offline_or_unknown. right. repeat split; discriminate.
Defined.

Lemma sendCommand_effect_witness :
  let w' := exec (sendCommand "dispenseWater" (JS.ofZ 40) 7) fleet in
  connected fleet = true /\
  wire w' = [mkPublish brokerUrl s2cTopic "W40"] /\
  commands w' = [mkCommand 0 7 "dispenseWater" (JS.ofZ 40) "processing"].
Proof.
  intros w'.
  assert (quiescent fleet) as Hq
    by (split; [reflexivity|intros [|i] c H; discriminate H]).
  destruct (sendCommand_effect DispenseWater (JS.ofZ 40) 7 fleet eq_refl Hq)
    as [_ [Hw [Hc _]]].
  split; [reflexivity|]. split; [exact Hw|exact Hc].
Defined.


Lemma request_value_bounds_witness :
  invalidAmount (Some (JS.ofZ 100)) = false /\
  invalidTemperature (Some (JS.ofZ 15)) = false /\
  invalidAmount (Some (JS.Fin false 5 (-1))) = false.
Proof.
  destruct request_value_bounds as [Hamount [Htemperature [_ [_ Hfraction]]]].
  split; [apply Hamount; lia|]. split; [apply Htemperature; lia|].
  apply Hfraction; [reflexivity|reflexivity|reflexivity].
Defined.

Lemma http_controllers_act_only_when_valid_and_online_witness :
  let w := deployment "online" reliableNet in
  commands (exec (dispenseWater amount50) w) <> commands w /\
  invalidAmount (body_amount amount50) = false /\
  exists d, primaryDevice (req_user amount50) w = Some d /\ isOnline d = true.
Proof.
  intros w.
  assert (commands (exec (dispenseWater amount50) w) <> commands w) as Hacts
    by (vm_compute; discriminate).
  split; [exact Hacts|].
  apply (http_controllers_act_only_when_valid_and_online amount50 w dispenseWater
           (invalidAmount (body_amount amount50))).
  - right. left. reflexivity.
  - left. exact Hacts.
Defined.

Lemma http_water_temperature_effect_witness :
  let w := deployment "online" reliableNet in
  let w' := exec (dispenseWater amount50) w in
  primaryDevice 1 w = Some (feeder "online") /\
  commands w' = [mkCommand 0 7 "dispenseWater" (JS.ofZ 50) "processing"] /\
  wire w' = [mkPublish brokerUrl s2cTopic "W50"] /\
  responses w' = [(200, true, "Water dispense command sent successfully")].
Proof.
  intros w w'.
  assert (quiescent w) as Hq by (split; [reflexivity|intros [|i] c H; discriminate H]).
  destruct (http_water_temperature_effect amount50 (feeder "online") w
              eq_refl eq_refl Hq) as [Hwater _].
  split; [reflexivity|]. exact (Hwater (JS.ofZ 50) eq_refl eq_refl).
Defined.

Lemma http_dispenseFood_outcomes_witness :
  let w := deployment "online" failingNet in
  let w' := exec (dispenseFood amount50) w in
  invalidAmount (Some (JS.ofZ 50)) = false /\
  commands w' = [mkCommand 0 7 "dispenseFood" (JS.ofZ 50) "failed"] /\
  responses w' = [(500, false, "Failed to send command to device")].
Proof.
  intros w w'.
  assert (quiescent w) as Hq by (split; [reflexivity|intros [|i] c H; discriminate H]).
  destruct (http_dispenseFood_outcomes amount50 (JS.ofZ 50) (feeder "online") w
              eq_refl eq_refl eq_refl eq_refl Hq) as [Hc [_ [Hr _]]].
  split; [reflexivity|]. split; [exact Hc|exact Hr].
Defined.

Lemma tick_without_dispatchable_schedule_witness :
  checkAndExecuteSchedules (mkInstant Tuesday 8 0) feedingPlan = (tt, feedingPlan).
Proof.
  apply tick_without_dispatchable_schedule.
  intros s [<-|[<-|[]]] Hdue; vm_compute in Hdue; discriminate Hdue.
Defined.

Lemma due_schedule_is_recorded_twice_witness :
  let w' := exec (executeSchedule morningFood) feedingPlan in
  deviceKnown morningFood feedingPlan = true /\
  commands w' = [mkCommand 0 7 "dispenseFood" (JS.ofZ 30) "processing";
                 mkCommand 1 7 "dispenseFood" (JS.ofZ 30) "processing"] /\
  wire w' = [mkPublish brokerUrl s2cTopic "F30"].
Proof.
  intros w'.
  assert (quiescent feedingPlan) as Hq
    by (split; [reflexivity|intros [|i] c H; discriminate H]).
  split; [reflexivity|].
  exact (due_schedule_is_recorded_twice morningFood feedingPlan eq_refl Hq).
Defined.

Lemma tick_records_each_due_schedule_witness :
  let w' := exec (checkAndExecuteSchedules (mkInstant Monday 8 0)) feedingPlan in
  length (commands w') = 2 /\ length (wire w') = 1.
Proof.
  intros w'.
  assert (quiescent feedingPlan) as Hq
    by (split; [reflexivity|intros [|i] c H; discriminate H]).
  destruct (tick_records_each_due_schedule (mkInstant Monday 8 0) feedingPlan Hq)
    as [Hc [Hw _]].
  split; [exact Hc|exact Hw].
Defined.

Lemma socket_connection_sets_device_status_witness :
  primaryDevice 1 (exec (socket_disconnect 1) fleet) = Some (mkDevice 7 1 "feeder" "offline") /\
  primaryDevice 2 (exec (socket_connect 2) fleet) = Some (mkDevice 8 2 "spare" "online").
Proof.
  split.
  - exact (proj1 (proj2 (proj1 (socket_connection_sets_device_status 1 fleet)
                           (mkDevice 7 1 "feeder" "online") eq_refl))).
  - exact (proj1 (proj1 (socket_connection_sets_device_status 2 fleet)
                    (mkDevice 8 2 "spare" "offline") eq_refl)).
Defined.

Lemma http_refuses_after_socket_disconnect_witness :
  let w := deployment "online" reliableNet in
  let w1 := exec (socket_disconnect 1) w in
  commands (exec (dispenseWater amount50) w1) = [] /\
  wire (exec (dispenseWater amount50) w1) = [].
Proof.
  intros w w1.
  apply (http_refuses_after_socket_disconnect amount50 w dispenseWater).
  right. left. reflexivity.
Defined.

Lemma socket_command_effect_witness :
  let w := deployment "offline" reliableNet in
  let w' := exec (socket_dispenseFood 1 (Some (JS.ofZ 50))) w in
  primaryDevice 1 w = Some (feeder "offline") /\
  commands w' = [mkCommand 0 7 "dispenseFood" (JS.ofZ 50) "processing";
                 mkCommand 1 7 "dispenseFood" (JS.ofZ 50) "processing"] /\
  wire w' = [mkPublish brokerUrl s2cTopic "F50"].
Proof.
  intros w w'.
  assert (quiescent w) as Hq by (split; [reflexivity|intros [|i] c H; discriminate H]).
  destruct (socket_command_effect DispenseFood invalidAmount
              "Invalid amount. Must be between 1 and 100."
              "Food Dispense Command Sent"
              (fun amount => "Command to dispense " ++ JS.toString amount ++
                             "% of food has been sent to the device.")
              1 (JS.ofZ 50) (feeder "offline") w eq_refl eq_refl Hq) as [Hc [Hw _]].
  split; [reflexivity|]. split; [exact Hc|exact Hw].
Defined.

Lemma polling_lists_pending_commands_witness :
  let w := deployment "online" failingNet in
  result (getPendingCommands 1 7) (exec (sendCommand "dispenseWater" (JS.ofZ 40) 7) w) =
    Some [mkCommand 0 7 "dispenseWater" (JS.ofZ 40) "pending"] /\
  getPendingCommands 2 7 w =
    (None, log (Responded 404 false "Device not found or not authorized") w).
Proof.
  intros w.
  assert (quiescent w) as Hq by (split; [reflexivity|intros [|i] c H; discriminate H]).
  destruct (polling_lists_pending_commands 1 7 w) as [Howned _].
  destruct (polling_lists_pending_commands 2 7 w) as [_ Hforeign].
  split.
  - exact (proj2 (Howned (feeder "online") eq_refl) DispenseWater (JS.ofZ 40) eq_refl Hq).
  - exact (Hforeign eq_refl).
Defined.

Lemma status_report_updates_owned_command_witness :
  let report := mkStatusReport "completed" (Some "food") (Some (JS.ofZ 80)) in
  let w' := exec (updateCommand 1 0 report) fedOnce in
  nth_error (commands w') 0 = Some (mkCommand 0 7 "dispenseFood" (JS.ofZ 50) "completed") /\
  map sd_fields (sensorData w') = [(7, "food", JS.ofZ 80)] /\
  responses w' = [(200, true, EmptyString)] /\
  commands (exec (updateCommand 2 0 report) fedOnce) = commands fedOnce.
Proof.
  intros report w'.
  assert (quiescent fedOnce) as Hq.
  { split; [reflexivity|]. intros [|[|i]] c H; try discriminate H.
    injection H as <-. reflexivity. }
  destruct (status_report_updates_owned_command 1 0 report fedOnce Hq) as [_ Howned].
  destruct (status_report_updates_owned_command 2 0 report fedOnce Hq) as [Hforeign _].
  destruct (Howned (mkCommand 0 7 "dispenseFood" (JS.ofZ 50) "processing")
              (feeder "online") eq_refl eq_refl eq_refl) as [Hnth [_ [_ [Hsd Hr]]]].
  split; [exact Hnth|]. split; [exact Hsd|]. split; [exact Hr|].
  apply Hforeign. left. reflexivity.
Defined.

Lemma accepted_times_are_the_minutes_of_a_day_witness :
  timePattern "18:30" = true /\ timePattern "24:00" = false /\ timePattern "8:00" = false /\
  exists h m, (0 <= h < 24)%Z /\ (0 <= m < 60)%Z /\ "23:59" = hhmm h m.
Proof.
  destruct (accepted_times_are_the_minutes_of_a_day "18:30") as [[_ Haccepted] _].
  destruct (accepted_times_are_the_minutes_of_a_day "23:59") as [[Hshape _] _].
  split; [|split; [reflexivity|split; [reflexivity|]]].
  - apply Haccepted. exists 18%Z, 30%Z. split; [lia|]. split; [lia|reflexivity].
  - apply Hshape. reflexivity.
Defined.


Lemma createSchedule_refusals_witness :
  invalidAmount (Some (JS.Fin false 5 (-1))) = false /\
  createSchedule 1 (eveningFood (JS.Fin false 5 (-1))) feedingPlan =
    (None, log (Responded 500 false "Server error") feedingPlan) /\
  createSchedule 4 (eveningFood (JS.ofZ 30)) feedingPlan =
    (None, log (Responded 404 false "No devices found") feedingPlan) /\
  exists message,
    createSchedule 1 (eveningFood (JS.ofZ 0)) feedingPlan =
      (None, log (Responded 400 false message) feedingPlan).
Proof.
  split; [reflexivity|]. split; [|split].
  - destruct (createSchedule_refusals 1 (eveningFood (JS.Fin false 5 (-1))) feedingPlan)
      as [_ Hvalid].
    destruct (Hvalid eq_refl) as [_ Hlow].
    apply (Hlow (JS.Fin false 5 (-1)) eq_refl eq_refl). discriminate.
  - destruct (createSchedule_refusals 4 (eveningFood (JS.ofZ 30)) feedingPlan)
      as [_ Hvalid].
    destruct (Hvalid eq_refl) as [Hnone _]. apply Hnone. reflexivity.
  - destruct (createSchedule_refusals 1 (eveningFood (JS.ofZ 0)) feedingPlan)
      as [Hinvalid _].
    apply Hinvalid. reflexivity.
Defined.

Lemma update_changes_one_schedule_or_nothing_witness :
  let late := mkScheduleBody None (Some "09:15") None None None in
  let odd := mkScheduleBody (Some "treats") (Some "9:15") None (Some (JS.Fin false 5 (-1)))
                            None in
  schedulesWellFormed (schedules feedingPlan) /\
  updateSchedule 1 1 late feedingPlan =
    (Some (with_time "09:15" morningFood),
     log (Responded 200 true EmptyString)
         (set_schedules (replaceSchedule (with_time "09:15" morningFood)) feedingPlan)) /\
  updateSchedule 1 1 odd feedingPlan =
    (None, log (Responded 500 false "Server error") feedingPlan).
Proof.
  intros late odd.
  assert (schedulesWellFormed (schedules feedingPlan)) as Hwf.
  { split; [|reflexivity]. cbn. repeat (constructor; [cbn; intuition discriminate|]).
    constructor. }
  split; [exact Hwf|]. split.
  - destruct (update_changes_one_schedule_or_nothing 1 1 late feedingPlan morningFood
                Hwf eq_refl) as [_ Hsaved].
    exact (proj1 (Hsaved eq_refl)).
  - destruct (update_changes_one_schedule_or_nothing 1 1 odd feedingPlan morningFood
                Hwf eq_refl) as [Hrefused _].
    exact (Hrefused eq_refl).
Defined.

Lemma schedule_routes_keep_store_well_formed_witness :
  schedulesWellFormed (schedules feedingPlan) /\
  schedulesWellFormed
    (schedules (exec (createSchedule 1 (eveningFood (JS.ofZ 30))) feedingPlan)) /\
  schedulesWellFormed (schedules (exec (deleteSchedule 1 1) feedingPlan)).
Proof.
  assert (schedulesWellFormed (schedules feedingPlan)) as Hwf.
  { split; [|reflexivity]. cbn. repeat (constructor; [cbn; intuition discriminate|]).
    constructor. }
  destruct (schedule_routes_keep_store_well_formed 1 1 (eveningFood (JS.ofZ 30)) None
              feedingPlan Hwf) as [Hcreate [_ [_ Hdelete]]].
  split; [exact Hwf|]. split; [exact Hcreate|exact Hdelete].
Defined.

Lemma schedule_routes_touch_only_own_schedules_witness :
  scheduleOwnedBy 1 feedingPlan noonWater = false /\
  In noonWater (schedules (exec (deleteSchedule 1 2) feedingPlan)) /\
  In noonWater
     (schedules (exec (updateSchedule 1 2 (eveningFood (JS.ofZ 30))) feedingPlan)) /\
  exists message,
    deleteSchedule 1 2 feedingPlan = (tt, log (Responded 404 false message) feedingPlan).
Proof.
  assert (NoDup (map sch_id (schedules feedingPlan))) as Hnd.
  { cbn. repeat (constructor; [cbn; intuition discriminate|]). constructor. }
  assert (In noonWater (schedules feedingPlan)) as Hin by (right; left; reflexivity).
  destruct (schedule_routes_touch_only_own_schedules 1 2 (eveningFood (JS.ofZ 30)) None
              feedingPlan noonWater Hnd Hin eq_refl)
    as [[_ [Hupdate [_ Hdelete]]] Hnotfound].
  split; [reflexivity|]. split; [exact Hdelete|]. split; [exact Hupdate|].
  destruct (Hnotfound eq_refl) as [message [_ [_ Hd]]]. exists message. exact Hd.
Defined.

Lemma disabled_schedule_is_skipped_like_a_deleted_one_witness :
  let now := mkInstant Monday 8 0 in
  let off := exec (toggleSchedule 1 1 (Some false)) feedingPlan in
  shouldRunSchedule morningFood now = true /\
  checkAndExecuteSchedules now off = (tt, off) /\
  ~ In 1 (map sch_id (schedules (exec (deleteSchedule 1 1) feedingPlan))) /\
  schedules (exec (toggleSchedule 1 1 (Some true)) off) = schedules feedingPlan.
Proof.
  intros now off.
  assert (schedulesWellFormed (schedules feedingPlan)) as Hwf.
  { split; [|reflexivity]. cbn. repeat (constructor; [cbn; intuition discriminate|]).
    constructor. }
  destruct (disabled_schedule_is_skipped_like_a_deleted_one 1 1 feedingPlan morningFood
              now Hwf eq_refl) as [Hoff [_ [Hgone Hback]]].
  split; [reflexivity|]. split; [exact Hoff|]. split; [exact Hgone|exact Hback].
Defined.

